(** * electron-todo: delta update pipeline and client

    A shallow embedding of the delta-update code of the repository:
    the release index filter ([getPreviousReleases]), the build pipeline
    ([createDelta], [DeltaInstallerBuilder], [createAllDeltas]), the URL
    helpers ([newBaseUrl], [newUrlFromBase]), the client download helper
    ([downloadFile]) and the update state machine of [DeltaUpdater]
    (the [update-available] handler and [doSmartDownload]).

    External collaborators (the file system, the network, the diff tool,
    the installer compiler, the signing callback, SHA-256, semver) are
    explicit parameters; the code of the repository is translated
    function by function. *)

From Stdlib Require Import ZArith Lia Bool Ascii.
From Stdlib Require String.
From stdpp Require Import gmap strings list.

(* ===================================================================== *)
(** ** JavaScript string primitives *)
(* ===================================================================== *)

Module Js.

(** [s.startsWith(p)] *)
Definition startsWith (p s : string) : bool := String.prefix p s.

(** [s.endsWith(suf)] *)
Fixpoint endsWith (suf s : string) : bool :=
  if String.eqb s suf then true
  else match s with
       | EmptyString => false
       | String _ s' => endsWith suf s'
       end.

(** [s.includes(sub)] *)
Fixpoint includes (sub s : string) : bool :=
  if String.prefix sub s then true
  else match s with
       | EmptyString => false
       | String _ s' => includes sub s'
       end.

(** [c] occurs in [s]. *)
Fixpoint hasChar (c : ascii) (s : string) : bool :=
  match s with
  | EmptyString => false
  | String a r => if Ascii.eqb a c then true else hasChar c r
  end.

(** [s] cut at the first [c]: what precedes it, and what follows it when
    [c] occurs. *)
Fixpoint splitAt (c : ascii) (s : string) : string * option string :=
  match s with
  | EmptyString => (EmptyString, None)
  | String a r =>
      if Ascii.eqb a c then (EmptyString, Some r)
      else let '(x, y) := splitAt c r in (String a x, y)
  end.

(** [s.slice(n)] *)
Fixpoint dropN (n : nat) (s : string) : string :=
  match n, s with
  | O, _ => s
  | S n', String _ r => dropN n' r
  | S _, EmptyString => EmptyString
  end.

(** [arr.slice(0, n)] *)
Definition slice0 {A} (n : nat) (l : list A) : list A := take n l.

(** Template-literal conversion of a possibly-null string. *)
Definition toStr (v : option string) : string :=
  match v with Some s => s | None => "null" end.

End Js.

(* ===================================================================== *)
(** ** The release index filter (getPreviousReleases) *)
(* ===================================================================== *)

Module ReleaseIndex.

(** One element of [release.assets]. *)
Record Asset := { browser_download_url : string }.

(** One element of the release list answered by the index. *)
Record IndexRelease := { tag_name : string; assets : list Asset }.

(** What the resolver returns: [{ version, url }]. *)
Record Release := { version : string; url : string }.

(** [platform === 'win' ? (target === 'nsis-web' ? '.7z' : '.exe') : '.zip'] *)
Definition ext (platform target : string) : string :=
  if String.eqb platform "win"
  then (if String.eqb target "nsis-web" then ".7z" else ".exe")
  else ".zip".

(** The body of the [forEach]: web installers and delta files are ignored. *)
Definition notDeltaNorSetup (u : string) : bool :=
  negb (Js.endsWith "-delta.exe" u) && negb (Js.includes "-Setup" u).

(** The urls of one release that survive the
    [map / filter / filter / forEach] chain. *)
Definition keptUrls (e : string) (r : IndexRelease) : list string :=
  filter (fun u => Is_true (notDeltaNorSetup u))
    (filter (fun u => Is_true (Js.endsWith e u))
      (filter (fun u => Is_true (negb (Js.includes "untagged" u)))
        (map browser_download_url (assets r)))).

(** The reducer: pushes one [{version, url}] per kept url onto [arr]. *)
Definition reducer (e : string) (arr : list Release) (r : IndexRelease)
  : list Release :=
  arr ++ map (fun u => {| version := tag_name r; url := u |}) (keptUrls e r).

(** [getPreviousReleases({ platform, target })], on the [data] answered
    by the index. *)
Definition getPreviousReleases (data : list IndexRelease)
    (platform target : string) : list Release :=
  let e := ext platform target in
  let prevReleases := fold_left (reducer e) data [] in
  Js.slice0 3 prevReleases.

(** The scenario of the specification: four index entries, one asset
    each. *)
Definition dl (tag file : string) : string :=
  "https://github.com/o/r/releases/download/" +:+ tag +:+ "/" +:+ file.

(** An index entry with one asset. *)
Definition indexEntry (tag u : string) : IndexRelease :=
  {| tag_name := tag; assets := [ {| browser_download_url := u |} ] |}.

(** A plain installer: an [.exe] that is neither untagged, nor a web
    installer, nor a delta. *)
Definition plainInstaller (u : string) : bool :=
  negb (Js.includes "untagged" u) && Js.endsWith ".exe" u
  && notDeltaNorSetup u.

Definition scenario : list IndexRelease :=
  [ indexEntry "1.0.0" (dl "1.0.0" "App-1.0.0.exe");
    indexEntry "1.1.0" (dl "1.1.0" "App-1.1.0.exe");
    indexEntry "1.1.0" (dl "1.1.0" "App-1.1.0-Setup.exe");
    indexEntry "1.2.0" (dl "1.2.0" "App-1.2.0-delta.exe") ].

End ReleaseIndex.

(* ===================================================================== *)
(** ** Effects: a state-and-exception monad with an event trace *)
(* ===================================================================== *)

Module Eff.

(** The world a run acts on: the files on disk (path to content;
    directories are implicit: a directory exists when some file lies
    below it) and the trace of collaborator calls made so far. *)
Record World (E : Type) := mkWorld {
  files : gmap string string;
  trace : list E
}.
Arguments mkWorld {E} _ _.
Arguments files {E} _.
Arguments trace {E} _.

(** How an awaited computation ends: it returns, it throws (a rejected
    promise), or it never settles. *)
Inductive Res (A : Type) :=
| Ok (a : A)
| Throw (e : string)
| Pending.
Arguments Ok {A} _.
Arguments Throw {A} _.
Arguments Pending {A}.

Definition M (E A : Type) : Type := World E -> Res A * World E.

Definition ret {E A} (a : A) : M E A := fun w => (Ok a, w).

Definition bind {E A B} (m : M E A) (f : A -> M E B) : M E B :=
  fun w => match m w with
           | (Ok a, w1) => f a w1
           | (Throw e, w1) => (Throw e, w1)
           | (Pending, w1) => (Pending, w1)
           end.

Definition throw {E A} (e : string) : M E A := fun w => (Throw e, w).

Definition hang {E A} : M E A := fun w => (Pending, w).

(** [try { m } catch (e) { h e }] *)
Definition try_catch {E A} (m : M E A) (h : string -> M E A) : M E A :=
  fun w => match m w with
           | (Throw e, w1) => h e w1
           | r => r
           end.

Definition emit {E} (e : E) : M E unit :=
  fun w => (Ok tt, mkWorld (files w) (trace w ++ [e])).

Definition getFiles {E} : M E (gmap string string) :=
  fun w => (Ok (files w), w).

Definition setFiles {E} (fs : gmap string string) : M E unit :=
  fun w => (Ok tt, mkWorld fs (trace w)).

(** [for (const x of l) { await f x }] *)
Fixpoint forM {E A} (l : list A) (f : A -> M E unit) : M E unit :=
  match l with
  | [] => ret tt
  | x :: r => bind (f x) (fun _ => forM r f)
  end.

(** A loop that updates a local variable. *)
Fixpoint foldM {E A S} (l : list A) (s : S) (f : S -> A -> M E S) : M E S :=
  match l with
  | [] => ret s
  | x :: r => bind (f s x) (fun s' => foldM r s' f)
  end.

End Eff.

#[global] Instance M_ret {E} : MRet (Eff.M E) := fun A => @Eff.ret E A.
#[global] Instance M_bind {E} : MBind (Eff.M E) :=
  fun A B f m => @Eff.bind E A B m f.

(* ===================================================================== *)
(** ** The file system (fs, fs-extra, path) *)
(* ===================================================================== *)

Module Fs.

(** Paths are normalised absolute POSIX paths, and a directory is there
    as soon as a file lies below it. Faults of the operating system
    (permissions, a full disk) are not modelled: an operation fails only
    for a reason the model can see, such as a missing file. *)

(** [path.join(a, b)] *)
Definition join (a b : string) : string := a +:+ "/" +:+ b.

(** [path.resolve(p)]: every path of the model is absolute. *)
Definition resolve (p : string) : string := p.

(** [p] lies below directory [d]. *)
Definition under (d p : string) : bool := String.prefix (d +:+ "/") p.

(** [fs.existsSync(p)]: a file, or a directory with something in it. *)
Definition existsSync (fs : gmap string string) (p : string) : bool :=
  bool_decide (is_Some (fs !! p))
  || bool_decide (map_Exists (fun k _ => Is_true (under p k)) fs).

(** [fs.emptyDirSync(d)] / [fs.emptyDir(d)] *)
Definition emptied (d : string) (fs : gmap string string)
  : gmap string string :=
  filter (fun kv => ~ Is_true (under d kv.1)) fs.

Fixpoint firstSegment (s : string) : string :=
  match s with
  | EmptyString => EmptyString
  | String c r => if Ascii.eqb c "/" then EmptyString
                  else String c (firstSegment r)
  end.

(** The entry of [d] that holds [p], when [p] lies below [d]. *)
Definition child (d p : string) : option string :=
  if under d p then Some (firstSegment (Js.dropN (S (String.length d)) p))
  else None.

(** [fs.readdirSync(d)] *)
Definition readdirSync (fs : gmap string string) (d : string)
  : list string :=
  remove_dups (omap (child d) (map fst (map_to_list fs))).

Section Ops.
Context {E : Type}.

(** [fs.ensureDirSync(d)] / [fs.ensureDir(d)]: directories are
    implicit, nothing to record. *)
Definition ensureDir (d : string) : Eff.M E unit := Eff.ret tt.

Definition emptyDir (d : string) : Eff.M E unit :=
  fs ← Eff.getFiles; Eff.setFiles (emptied d fs).

(** [fs.readFileSync(p)]: throws when there is no file at [p]. *)
Definition readFileSync (p : string) : Eff.M E string :=
  fs ← Eff.getFiles;
  match fs !! p with
  | Some c => Eff.ret c
  | None => Eff.throw "ENOENT"
  end.

(** [fs.writeFileSync(p, c)] *)
Definition writeFileSync (p c : string) : Eff.M E unit :=
  fs ← Eff.getFiles; Eff.setFiles (<[p := c]> fs).

(** [fs.move(src, dest)] of fs-extra (no overwrite): the source must
    exist and the destination must not. *)
Definition move (src dest : string) : Eff.M E unit :=
  fs ← Eff.getFiles;
  match fs !! src with
  | None => Eff.throw "ENOENT"
  | Some c =>
      if existsSync fs dest then Eff.throw "dest already exists."
      else Eff.setFiles (<[dest := c]> (delete src fs))
  end.
End Ops.

End Fs.

(* ===================================================================== *)
(** ** The manifest object and JSON.stringify *)
(* ===================================================================== *)

Module Json.

(** A manifest entry [{ path, sha256 }]; a field may be absent. *)
Record Entry := mkEntry { path : option string; sha256 : option string }.

(** The values a manifest holds: strings ([productName],
    [latestVersion]) and entries. *)
Inductive Value :=
| VStr (s : string)
| VEntry (e : Entry).

(** A JavaScript object with string keys, in insertion order (a
    manifest key is a product field or a semver string, never an array
    index, so insertion order is enumeration order). *)
Definition Obj := list (string * Value).

(** [o[k] = v]: replaces in place, or appends. *)
Fixpoint set (k : string) (v : Value) (o : Obj) : Obj :=
  match o with
  | [] => [(k, v)]
  | (k', v') :: r =>
      if String.eqb k' k then (k, v) :: r else (k', v') :: set k v r
  end.

(** [o[k]] *)
Fixpoint get (k : string) (o : Obj) : option Value :=
  match o with
  | [] => None
  | (k', v') :: r => if String.eqb k' k then Some v' else get k r
  end.

Definition keys (o : Obj) : list string := map fst o.

(** The entries of a manifest, with the version they are filed under. *)
Definition entries (o : Obj) : list (string * Entry) :=
  omap (fun kv => match kv.2 with
                  | VEntry e => Some (kv.1, e)
                  | VStr _ => None
                  end) o.

(** [{ ...o[k], sha256 }]: spreading the entry filed under [k]. The
    pipeline only spreads keys it has just set to an entry. *)
Definition spreadWithSha (v : option Value) (sha : string) : Value :=
  match v with
  | Some (VEntry e) => VEntry (mkEntry (path e) (Some sha))
  | _ => VEntry (mkEntry None (Some sha))
  end.

Definition dq : string := String "034" EmptyString.
Definition bs : string := String "092" EmptyString.
Definition nl : string := String "010" EmptyString.

Definition hexDigit (n : nat) : ascii :=
  nth n ["0";"1";"2";"3";"4";"5";"6";"7";"8";"9";"a";"b";"c";"d";"e";"f"]%char
    "0"%char.

Definition escapeChar (c : ascii) : string :=
  if Ascii.eqb c "034" then bs +:+ dq
  else if Ascii.eqb c "092" then bs +:+ bs
  else if Ascii.eqb c "008" then bs +:+ "b"
  else if Ascii.eqb c "009" then bs +:+ "t"
  else if Ascii.eqb c "010" then bs +:+ "n"
  else if Ascii.eqb c "012" then bs +:+ "f"
  else if Ascii.eqb c "013" then bs +:+ "r"
  else let n := nat_of_ascii c in
       if Nat.ltb n 32
       then bs +:+ "u00" +:+ String (hexDigit (n / 16))
                               (String (hexDigit (n mod 16)) EmptyString)
       else String c EmptyString.

Fixpoint escape (s : string) : string :=
  match s with
  | EmptyString => EmptyString
  | String c r => escapeChar c +:+ escape r
  end.

Definition quote (s : string) : string := dq +:+ escape s +:+ dq.

Fixpoint sepBy (sep : string) (l : list string) : string :=
  match l with
  | [] => EmptyString
  | [x] => x
  | x :: r => x +:+ sep +:+ sepBy sep r
  end.

Definition block (indent closing : string) (fields : list string)
  : string :=
  match fields with
  | [] => "{}"
  | _ => "{" +:+ nl
         +:+ sepBy ("," +:+ nl) (map (fun f => indent +:+ f) fields)
         +:+ nl +:+ closing +:+ "}"
  end.

Definition field (k v : string) : string := quote k +:+ ": " +:+ v.

Definition optField (k : string) (v : option string) : list string :=
  match v with Some s => [field k (quote s)] | None => [] end.

Definition stringifyValue (v : Value) : string :=
  match v with
  | VStr s => quote s
  | VEntry e =>
      block "    " "  " (optField "path" (path e)
                         ++ optField "sha256" (sha256 e))
  end.

(** [JSON.stringify(o, null, 2)] *)
Definition stringify (o : Obj) : string :=
  block "  " "" (map (fun kv => field kv.1 (stringifyValue kv.2)) o).

End Json.

(* ===================================================================== *)
(** ** The build pipeline (delta-builder) *)
(* ===================================================================== *)

Module Builder.
Import Eff.

(** The collaborator calls a build run makes. *)
Inductive Event :=
| EvDownload (url filePath : string)
| EvExtract (zipPath extractedDir : string)
| EvCreateDelta (oldDir newDir patchOut : string) (status : option (option Z))
| EvSpawn (exe : string) (args : list string)
| EvSign (filePath : string)
| EvWriteFile (filePath : string).

(** What [spawnSync] does: it throws, or it returns with the exit
    status of the child ([None] when the child could not be started)
    and whatever the child did to the disk. *)
Inductive SpawnResult :=
| SpawnThrow
| SpawnReturn (status : option Z) (after : gmap string string).

(** A [got] download: the whole body, or a failure part-way. *)
Inductive GotResult :=
| GotBody (body : string)
| GotError (written : option string).

(** A 7zip run: the [end] or the [error] event, and the disk after it. *)
Inductive ZipResult :=
| ZipEnd (after : gmap string string)
| ZipError (after : gmap string string).

Inductive HostPlatform := Darwin | Win32 | OtherHost.

(** Libraries and programs outside the repository. *)
Record Tools := {
  sha256hex : string -> string;
  semverClean : string -> option string;
  basename : string -> string;
  got : string -> GotResult;
  sevenZip : string -> string -> gmap string string -> ZipResult;
  spawnSync : string -> list string -> gmap string string -> SpawnResult
}.

(** The machine the build runs on. *)
Record Host := {
  hostPlatform : HostPlatform;
  deltaBinsDir : string;
  createDeltaDirname : string;
  installerBuilderDirname : string
}.

(** [CreateAllDeltasOptions] (the logger apart). The two callbacks are
    given by what they do: [getPreviousReleases] answers a list or
    rejects, [sign] changes the disk or throws. *)
Record Options := {
  platform : string;
  outDir : string;
  cacheDir : string;
  target : string;
  getPreviousReleases :
    string -> string -> option (list ReleaseIndex.Release);
  sign : string -> gmap string string -> option (gmap string string);
  productIconPath : string;
  productName : string;
  processName : string;
  latestReleaseFilePath : string;
  latestReleaseFileName : string;
  latestVersion : string
}.

Section Pipeline.
Variable T : Tools.
Variable H : Host.

Abbreviation M := (Eff.M Event).

(** *** utils.ts *)

Definition downloadFile (url filePath : string) : M string :=
  emit (EvDownload url filePath);;
  fs ← getFiles;
  match got T url with
  | GotBody body => setFiles (<[filePath := body]> fs);; mret filePath
  | GotError written =>
      match written with
      | Some c => setFiles (<[filePath := c]> fs)
      | None => mret tt
      end;;
      throw "download failed"
  end.

Definition downloadFileIfNotExists (url filePath : string) : M string :=
  fs ← getFiles;
  if Fs.existsSync fs filePath then mret filePath
  else downloadFile url filePath.

Definition extract7zip (zipPath extractedDir : string) : M string :=
  emit (EvExtract zipPath extractedDir);;
  fs ← getFiles;
  match sevenZip T zipPath extractedDir fs with
  | ZipEnd fs' => setFiles fs';; mret extractedDir
  | ZipError fs' => setFiles fs';; throw "extract failed"
  end.

Definition safeSpawn (exe : string) (args : list string) : M bool :=
  emit (EvSpawn exe args);;
  fs ← getFiles;
  match spawnSync T exe args fs with
  | SpawnThrow => throw "spawn"
  | SpawnReturn _ fs' => setFiles fs';; mret true
  end.

Definition computeSHA256 (filePath : string) : M string :=
  fileBuffer ← Fs.readFileSync filePath;
  mret (sha256hex T fileBuffer).

Definition fileNameFromUrl (url : string) : string := basename T url.

(** *** create-delta/index.ts *)

Definition hdiffz : string :=
  Fs.join
    (Fs.join (createDeltaDirname H)
       match hostPlatform H with
       | Darwin => "macOS" | Win32 => "windows" | OtherHost => "linux"
       end)
    match hostPlatform H with
    | Win32 => "hdiffz.exe" | _ => "hdiffz"
    end.

(** [createDelta]: [true], or [null] when [spawnSync] throws. The
    exit status of the child is not looked at. *)
Definition createDelta (oldDir newDir patchOut : string)
  : M (option bool) :=
  fs ← getFiles;
  match spawnSync T hdiffz ["-f"; "-c-lzma2"; oldDir; newDir; patchOut] fs
  with
  | SpawnReturn status fs' =>
      emit (EvCreateDelta oldDir newDir patchOut (Some status));;
      setFiles fs';;
      mret (Some true)
  | SpawnThrow =>
      emit (EvCreateDelta oldDir newDir patchOut None);;
      mret None
  end.

(** *** delta-installer-builder *)

Definition nsisURL : string :=
  "https://github.com/electron-delta/nsis.zip/raw/main/nsis.zip".

Definition nsisRootPath : string := Fs.join (deltaBinsDir H) "nsis-3.0.5.0".

Definition makeNSISPath : string :=
  Fs.join
    (Fs.join nsisRootPath
       match hostPlatform H with
       | Darwin => "mac" | Win32 => "Bin" | OtherHost => "linux"
       end)
    match hostPlatform H with
    | Win32 => "makensis.exe" | _ => "makensis"
    end.

Definition getNSISPath : M (string * string) :=
  fs ← getFiles;
  if Fs.existsSync fs makeNSISPath then mret (makeNSISPath, nsisRootPath)
  else
    Fs.ensureDir (deltaBinsDir H);;
    filePath ← downloadFile nsisURL (Fs.join (deltaBinsDir H) "nsis.zip");
    extract7zip filePath (deltaBinsDir H);;
    mret (makeNSISPath, nsisRootPath).

Definition getNSISScript : string :=
  Fs.resolve (Fs.join (installerBuilderDirname H) "nsis/installer.nsi").

(** [this.defines], in insertion order; [None] is [undefined]. *)
Definition defines (o : Options)
    (installerOutputPath deltaFilePath deltaFileName : string)
  : list (string * option string) :=
  [ ("APP_GUID", None);
    ("PRODUCT_NAME", Some (productName o));
    ("PROCESS_NAME",
      Some (if String.eqb (processName o) "" then productName o
            else processName o));
    ("INSTALLER_OUTPUT_PATH", Some installerOutputPath);
    ("DELTA_FILE_PATH", Some deltaFilePath);
    ("DELTA_FILE_NAME", Some deltaFileName);
    ("PRODUCT_ICON_PATH", Some (productIconPath o)) ].

Definition getNSISArgs (d : list (string * option string)) : list string :=
  omap (fun kv => match kv.2 with
                  | Some v => if String.eqb v "" then None
                              else Some ("-D" +:+ kv.1 +:+ "=" +:+ v)
                  | None => None
                  end) d.

Definition executeNSIS (d : list (string * option string)) : M bool :=
  '(makensis, _) ← getNSISPath;
  let args := getNSISArgs d ++ [getNSISScript] in
  try_catch (safeSpawn makensis args;; mret true)
            (fun _ => mret false).

(** [DeltaInstallerBuilder.build]: the output path, or [null]. *)
Definition build (o : Options)
    (installerOutputPath deltaFilePath deltaFileName : string)
  : M (option string) :=
  created ← try_catch
    (executeNSIS (defines o installerOutputPath deltaFilePath
                    deltaFileName))
    (fun _ => mret false);
  if created : bool then mret (Some installerOutputPath) else mret None.

(** *** create-all-deltas.ts *)

Record Prepared := mkPrepared {
  p_url : string;
  p_version : option string;
  p_fileName : string
}.

Definition preparePreviousReleases (l : list ReleaseIndex.Release)
  : list Prepared :=
  map (fun r =>
         mkPrepared (ReleaseIndex.url r)
                    (semverClean T (ReleaseIndex.version r))
                    (fileNameFromUrl (ReleaseIndex.url r))) l.

(** [path.join(dir, version)]: a [null] version is a TypeError. *)
Definition joinVersion (dir : string) (version : option string)
  : M string :=
  match version with
  | Some v => mret (Fs.join dir v)
  | None => throw "ERR_INVALID_ARG_TYPE"
  end.

Definition dataDir (o : Options) : string := Fs.join (cacheDir o) "data".
Definition deltaDir (o : Options) : string := Fs.join (cacheDir o) "deltas".
Definition latestReleaseDir (o : Options) : string :=
  Fs.join (dataDir o) (latestVersion o).
Definition outputDir (o : Options) : string :=
  Fs.join (outDir o) (latestVersion o +:+ "-" +:+ platform o +:+ "-deltas").

Definition deltaFileName (o : Options) (version : option string) : string :=
  productName o +:+ "-" +:+ Js.toStr version +:+ "-to-"
    +:+ latestVersion o +:+ ".delta".

Definition installerFileName (o : Options) (version : option string)
  : string :=
  productName o +:+ "-" +:+ Js.toStr version +:+ "-to-"
    +:+ latestVersion o +:+ "-delta.exe".

Definition deltaJSONPath (o : Options) : string :=
  Fs.join (outputDir o) ("delta-" +:+ platform o +:+ ".json").

Definition exeName (o : Options) : string :=
  processName o +:+ (if String.eqb (platform o) "mac" then ".app"
                     else ".exe").

(** The release list as the pipeline sees it: a rejection of
    [getPreviousReleases] is caught and leaves the empty list. *)
Definition fetchReleases (o : Options) : list ReleaseIndex.Release :=
  match getPreviousReleases o (platform o) (target o) with
  | Some l => l
  | None => []
  end.

(** Download all the installers. *)
Definition downloadAll (o : Options) (prev : list Prepared) : M unit :=
  forM prev (fun r =>
    let filePath := Fs.join (dataDir o) (p_fileName r) in
    downloadFileIfNotExists (p_url r) filePath;; mret tt).

(** Extract the installers. *)
Definition extractAll (o : Options) (prev : list Prepared) : M unit :=
  forM prev (fun r =>
    extractedDir ← joinVersion (dataDir o) (p_version r);
    let filePath := Fs.join (dataDir o) (p_fileName r) in
    fs ← getFiles;
    if negb (Fs.existsSync fs (Fs.join extractedDir (exeName o))) then
      Fs.ensureDir extractedDir;;
      Fs.emptyDir extractedDir;;
      extract7zip filePath extractedDir;; mret tt
    else mret tt).

(** Compute the delta between any two versions. *)
Definition deltaAll (o : Options) (prev : list Prepared) : M unit :=
  forM prev (fun r =>
    let deltaFilePath :=
      Fs.join (deltaDir o) (deltaFileName o (p_version r)) in
    oldDir ←
      (if String.eqb (platform o) "win"
       then joinVersion (dataDir o) (p_version r)
       else d ← joinVersion (dataDir o) (p_version r);
            mret (Fs.join d (productName o +:+ ".app")));
    let newDir :=
      if String.eqb (platform o) "win" then latestReleaseDir o
      else Fs.join (latestReleaseDir o) (productName o +:+ ".app") in
    createDelta oldDir newDir deltaFilePath;; mret tt).

Definition deltaJSON0 (o : Options) : Json.Obj :=
  [ ("productName", Json.VStr (productName o));
    ("latestVersion", Json.VStr (latestVersion o)) ].

(** Create the installer and sign it. *)
Definition installAll (o : Options) (prev : list Prepared)
    (deltaJSON : Json.Obj) : M Json.Obj :=
  foldM prev deltaJSON (fun deltaJSON r =>
    let deltaFileName := deltaFileName o (p_version r) in
    let deltaFilePath := Fs.resolve (Fs.join (deltaDir o) deltaFileName) in
    let installerFileName := installerFileName o (p_version r) in
    let installerOutputPath :=
      Fs.resolve (Fs.join (outputDir o) installerFileName) in
    build o installerOutputPath deltaFilePath deltaFileName;;
    emit (EvSign installerOutputPath);;
    fs ← getFiles;
    match sign o installerOutputPath fs with
    | Some fs' => setFiles fs'
    | None => throw "sign"
    end;;
    mret (Json.set (Js.toStr (p_version r))
            (Json.VEntry (Json.mkEntry (Some installerFileName) None))
            deltaJSON)).

(** Move deltas. *)
Definition moveAll (o : Options) (prev : list Prepared)
    (deltaJSON : Json.Obj) : M Json.Obj :=
  foldM prev deltaJSON (fun deltaJSON r =>
    let deltaFileName := deltaFileName o (p_version r) in
    let deltaFilePath := Fs.resolve (Fs.join (deltaDir o) deltaFileName) in
    let deltaOutputPath :=
      Fs.resolve (Fs.join (outputDir o) deltaFileName) in
    Fs.move deltaFilePath deltaOutputPath;;
    mret (Json.set (Js.toStr (p_version r))
            (Json.VEntry (Json.mkEntry (Some deltaFileName) None))
            deltaJSON)).

(** Compute checksum; [name] is the published file name of a version. *)
Definition checksumAll (o : Options)
    (name : option string -> string) (prev : list Prepared)
    (deltaJSON : Json.Obj) : M Json.Obj :=
  foldM prev deltaJSON (fun deltaJSON r =>
    let filePath := Fs.join (outputDir o) (name (p_version r)) in
    sha256 ← computeSHA256 filePath;
    let key := Js.toStr (p_version r) in
    mret (Json.set key (Json.spreadWithSha (Json.get key deltaJSON) sha256)
            deltaJSON)).

Definition writeManifest (o : Options) (deltaJSON : Json.Obj) : M unit :=
  emit (EvWriteFile (deltaJSONPath o));;
  Fs.writeFileSync (deltaJSONPath o) (Json.stringify deltaJSON).

(** The published file name of a version on this platform. *)
Definition publishedName (o : Options) : option string -> string :=
  if String.eqb (platform o) "win" then installerFileName o
  else deltaFileName o.

(** The manifest object the run builds, from the prepared releases. *)
Definition buildManifest (o : Options) (prev : list Prepared)
  : M Json.Obj :=
  if String.eqb (platform o) "win" then
    deltaJSON ← installAll o prev (deltaJSON0 o);
    checksumAll o (installerFileName o) prev deltaJSON
  else
    deltaJSON ← moveAll o prev (deltaJSON0 o);
    checksumAll o (deltaFileName o) prev deltaJSON.

(** [createAllDeltas]: the produced file paths, or [null]. *)
Definition createAllDeltas (o : Options) : M (option (list string)) :=
  Fs.ensureDir (cacheDir o);;
  Fs.ensureDir (dataDir o);;
  Fs.ensureDir (deltaDir o);;
  let allReleases := fetchReleases o in
  if Nat.eqb (length allReleases) 0 then mret None
  else
    let allReleases := Js.slice0 10 allReleases in
    let previousReleases := preparePreviousReleases allReleases in
    downloadAll o previousReleases;;
    extractAll o previousReleases;;
    extract7zip (latestReleaseFilePath o) (latestReleaseDir o);;
    Fs.ensureDir (latestReleaseDir o);;
    Fs.ensureDir (outputDir o);;
    Fs.emptyDir (outputDir o);;
    deltaAll o previousReleases;;
    deltaJSON ← buildManifest o previousReleases;
    writeManifest o deltaJSON;;
    fs ← getFiles;
    mret (Some (map (fun fileName => Fs.join (outputDir o) fileName)
                  (Fs.readdirSync fs (outputDir o)))).

End Pipeline.

End Builder.

(* ===================================================================== *)
(** ** URLs (the WHATWG URL class, on normalised input) *)
(* ===================================================================== *)

Module Url.

(** A parsed URL. The query and the fragment are absent or present
    (possibly empty); a URL without host whose path does not start with
    a slash has an opaque path ([mailto:a]). The model reads normalised
    input: lower-case scheme, no dot segments, nothing to percent-encode;
    a special scheme must be followed by [//]. *)
Record URL := mkURL {
  scheme : string;
  host : option string;
  pathname : string;
  query : option string;
  fragment : option string
}.

Definition isLower (c : ascii) : bool :=
  let n := nat_of_ascii c in Nat.leb 97 n && Nat.leb n 122.

Definition isDigit (c : ascii) : bool :=
  let n := nat_of_ascii c in Nat.leb 48 n && Nat.leb n 57.

Definition schemeChar (c : ascii) : bool :=
  isLower c || isDigit c || Ascii.eqb c "+" || Ascii.eqb c "-"
  || Ascii.eqb c ".".

Fixpoint allChars (f : ascii -> bool) (s : string) : bool :=
  match s with
  | EmptyString => true
  | String c r => f c && allChars f r
  end.

Definition validScheme (s : string) : bool :=
  match s with
  | EmptyString => false
  | String c r => isLower c && allChars schemeChar r
  end.

Definition special (sch : string) : bool :=
  bool_decide (sch ∈ ["http"; "https"; "ws"; "wss"; "ftp"; "file"]).

Definition hasOpaquePath (u : URL) : bool :=
  match host u with
  | Some _ => false
  | None => negb (String.prefix "/" (pathname u))
  end.

(** What follows [scheme:] once query and fragment are cut off. *)
Definition parseHier (sch rest : string) (q f : option string)
  : option URL :=
  if String.prefix "//" rest then
    let '(auth, p) := Js.splitAt "/" (Js.dropN 2 rest) in
    if special sch && String.eqb auth "" && negb (String.eqb sch "file")
    then None
    else Some (mkURL sch (Some auth)
                 match p with
                 | Some p' => "/" +:+ p'
                 | None => if special sch then "/" else ""
                 end q f)
  else if special sch then None
  else Some (mkURL sch None rest q f).

(** [new URL(s)]; [None] is the TypeError. *)
Definition parse (s : string) : option URL :=
  let '(s1, f) := Js.splitAt "#" s in
  let '(s2, q) := Js.splitAt "?" s1 in
  match Js.splitAt ":" s2 with
  | (sch, Some rest) =>
      if validScheme sch then parseHier sch rest q f else None
  | (_, None) => None
  end.

Definition optPart (sep : string) (v : option string) : string :=
  match v with Some x => sep +:+ x | None => "" end.

(** [url.href] *)
Definition href (u : URL) : string :=
  scheme u +:+ ":" +:+ optPart "//" (host u) +:+ pathname u
    +:+ optPart "?" (query u) +:+ optPart "#" (fragment u).

(** The [pathname] setter: it does nothing on an opaque path, and a path
    always starts with a slash otherwise. *)
Definition setPathname (u : URL) (p : string) : URL :=
  if hasOpaquePath u then u
  else mkURL (scheme u) (host u)
         (if String.prefix "/" p then p else "/" +:+ p)
         (query u) (fragment u).

(** [newBaseUrl(url)] *)
Definition newBaseUrl (url : string) : option string :=
  match parse url with
  | None => None
  | Some result =>
      let result :=
        if negb (Js.endsWith "/" (pathname result))
        then setPathname result (pathname result +:+ "/")
        else result in
      Some (href result)
  end.

(** The path up to and including its last slash. *)
Fixpoint dirOf (p : string) : string :=
  match p with
  | EmptyString => EmptyString
  | String c r =>
      if Js.hasChar "/" r then String c (dirOf r)
      else if Ascii.eqb c "/" then "/" else EmptyString
  end.

Definition hasScheme (s : string) : bool :=
  let '(s1, _) := Js.splitAt "#" s in
  let '(s2, _) := Js.splitAt "?" s1 in
  match Js.splitAt ":" s2 with
  | (sch, Some _) => validScheme sch
  | (_, None) => false
  end.

(** [new URL(input, base)] for an input without a scheme. *)
Definition resolveRelative (input : string) (b : URL) : option URL :=
  let '(s1, f) := Js.splitAt "#" input in
  let '(rel, q) := Js.splitAt "?" s1 in
  if hasOpaquePath b then None
  else if String.prefix "//" rel then
    parseHier (scheme b) rel q f
  else if String.prefix "/" rel then
    Some (mkURL (scheme b) (host b) rel q f)
  else if String.eqb rel "" then
    Some (mkURL (scheme b) (host b) (pathname b)
            (match q with Some _ => q | None => query b end) f)
  else
    Some (mkURL (scheme b) (host b) (dirOf (pathname b) +:+ rel) q f).

(** [newUrlFromBase(pathname, baseUrl)] *)
Definition newUrlFromBase (pathname baseUrl : string) : option string :=
  if hasScheme pathname then href <$> parse pathname
  else match parse baseUrl with
       | None => None
       | Some b => href <$> resolveRelative pathname b
       end.

End Url.

(* ===================================================================== *)
(** ** The client (delta-updater) *)
(* ===================================================================== *)

Module Updater.
Import Eff.

(** What the client does to its collaborators. *)
Inductive Action :=
| ActEmit (eventName : string)
| ActDispatch (eventName : string)
| ActDownloadUpdate
| ActFetch (url : string)
| ActHttpGet (secure : bool) (url : string)
| ActChmod (filePath : string)
| ActUpdateDownloaded (deltaPath version : string).

(** How a response body arrives. *)
Inductive Body :=
| BodyComplete (content : string)
| BodyError (e : string).

(** What [http.get] / [https.get] leads to. *)
Inductive Response :=
| RequestError (e : string)
| Responded (statusCode : Z) (location : option string) (body : Body).

(** What [fetch] leads to; [json = None] when the body is not JSON. *)
Inductive FetchResult :=
| FetchThrows
| FetchResponse (status : Z) (json : option Json.Obj).

Inductive Platform := Darwin | Win32 | OtherPlatform.

(** One identifier of a semver prerelease tag. *)
Inductive PreId := PreStr (s : string) | PreNum (n : nat).

(** The persisted update-attempt record. *)
Record UpdateDetails := {
  isDelta : bool;
  attemptedVersion : string;
  appVersion : string;
  timestamp : Z;
  timeHuman : string
}.

(** [info] of the [update-available] event. *)
Record UpdateInfo := { version : string; releaseDate : string }.

(** The collaborators and the fields of the [DeltaUpdater] instance. *)
Record Env := {
  getVersion : string;
  platform : Platform;
  prerelease : string -> option (list PreId);
  sha256hex : string -> string;
  respond : bool -> string -> Response;
  canWrite : string -> bool;
  fetch : string -> FetchResult;
  readUpdateDetails : option UpdateDetails;
  updaterWindow : bool;
  hostURL : option string;
  deltaHolderPath : string;
  macUpdaterPath : string;
  hpatchzPath : string
}.

Section Client.
Variable V : Env.

Abbreviation M := (Eff.M Action).

(** *** download.ts *)

(** [downloadFile(url, filePath)]; [fuel] bounds the redirects that are
    followed, and a chain that outlasts it is reported as not settled. A
    redirect resolves the promise when the re-issued download resolves
    ([.then(() => resolve())]); nothing settles it otherwise. The
    progress callback only reports, and is left out. *)
Fixpoint downloadFile (fuel : nat) (url filePath : string) : M unit :=
  let secure := Js.startsWith "https" url in
  emit (ActHttpGet secure url);;
  match respond V secure url with
  | RequestError e => throw e
  | Responded statusCode location body =>
      if Z.eqb statusCode 200 then
        if canWrite V filePath then
          fs ← getFiles;
          match body with
          | BodyComplete content =>
              setFiles (<[filePath := content]> fs)
          | BodyError e =>
              setFiles (delete filePath fs);; throw e
          end
        else throw "EACCES"
      else if Z.eqb statusCode 302 || Z.eqb statusCode 301 then
        match fuel with
        | O => hang
        | S fuel' =>
            fun w =>
              match
                match location with
                | Some l => downloadFile fuel' l filePath w
                | None => (Throw "ERR_INVALID_ARG_TYPE", w)
                end
              with
              | (Ok tt, w') => (Ok tt, w')
              | (_, w') => (Pending, w')
              end
        end
      else throw "Network error"
  end.

(** *** index.js *)

(** [getChannel()]: ['latest'], or the first prerelease identifier
    ([None] when there is none at index 0). *)
Definition getChannel : option PreId :=
  match prerelease V (getVersion V) with
  | None => Some (PreStr "latest")
  | Some preRelease => head preRelease
  end.

Definition truthyChannel (c : option PreId) : bool :=
  match c with
  | None => false
  | Some (PreStr s) => negb (String.eqb s "")
  | Some (PreNum n) => negb (Nat.eqb n 0)
  end.

(** [computeSHA256(filePath)]: [null] when nothing exists at the path;
    reading a directory throws. *)
Definition computeSHA256 (fs : gmap string string) (filePath : string)
  : Res (option string) :=
  if negb (Fs.existsSync fs filePath) then Ok None
  else match fs !! filePath with
       | Some fileBuffer => Ok (Some (sha256hex V fileBuffer))
       | None => Throw "EISDIR"
       end.

(** [isSHACorrect(filePath, correctSHA)] *)
Definition isSHACorrect (fs : gmap string string)
    (filePath correctSHA : string) : bool :=
  match computeSHA256 fs filePath with
  | Ok (Some sha) => String.eqb sha correctSHA
  | Ok None => false
  | _ => false
  end.

Definition getDeltaURL (deltaPath : option string) : option string :=
  Url.newUrlFromBase (match deltaPath with Some p => p | None => "undefined" end)
    (Js.toStr (hostURL V)).

Definition getDeltaJSONUrl : option string :=
  Url.newUrlFromBase
    (match platform V with Win32 => "delta-win.json" | _ => "delta-mac.json" end)
    (Js.toStr (hostURL V)).

(** A synchronous call that may throw a TypeError. *)
Definition orThrow {A} (v : option A) : M A :=
  match v with Some a => mret a | None => throw "TypeError" end.

(** [dispatchEvent(this.updaterWindow, eventName)] *)
Definition dispatchEvent (eventName : string) : M unit :=
  if updaterWindow V then emit (ActDispatch eventName) else mret tt.

(** [this.autoUpdater.downloadUpdate()] *)
Definition fullUpdate : M unit := emit ActDownloadUpdate.

Definition deltaDownloaded (info : UpdateInfo) (deltaPath : string) : M unit :=
  emit (ActUpdateDownloaded deltaPath (version info)).

(** Where [doSmartDownload] stands once the manifest has been read: the
    cycle is over, or a patch is to be fetched. *)
Inductive Decision :=
| Finished
| Fetch (deltaURL deltaPath shaVal : string).

(** The manifest fetch: [null] on any failure. *)
Definition fetchDeltaJSON (deltaJSONUrl : string) : M (option Json.Obj) :=
  emit (ActFetch deltaJSONUrl);;
  match fetch V deltaJSONUrl with
  | FetchThrows => mret None
  | FetchResponse status json =>
      if negb (Z.eqb status 200) then mret None else mret json
  end.

Definition truthyValue (v : option Json.Value) : bool :=
  match v with
  | None => false
  | Some (Json.VStr s) => negb (String.eqb s "")
  | Some (Json.VEntry _) => true
  end.

Definition entryOf (v : option Json.Value) : Json.Entry :=
  match v with
  | Some (Json.VEntry e) => e
  | _ => Json.mkEntry None None
  end.

Definition truthyString (v : option string) : bool :=
  match v with Some s => negb (String.eqb s "") | None => false end.

(** The helper downloads of the macOS branch. *)
Definition downloadHelpers (fuel : nat) : M unit :=
  macUpdaterURL ← orThrow (Url.newUrlFromBase "mac-updater" (Js.toStr (hostURL V)));
  hpatchzURL ← orThrow (Url.newUrlFromBase "hpatchz" (Js.toStr (hostURL V)));
  downloadFile fuel macUpdaterURL (macUpdaterPath V);;
  downloadFile fuel hpatchzURL (hpatchzPath V);;
  emit (ActChmod (macUpdaterPath V));;
  emit (ActChmod (hpatchzPath V)).

(** [doSmartDownload], up to the download of the patch. *)
Definition resolveDelta (fuel : nat) (info : UpdateInfo) : M Decision :=
  if negb (truthyChannel getChannel) then mret Finished
  else
    let appVersion := getVersion V in
    deltaJSONUrl ← orThrow getDeltaJSONUrl;
    deltaJSON ← fetchDeltaJSON deltaJSONUrl;
    match deltaJSON with
    | None => fullUpdate;; mret Finished
    | Some deltaJSON =>
        let deltaDetails := Json.get appVersion deltaJSON in
        if negb (truthyValue deltaDetails) then fullUpdate;; mret Finished
        else
          let details := entryOf deltaDetails in
          deltaURL ← orThrow (getDeltaURL (Json.path details));
          let shaVal := Json.sha256 details in
          if negb (truthyString shaVal) then fullUpdate;; mret Finished
          else
            let shaVal := default "" shaVal in
            helpers ←
              match platform V with
              | Darwin =>
                  try_catch (downloadHelpers fuel;; mret true)
                    (fun _ => fullUpdate;; mret false)
              | _ => mret true
              end;
            if negb helpers then mret Finished
            else
              deltaPath ← orThrow (Fs.join (deltaHolderPath V) <$> Json.path details);
              fs ← getFiles;
              if Fs.existsSync fs deltaPath && isSHACorrect fs deltaPath shaVal
              then deltaDownloaded info deltaPath;; mret Finished
              else
                Fs.ensureDir (deltaHolderPath V);;
                mret (Fetch deltaURL deltaPath shaVal)
    end.

(** The verification after the download. *)
Definition verify (info : UpdateInfo) (deltaPath shaVal : string) : M unit :=
  fs ← getFiles;
  let isFileGood := isSHACorrect fs deltaPath shaVal in
  if negb isFileGood then fullUpdate
  else deltaDownloaded info deltaPath.

(** The last [try] of [doSmartDownload]: download, verify, fall back. *)
Definition downloadAndVerify (fuel : nat) (info : UpdateInfo)
    (deltaURL deltaPath shaVal : string) : M unit :=
  try_catch
    (downloadFile fuel deltaURL deltaPath;;
     verify info deltaPath shaVal)
    (fun _ => fullUpdate).

(** [doSmartDownload({ version, releaseDate })] *)
Definition doSmartDownload (fuel : nat) (info : UpdateInfo) : M unit :=
  d ← resolveDelta fuel info;
  match d with
  | Finished => mret tt
  | Fetch deltaURL deltaPath shaVal =>
      downloadAndVerify fuel info deltaURL deltaPath shaVal
  end.

(** The [update-available] listener. *)
Definition onUpdateAvailable (fuel : nat) (info : UpdateInfo) : M unit :=
  emit (ActEmit "update-available");;
  dispatchEvent "update-available";;
  match readUpdateDetails V with
  | Some updateDetails =>
      if String.eqb (appVersion updateDetails) (getVersion V)
      then fullUpdate
      else doSmartDownload fuel info
  | None => doSmartDownload fuel info
  end.

End Client.

End Updater.

(* ===================================================================== *)
(** ** Notions used in the statements about the build pipeline *)
(* ===================================================================== *)

Module BuildSpec.
Import Eff Builder.

(** The last character of a string. *)
Fixpoint lastChar (s : string) : option ascii :=
  match s with
  | EmptyString => None
  | String c EmptyString => Some c
  | String _ r => lastChar r
  end.

(** [m] extends the trace only with events that satisfy [P]. *)
Definition emitsOnly {E A} (P : E -> Prop) (m : M E A) : Prop :=
  forall w r w', m w = (r, w') ->
    exists t, trace w' = trace w ++ t /\ Forall P t.

(** The prior releases a run works on: the first ten, prepared. *)
Definition prepared (T : Tools) (o : Options) : list Prepared :=
  preparePreviousReleases T (Js.slice0 10 (fetchReleases o)).

(** The manifest key of a prepared release. *)
Definition keyOf (r : Prepared) : string := Js.toStr (p_version r).

(** The object the first loop of a branch lays down: one entry with a
    path and no checksum per prepared release. *)
Definition skeletonFrom (name : option string -> string)
    (prev : list Prepared) (dj : Json.Obj) : Json.Obj :=
  fold_left (fun dj r =>
    Json.set (keyOf r)
      (Json.VEntry (Json.mkEntry (Some (name (p_version r))) None)) dj)
    prev dj.

Definition skeleton (o : Options) (prev : list Prepared) : Json.Obj :=
  skeletonFrom (publishedName o) prev (deltaJSON0 o).

Definition skeletonEntry (o : Options) (k : string) : Json.Value :=
  Json.VEntry (Json.mkEntry (Some (publishedName o (Some k))) None).

(** An entry with its checksum read off the disk [F]. *)
Definition fillValue (T : Tools) (o : Options) (F : gmap string string)
    (v : Json.Value) : Json.Value :=
  match v with
  | Json.VEntry e =>
      Json.VEntry (Json.mkEntry (Json.path e)
        (sha256hex T
           <$> (F !! Fs.join (outputDir o) (default "" (Json.path e)))))
  | Json.VStr s => Json.VStr s
  end.

Definition fillSha (T : Tools) (o : Options) (F : gmap string string)
    (dj : Json.Obj) : Json.Obj :=
  map (fun kv => (kv.1, fillValue T o F kv.2)) dj.

(** The checksum loop part-way: the keys in [D] are done. *)
Definition fillIf (T : Tools) (o : Options) (F : gmap string string)
    (D : list string) (kv : string * Json.Value) : string * Json.Value :=
  if bool_decide (kv.1 ∈ D) then (kv.1, fillValue T o F kv.2) else kv.

(** The invariant of the skeleton: unique keys, an entry under every key
    of [K], and nothing but strings elsewhere. *)
Definition skelInv (o : Options) (K : list string) (dj : Json.Obj) : Prop :=
  NoDup (Json.keys dj)
  /\ (forall k, k ∈ K -> Json.get k dj = Some (skeletonEntry o k))
  /\ (forall k v, Json.get k dj = Some v ->
        (exists s, v = Json.VStr s) \/ k ∈ K).

(** Everything [createAllDeltas] does after it has extracted the latest
    release. *)
Definition afterLatest (T : Tools) (H : Host) (o : Options)
    (prev : list Prepared) : M Event (option (list string)) :=
  Fs.ensureDir (latestReleaseDir o);;
  Fs.ensureDir (outputDir o);;
  Fs.emptyDir (outputDir o);;
  deltaAll T H o prev;;
  deltaJSON ← buildManifest T H o prev;
  writeManifest o deltaJSON;;
  fs ← getFiles;
  mret (Some (map (fun fileName => Fs.join (outputDir o) fileName)
                (Fs.readdirSync fs (outputDir o)))).

(** The patch paths of the [createDelta] calls of a trace, in order. *)
Definition deltaOuts (t : list Event) : list string :=
  omap (fun e => match e with
                 | EvCreateDelta _ _ patchOut _ => Some patchOut
                 | _ => None
                 end) t.

Definition notCreateDelta (e : Event) : Prop :=
  match e with EvCreateDelta _ _ _ _ => False | _ => True end.

(** A completed [m] makes the [createDelta] calls [l]. *)
Definition emitsOuts {A} (m : M Event A) (l : list string) : Prop :=
  forall w a w', m w = (Ok a, w') ->
    exists t, trace w' = trace w ++ t /\ deltaOuts t = l.

(** One patch path per prepared release. *)
Definition expectedOuts (o : Options) (prev : list Prepared) : list string :=
  map (fun r => Fs.join (deltaDir o) (deltaFileName o (p_version r))) prev.

(** An already-populated cache: every installer file is in the data
    directory and every per-version directory holds the executable or
    bundle. *)
Definition populated (T : Tools) (o : Options) (fs : gmap string string)
  : Prop :=
  forall r, r ∈ prepared T o ->
    Fs.existsSync fs (Fs.join (dataDir o) (p_fileName r)) = true
    /\ exists v, p_version r = Some v
         /\ Fs.existsSync fs (Fs.join (Fs.join (dataDir o) v) (exeName o))
            = true.

(** Downloads and extractions that fetch the NSIS compiler, not a
    release. *)
Definition toolingOnly (H : Host) (e : Event) : Prop :=
  match e with
  | EvDownload u p => u = nsisURL /\ p = Fs.join (deltaBinsDir H) "nsis.zip"
  | EvExtract z d =>
      z = Fs.join (deltaBinsDir H) "nsis.zip" /\ d = deltaBinsDir H
  | _ => True
  end.

(** A manifest without its checksums. *)
Definition stripValue (v : Json.Value) : Json.Value :=
  match v with
  | Json.VEntry e => Json.VEntry (Json.mkEntry (Json.path e) None)
  | Json.VStr s => Json.VStr s
  end.

Definition stripSha (dj : Json.Obj) : Json.Obj :=
  map (fun kv => (kv.1, stripValue kv.2)) dj.

(** The published file of a prepared release. *)
Definition artifact (o : Options) (r : Prepared) : string :=
  Fs.join (outputDir o) (publishedName o (p_version r)).

End BuildSpec.

(* ===================================================================== *)
(** ** Concrete collaborators for the build pipeline *)
(* ===================================================================== *)

Module BuildScenario.
Import Eff Builder BuildSpec.

(** [path.basename] on POSIX paths. *)
Fixpoint lastSegment (acc s : string) : string :=
  match s with
  | EmptyString => acc
  | String c r =>
      if Ascii.eqb c "/" then lastSegment EmptyString r
      else lastSegment (acc +:+ String c EmptyString) r
  end.

Fixpoint findDefine (k : string) (args : list string) : option string :=
  match args with
  | [] => None
  | a :: r =>
      if String.prefix k a then Some (Js.dropN (String.length k) a)
      else findDefine k r
  end.

(** A compiler that wraps the patch named by its defines. *)
Definition runMakensis (args : list string) (fs : gmap string string)
  : SpawnResult :=
  match findDefine "-DINSTALLER_OUTPUT_PATH=" args,
        findDefine "-DDELTA_FILE_PATH=" args with
  | Some out, Some d =>
      match fs !! d with
      | Some c => SpawnReturn (Some 0%Z) (<[out := "nsis(" +:+ c +:+ ")"]> fs)
      | None => SpawnReturn (Some 1%Z) fs
      end
  | _, _ => SpawnReturn (Some 1%Z) fs
  end.

(** A diff tool that works. *)
Definition runHdiffz (args : list string) (fs : gmap string string)
  : SpawnResult :=
  match args with
  | [_; _; old; new; out] =>
      SpawnReturn (Some 0%Z)
        (<[out := "diff(" +:+ old +:+ "," +:+ new +:+ ")"]> fs)
  | _ => SpawnReturn (Some 2%Z) fs
  end.

(** A diff tool that exits with status 1 and leaves a partial file. *)
Definition partialHdiffz (args : list string) (fs : gmap string string)
  : SpawnResult :=
  match args with
  | [_; _; old; new; out] => SpawnReturn (Some 1%Z) (<[out := "partial"]> fs)
  | _ => SpawnReturn (Some 2%Z) fs
  end.

(** A diff tool that cannot be started. *)
Definition missingHdiffz (args : list string) (fs : gmap string string)
  : SpawnResult := SpawnReturn None fs.

Definition toolsWith
    (diff : list string -> gmap string string -> SpawnResult) : Tools := {|
  sha256hex := fun c => "sha256:" +:+ c;
  semverClean := fun s => Some s;
  basename := lastSegment EmptyString;
  got := fun u => GotBody ("body of " +:+ u);
  sevenZip := fun z d fs =>
    ZipEnd (<[Fs.join d "App.exe" := "exe from " +:+ z]>
              (<[Fs.join d "App.app/Contents/Info.plist" := "plist from " +:+ z]>
                 fs));
  spawnSync := fun exe args fs =>
    if Js.endsWith "makensis" exe then runMakensis args fs else diff args fs
|}.

Definition tools : Tools := toolsWith runHdiffz.

Definition host : Host := {|
  hostPlatform := OtherHost;
  deltaBinsDir := "/bins";
  createDeltaDirname := "/lib/create-delta";
  installerBuilderDirname := "/lib/delta-installer-builder"
|}.

Definition release (v : string) : ReleaseIndex.Release :=
  {| ReleaseIndex.version := v;
     ReleaseIndex.url := "https://h/App-" +:+ v +:+ ".exe" |}.

Definition options (plat : string)
    (index : option (list ReleaseIndex.Release)) : Options := {|
  platform := plat;
  outDir := "/out";
  cacheDir := "/cache";
  target := "nsis";
  getPreviousReleases := fun _ _ => index;
  sign := fun p fs => Some fs;
  productIconPath := "/icon.ico";
  productName := "App";
  processName := "App";
  latestReleaseFilePath := "/dist/App-2.0.0.exe";
  latestReleaseFileName := "App-2.0.0";
  latestVersion := "2.0.0"
|}.

Definition twoReleases : option (list ReleaseIndex.Release) :=
  Some [release "1.0.0"; release "1.1.0"].

Definition oneRelease : option (list ReleaseIndex.Release) :=
  Some [release "1.0.0"].

(** A cold cache: only the latest artifact is on disk. *)
Definition cold : World Event :=
  mkWorld (<["/dist/App-2.0.0.exe" := "latest"]> ∅) [].

(** A warm cache for [oneRelease] on macOS, with a patch left in the
    delta directory by an earlier build. *)
Definition warm : World Event :=
  mkWorld
    (<["/dist/App-2.0.0.exe" := "latest"]>
       (<["/cache/data/App-1.0.0.exe" := "installer 1.0.0"]>
          (<["/cache/data/1.0.0/App.app/Contents/Info.plist" := "plist 1.0.0"]>
             (<["/cache/deltas/App-1.0.0-to-2.0.0.delta" := "earlier patch"]>
                ∅))))
    [].

(** The number of extractions in a trace. *)
Definition extractions (t : list Event) : nat :=
  length (List.filter
            (fun e => match e with EvExtract _ _ => true | _ => false end) t).

(** The number of downloads in a trace. *)
Definition downloads (t : list Event) : nat :=
  length (List.filter
            (fun e => match e with EvDownload _ _ => true | _ => false end) t).

(** The manifest lists exactly the versions whose diff succeeded: [k] is
    a version key of the manifest exactly when the trace holds a
    [createDelta] call for [k] that exited with status 0. *)
Definition keysAreDiffSuccesses (o : Options) (dj : Json.Obj)
    (t : list Event) : Prop :=
  forall k, k <> "productName" -> k <> "latestVersion" ->
    (k ∈ Json.keys dj
     <-> exists oldDir newDir,
           EvCreateDelta oldDir newDir
             (Fs.join (deltaDir o) (deltaFileName o (Some k)))
             (Some (Some 0%Z)) ∈ t).

End BuildScenario.

(* ===================================================================== *)
(** ** Notions used in the statements about URLs *)
(* ===================================================================== *)

Module UrlSpec.
Import Url.

(** What [newBaseUrl] does to a parsed URL. *)
Definition withTrailingSlash (u : URL) : URL :=
  if negb (Js.endsWith "/" (pathname u))
  then setPathname u (pathname u +:+ "/")
  else u.

(** The URLs that [parse] answers. *)
Definition wellFormed (u : URL) : Prop :=
  validScheme (scheme u) = true
  /\ Js.hasChar "#" (pathname u) = false
  /\ Js.hasChar "?" (pathname u) = false
  /\ match query u with
     | Some q => Js.hasChar "#" q = false
     | None => True
     end
  /\ match host u with
     | Some h =>
         Js.hasChar "/" h = false /\ Js.hasChar "?" h = false
         /\ Js.hasChar "#" h = false
         /\ (special (scheme u) && String.eqb h ""
             && negb (String.eqb (scheme u) "file") = false)
         /\ ((pathname u = "" /\ special (scheme u) = false)
             \/ String.prefix "/" (pathname u) = true)
     | None =>
         special (scheme u) = false
         /\ String.prefix "//" (pathname u) = false
     end.

(** A plain file name: one non-empty path segment that is not a dot
    segment and holds no URL delimiter. *)
Definition plainName (n : string) : bool :=
  negb (String.eqb n "") && negb (String.eqb n ".")
  && negb (String.eqb n "..")
  && negb (Js.hasChar "/" n) && negb (Js.hasChar "?" n)
  && negb (Js.hasChar "#" n) && negb (Js.hasChar ":" n).

End UrlSpec.

(* ===================================================================== *)
(** ** Notions and concrete collaborators for the client *)
(* ===================================================================== *)

Module ClientSpec.
Import Eff Updater.

(** Neither a full-update request nor a delta-ready signal. *)
Definition quiet (a : Action) : Prop :=
  match a with
  | ActDownloadUpdate => False
  | ActUpdateDownloaded _ _ => False
  | _ => True
  end.

(** The world right after the request for [url] has been issued. *)
Definition requested (url : string) (w : World Action) : World Action :=
  mkWorld (files w) (trace w ++ [ActHttpGet (Js.startsWith "https" url) url]).

(** A feed host: the manifest lists version 1.1.0, the patch sits behind
    a redirect, and [patchBody] is what the redirect target serves
    ([None]: it answers 404). *)
Definition feed (patchBody : option string) (secure : bool) (url : string)
  : Response :=
  if String.eqb url "https://feed.example/App-1.1.0-to-2.0.0-delta.exe"
  then Responded 302 (Some "https://cdn.example/patch") (BodyComplete "")
  else if String.eqb url "https://cdn.example/patch"
  then match patchBody with
       | Some c => Responded 200 None (BodyComplete c)
       | None => Responded 404 None (BodyComplete "")
       end
  else Responded 404 None (BodyComplete "").

Definition manifest : Json.Obj :=
  [ ("productName", Json.VStr "App");
    ("latestVersion", Json.VStr "2.0.0");
    ("1.1.0", Json.VEntry
       (Json.mkEntry (Some "App-1.1.0-to-2.0.0-delta.exe")
          (Some "sha256:good patch"))) ].

Definition env (patchBody : option string)
    (details : option UpdateDetails) : Env := {|
  getVersion := "1.1.0";
  platform := Win32;
  prerelease := fun _ => None;
  sha256hex := fun c => "sha256:" +:+ c;
  respond := feed patchBody;
  canWrite := fun _ => true;
  fetch := fun u =>
    if String.eqb u "https://feed.example/delta-win.json"
    then FetchResponse 200 (Some manifest)
    else FetchResponse 404 None;
  readUpdateDetails := details;
  updaterWindow := true;
  hostURL := Some "https://feed.example/";
  deltaHolderPath := "/local/app-updater/deltas";
  macUpdaterPath := "/local/app-updater/mac-updater";
  hpatchzPath := "/local/app-updater/hpatchz"
|}.

(** The record left by an attempt made from version 1.1.0. *)
Definition attempt : UpdateDetails := {|
  isDelta := true;
  attemptedVersion := "2.0.0";
  appVersion := "1.1.0";
  timestamp := 1700000000000;
  timeHuman := "Tue Nov 14 2023"
|}.

Definition info : UpdateInfo :=
  {| version := "2.0.0"; releaseDate := "2023-11-14" |}.

Definition start : World Action := mkWorld ∅ [].

End ClientSpec.

(* ===================================================================== *)
(** ** Notions for one update cycle of the client *)
(* ===================================================================== *)

Module Cycle.
Import Eff Updater ClientSpec.

Section Cycle.
Variable V : Env.
Variable info : UpdateInfo.

(** The manifest as [fetchDeltaJSON] hands it over. *)
Definition manifestAt (deltaJSONUrl : string) : option Json.Obj :=
  match fetch V deltaJSONUrl with
  | FetchThrows => None
  | FetchResponse status json =>
      if negb (Z.eqb status 200) then None else json
  end.

(** The manifest entry filed under the running version, when the
    manifest can be fetched and holds a truthy value there. *)
Definition manifestEntry : option Json.Entry :=
  match getDeltaJSONUrl V with
  | Some deltaJSONUrl =>
      match manifestAt deltaJSONUrl with
      | Some deltaJSON =>
          let deltaDetails := Json.get (getVersion V) deltaJSON in
          if truthyValue deltaDetails then Some (entryOf deltaDetails)
          else None
      | None => None
      end
  | None => None
  end.

(** The file at [p] is the patch of the manifest entry, and its
    SHA-256 is the one the entry announces. *)
Definition verified (p : string) (fs : gmap string string) : Prop :=
  ∃ e name sha c,
    manifestEntry = Some e
    ∧ Json.path e = Some name ∧ Json.sha256 e = Some sha
    ∧ p = Fs.join (deltaHolderPath V) name
    ∧ fs !! p = Some c ∧ sha256hex V c = sha.

(** A patch is to be fetched: url, target path and checksum all come
    from the manifest entry. *)
Definition toFetch (deltaURL deltaPath shaVal : string) : Prop :=
  ∃ e name,
    manifestEntry = Some e
    ∧ Json.path e = Some name ∧ Json.sha256 e = Some shaVal
    ∧ deltaPath = Fs.join (deltaHolderPath V) name
    ∧ getDeltaURL V (Some name) = Some deltaURL.

(** The actions [t] of a cycle end in its one decision: a full-update
    request, or the delta-ready signal for a verified file. *)
Definition decided (t : list Action) (fs : gmap string string) : Prop :=
  ∃ t0, Forall quiet t0
    ∧ (t = t0 ++ [ActDownloadUpdate]
       ∨ ∃ p, t = t0 ++ [ActUpdateDownloaded p (version info)]
              ∧ verified p fs).

(** A step of a cycle: started in a world that satisfies [Pre], it
    either stays quiet (and then a normal result satisfies [Q]), or
    returns normally with the decision taken (and a result in [D]). *)
Definition settles {A} (Pre : World Action → Prop)
    (Q : A → World Action → Prop) (D : A → Prop) (m : Eff.M Action A)
  : Prop :=
  ∀ w r w', Pre w → m w = (r, w') →
    ∃ t, trace w' = trace w ++ t
      ∧ ((Forall quiet t
          ∧ match r with Ok a => Q a w' | _ => True end)
         ∨ (∃ a, r = Ok a ∧ D a ∧ decided t (files w'))).

(** What [resolveDelta] has established when it stays quiet. *)
Definition resolved (d : Decision) : Prop :=
  match d with
  | Finished => truthyChannel (getChannel V) = false
  | Fetch deltaURL deltaPath shaVal => toFetch deltaURL deltaPath shaVal
  end.

(** No patch is on offer for the running version: the manifest cannot
    be fetched, it has no entry for the version, or the entry carries
    no checksum. *)
Definition noDelta : Prop :=
  match manifestEntry with
  | None => True
  | Some e =>
      getDeltaURL V (Json.path e) ≠ None
      ∧ truthyString (Json.sha256 e) = false
  end.

End Cycle.

(** A chain of redirects: every url but the last answers 301 or 302
    with the next one as its Location, and the last answers 200 with
    [content]. *)
Fixpoint redirectChain (V : Env) (urls : list string) (content : string)
  : Prop :=
  match urls with
  | [] => False
  | [u] =>
      ∃ location,
        respond V (Js.startsWith "https" u) u
        = Responded 200 location (BodyComplete content)
  | u :: (u' :: _) as rest =>
      (∃ code body,
         respond V (Js.startsWith "https" u) u
         = Responded code (Some u') body
         ∧ (code = 301%Z ∨ code = 302%Z))
      ∧ redirectChain V rest content
  end.

(** The requests of a chain, in order. *)
Definition gets (urls : list string) : list Action :=
  map (fun u => ActHttpGet (Js.startsWith "https" u) u) urls.

(** A host on which [a] redirects to [b], [b] to [c], and [c] serves
    the file. *)
Definition hops (secure : bool) (url : string) : Response :=
  if String.eqb url "https://a.example/f"
  then Responded 301 (Some "https://b.example/f") (BodyComplete "")
  else if String.eqb url "https://b.example/f"
  then Responded 302 (Some "http://c.example/f") (BodyComplete "")
  else if String.eqb url "http://c.example/f"
  then Responded 200 None (BodyComplete "payload")
  else if String.eqb url "https://loop.example/f"
  then Responded 302 (Some "https://loop.example/f") (BodyComplete "")
  else if String.eqb url "https://broken.example/f"
  then Responded 200 None (BodyError "ECONNRESET")
  else Responded 404 None (BodyComplete "").

Definition hopsEnv : Env := {|
  getVersion := "1.1.0";
  platform := Win32;
  prerelease := fun _ => None;
  sha256hex := fun c => "sha256:" +:+ c;
  respond := hops;
  canWrite := fun _ => true;
  fetch := fun _ => FetchThrows;
  readUpdateDetails := None;
  updaterWindow := false;
  hostURL := None;
  deltaHolderPath := "/local/app-updater/deltas";
  macUpdaterPath := "/local/app-updater/mac-updater";
  hpatchzPath := "/local/app-updater/hpatchz"
|}.

(** A version whose first prerelease identifier is the number 0. *)
Definition zeroChannelEnv : Env := {|
  getVersion := "1.0.0-0";
  platform := Win32;
  prerelease := fun _ => Some [PreNum 0];
  sha256hex := fun c => "sha256:" +:+ c;
  respond := hops;
  canWrite := fun _ => true;
  fetch := fun _ => FetchThrows;
  readUpdateDetails := None;
  updaterWindow := false;
  hostURL := Some "https://feed.example/";
  deltaHolderPath := "/local/app-updater/deltas";
  macUpdaterPath := "/local/app-updater/mac-updater";
  hpatchzPath := "/local/app-updater/hpatchz"
|}.

(** The application on macOS, on a feed that has the manifest and the
    patch but not the helper binaries. *)
Definition macEnv : Env := {|
  getVersion := "1.1.0";
  platform := Darwin;
  prerelease := fun _ => None;
  sha256hex := fun c => "sha256:" +:+ c;
  respond := feed (Some "good patch");
  canWrite := fun _ => true;
  fetch := fun u =>
    if String.eqb u "https://feed.example/delta-mac.json"
    then FetchResponse 200 (Some manifest)
    else FetchResponse 404 None;
  readUpdateDetails := None;
  updaterWindow := true;
  hostURL := Some "https://feed.example/";
  deltaHolderPath := "/local/app-updater/deltas";
  macUpdaterPath := "/local/app-updater/mac-updater";
  hpatchzPath := "/local/app-updater/hpatchz"
|}.

(** The patch of [ClientSpec.manifest], already in the delta holder. *)
Definition patched : World Action :=
  mkWorld
    (<["/local/app-updater/deltas/App-1.1.0-to-2.0.0-delta.exe"
       := "good patch"]> ∅)
    [].

End Cycle.

(* ===================================================================== *)
(** ** delta-builder/index.ts *)
(* ===================================================================== *)

Module DeltaBuilder.
Import Eff.

(** [s.replace(pat, repl)] with a string pattern: the first occurrence
    only. *)
Fixpoint replaceFirst (pat repl s : string) : string :=
  if String.prefix pat s then repl +:+ Js.dropN (String.length pat) s
  else match s with
       | EmptyString => EmptyString
       | String c r => String c (replaceFirst pat repl r)
       end.

(** [removeExt] of utils.ts *)
Definition removeExt (str : string) : string := replaceFirst ".exe" "" str.

(** [a || b] on a string that may be missing. *)
Definition orElse (a : option string) (b : string) : string :=
  match a with
  | Some s => if String.eqb s "" then b else s
  | None => b
  end.

(** The build context of electron-builder; [platformToTargets] is a
    [Map], given here by the [buildConfigurationKey] of each key and the
    target names of its value, both in insertion order. *)
Record Context := {
  outDir : string;
  artifactPaths : list string;
  platformToTargets : list (string * list string)
}.

Record Options := {
  sign : string -> gmap string string -> option (gmap string string);
  productIconPath : string;
  productName : string;
  processName : option string;
  cache : option string;
  latestVersion : option string;
  getPreviousReleases :
    string -> string -> option (list ReleaseIndex.Release)
}.

(** [process.env], [os.homedir()] and [__dirname]. *)
Record Process := {
  ELECTRON_DELTA_CACHE : option string;
  npm_package_version : option string;
  homedir : string;
  dirname : string
}.

(** The predicate of the [filter] in [getLatestReleaseInfo]. *)
Definition isLatestRelease (platform target d : string) : bool :=
  if String.eqb platform "win" && String.eqb target "nsis"
     && negb (Js.includes "nsis-web" d)
  then Js.endsWith ".exe" d
  else if String.eqb platform "win" && String.eqb target "nsis-web"
  then Js.endsWith ".7z" d
  else if String.eqb platform "mac" then Js.endsWith ".zip" d
  else false.

Section Build.
Variable T : Builder.Tools.
Variable H : Builder.Host.
Variable P : Process.

Abbreviation M := (Eff.M Builder.Event).

Definition macOSBinaries : list string :=
  [ Fs.join (dirname P) "mac-updater-binaries/hpatchz";
    Fs.join (dirname P) "mac-updater-binaries/mac-updater" ].

(** [getLatestReleaseInfo]: [None] is the TypeError of
    [path.basename(undefined)], thrown when no artifact passes the
    filter. *)
Definition getLatestReleaseInfo (artifactPaths : list string)
    (platform target : string) : option (string * string) :=
  match
    head (filter (fun d => Is_true (isLatestRelease platform target d))
            artifactPaths)
  with
  | Some latestReleaseFilePath =>
      Some (latestReleaseFilePath,
            removeExt (Builder.fileNameFromUrl T latestReleaseFilePath))
  | None => None
  end.

(** A synchronous step that may throw a TypeError. *)
Definition required {A} (v : option A) : M A :=
  match v with Some a => mret a | None => throw "TypeError" end.

Definition cacheDir (o : Options) : string :=
  orElse (ELECTRON_DELTA_CACHE P)
    (orElse (cache o) (Fs.join (homedir P) ".electron-delta")).

(** [buildFiles.push(...files)] when [files && files.length] *)
Definition pushAll (buildFiles : list string) (files : option (list string))
  : list string :=
  match files with
  | Some l => buildFiles ++ l
  | None => buildFiles
  end.

(** The [getLatestReleaseInfo] / [createAllDeltas] pair that both
    branches of the loop make. *)
Definition deltasFor (c : Context) (o : Options)
    (platformName target : string) : M (option (list string)) :=
  '(latestReleaseFilePath, latestReleaseFileName) ←
    required (getLatestReleaseInfo (artifactPaths c) platformName target);
  Builder.createAllDeltas T H
    {| Builder.platform := platformName;
       Builder.outDir := outDir c;
       Builder.cacheDir := cacheDir o;
       Builder.target := target;
       Builder.getPreviousReleases := getPreviousReleases o;
       Builder.sign := sign o;
       Builder.productIconPath := productIconPath o;
       Builder.productName := productName o;
       Builder.processName := orElse (processName o) (productName o);
       Builder.latestReleaseFilePath := latestReleaseFilePath;
       Builder.latestReleaseFileName := latestReleaseFileName;
       Builder.latestVersion :=
         orElse (latestVersion o) (orElse (npm_package_version P) "") |}.

(** One turn of the loop over [platformToTargets.keys()]. *)
Definition buildPlatform (c : Context) (o : Options)
    (buildFiles : list string) (entry : string * list string)
  : M (list string) :=
  let platformName := entry.1 in
  buildFiles ←
    (if String.eqb platformName "win" then
       target ← required (head entry.2);
       deltaInstallerFilesWindows ← deltasFor c o platformName target;
       mret (pushAll buildFiles deltaInstallerFilesWindows)
     else mret buildFiles);
  if String.eqb platformName "mac" then
    deltaInstallerFilesMac ← deltasFor c o platformName "zip";
    mret (pushAll buildFiles deltaInstallerFilesMac ++ macOSBinaries)
  else mret buildFiles.

(** [DeltaBuilder.build({ context, options })] *)
Definition build (c : Context) (o : Options) : M (list string) :=
  foldM (platformToTargets c) [] (buildPlatform c o).

(** What the turn of a platform always pushes: the helper binaries on
    macOS, nothing elsewhere. *)
Definition helpersOf (entry : string * list string) : list string :=
  if String.eqb entry.1 "mac" then macOSBinaries else [].

End Build.

(** A build context and options over the collaborators of
    [BuildScenario]. *)
Definition process : Process := {|
  ELECTRON_DELTA_CACHE := None;
  npm_package_version := Some "2.0.0";
  homedir := "/home/dev";
  dirname := "/lib/delta-builder"
|}.

Definition context (platforms : list (string * list string)) : Context := {|
  outDir := "/out";
  artifactPaths :=
    ["/dist/App-2.0.0.exe.blockmap"; "/dist/App-2.0.0.exe";
     "/dist/App-2.0.0-mac.zip"];
  platformToTargets := platforms
|}.

Definition options (index : option (list ReleaseIndex.Release))
  : Options := {|
  sign := fun p fs => Some fs;
  productIconPath := "/icon.ico";
  productName := "App";
  processName := None;
  cache := Some "/cache";
  latestVersion := None;
  getPreviousReleases := fun _ _ => index
|}.

End DeltaBuilder.

(* ===================================================================== *)
(** ** Notions for the runs of the pipeline *)
(* ===================================================================== *)

Module RunSpec.
Import Eff Builder.

(** [m] always settles: it returns or throws. *)
Definition settled {E A} (m : M E A) : Prop := ∀ w, (m w).1 ≠ Pending.

(** Only installers are fetched and unpacked: nothing is diffed,
    spawned, signed or written. *)
Definition fetchOnly (e : Event) : Prop :=
  match e with
  | EvDownload _ _ | EvExtract _ _ => True
  | _ => False
  end.

(** Tools whose downloads break after the file has been created. *)
Definition flakyTools : Tools := {|
  sha256hex := sha256hex BuildScenario.tools;
  semverClean := semverClean BuildScenario.tools;
  basename := basename BuildScenario.tools;
  got := fun _ => GotError (Some "");
  sevenZip := sevenZip BuildScenario.tools;
  spawnSync := spawnSync BuildScenario.tools
|}.

(** Tools whose [semver.clean] rejects the tag [nightly]. *)
Definition strictTools : Tools := {|
  sha256hex := sha256hex BuildScenario.tools;
  semverClean := fun s => if String.eqb s "nightly" then None else Some s;
  basename := basename BuildScenario.tools;
  got := got BuildScenario.tools;
  sevenZip := sevenZip BuildScenario.tools;
  spawnSync := spawnSync BuildScenario.tools
|}.

(** A disk that holds the compiler and a patch. *)
Definition withCompiler : World Event :=
  mkWorld
    (<["/bins/nsis-3.0.5.0/linux/makensis" := "makensis"]>
       (<["/cache/deltas/App-1.0.0-to-2.0.0.delta" := "patch"]> ∅))
    [].

End RunSpec.

(* ===================================================================== *)
(** ** The feed providers *)
(* ===================================================================== *)

Module Providers.

Definition truthy (v : option string) : bool :=
  match v with Some s => negb (String.eqb s "") | None => false end.

(** Strings that the URL parser leaves as they are: nothing in them is
    percent-encoded, lower-cased or taken for a delimiter. *)
Definition isUpper (c : ascii) : bool :=
  let n := nat_of_ascii c in Nat.leb 65 n && Nat.leb n 90.

Definition nameChar (c : ascii) : bool :=
  Url.isLower c || isUpper c || Url.isDigit c || Ascii.eqb c "-"
  || Ascii.eqb c "_" || Ascii.eqb c ".".

(** One path segment (an owner, a repository, a tag). *)
Definition safeName (s : string) : bool :=
  UrlSpec.plainName s && Url.allChars nameChar s.

Definition hostChar (c : ascii) : bool :=
  Url.isLower c || Url.isDigit c || Ascii.eqb c "-" || Ascii.eqb c ".".




(** *** s3-provider.ts *)



(** *** github-provider.ts *)

Record RepoInfo := { owner : string; repo : string }.

Definition releasesApi (r : RepoInfo) : string :=
  "https://api.github.com/repos/" +:+ owner r +:+ "/" +:+ repo r
    +:+ "/releases/latest".

(** [getLatestReleaseTagName]. [latest url] is what [fetch] and
    [response.json()] lead to: [None] when either rejects, and else the
    [tag_name] of the answer, when it has one. The outer [None] of the
    result is the rejection. *)
Definition getLatestReleaseTagName
    (latest : string -> option (option string)) (r : RepoInfo)
  : option (option string) :=
  match latest (releasesApi r) with
  | None => None
  | Some tag_name => Some (if truthy tag_name then tag_name else None)
  end.

Definition releaseDownloadURL (r : RepoInfo) (tag : string) : string :=
  "https://github.com/" +:+ owner r +:+ "/" +:+ repo r
    +:+ "/releases/download/" +:+ tag +:+ "/".

(** [getGithubFeedURL]: the rejection is caught. *)
Definition getGithubFeedURL
    (latest : string -> option (option string)) (r : RepoInfo)
  : option string :=
  match getLatestReleaseTagName latest r with
  | Some latestReleaseTagName =>
      if truthy latestReleaseTagName
      then Some (releaseDownloadURL r (default "" latestReleaseTagName))
      else None
  | None => None
  end.

(** A repository whose latest release is tagged [v2.0.0]. *)
Definition acme : RepoInfo := {| owner := "acme"; repo := "app" |}.

Definition tagged (url : string) : option (option string) :=
  Some (Some "v2.0.0").



(** The parsed form of a release-download URL. *)
Definition releaseDownload (r : RepoInfo) (tag : string) : Url.URL :=
  Url.mkURL "https" (Some "github.com")
    ("/" +:+ owner r +:+ "/" +:+ repo r +:+ "/releases/download/"
       +:+ tag +:+ "/")
    None None.

End Providers.

(* ===================================================================== *)
(** ** URLs in normalised form *)
(* ===================================================================== *)

(** The URLs that the URL class reads and writes back character for
    character: nothing in them is percent-encoded, case-folded, taken
    for a port, a user name or an IP address, or removed as a dot
    segment. On these, and on file names of [Providers.safeName], the
    functions of [Url] compute what the URL class computes. *)
Module Normalised.
Import Url.

(** What follows the last dot of a host name. *)
Fixpoint lastLabel (h : string) : string :=
  match h with
  | EmptyString => EmptyString
  | String c r =>
      if Js.hasChar "." r then lastLabel r
      else if Ascii.eqb c "." then r else h
  end.

Definition startsWithLetter (s : string) : bool :=
  match s with
  | EmptyString => false
  | String c _ => isLower c
  end.

(** A host name: labels of lower-case letters, digits and hyphens,
    none of them empty or in Punycode, the last one starting with a
    letter (so that the name is not read as an IPv4 address). *)
Definition safeHost (h : string) : bool :=
  allChars Providers.hostChar h
  && negb (String.eqb h "")
  && negb (String.prefix "." h)
  && negb (Js.endsWith "." h)
  && negb (Js.includes ".." h)
  && negb (Js.includes "xn--" h)
  && startsWithLetter (lastLabel h).

Definition segmentChar (c : ascii) : bool :=
  Providers.nameChar c || Ascii.eqb c "/".

(** A path of letters, digits, hyphens, underscores, dots and slashes
    in which no segment starts with a dot. *)
Definition safePath (p : string) : bool :=
  allChars segmentChar p
  && negb (String.prefix "." p)
  && negb (Js.includes "/." p).

Definition queryChar (c : ascii) : bool :=
  Providers.nameChar c || Ascii.eqb c "=" || Ascii.eqb c "&".

(** A query or a fragment, when there is one. *)
Definition safePart (v : option string) : bool :=
  match v with
  | Some s => allChars queryChar s
  | None => true
  end.

Definition safeURL (u : URL) : bool :=
  negb (String.eqb (scheme u) "file")
  && match host u with
     | Some h => safeHost h
     | None => true
     end
  && safePath (pathname u)
  && safePart (query u)
  && safePart (fragment u).

End Normalised.

(* ===================================================================== *)
(** ** delta-updater/index.js: the host URL and the installation *)
(* ===================================================================== *)

Module Lifecycle.
Import Eff Updater.

(** [s.slice(0, -1)] *)
Fixpoint dropLast (s : string) : string :=
  match s with
  | EmptyString => EmptyString
  | String c r =>
      match r with
      | EmptyString => EmptyString
      | String _ _ => String c (dropLast r)
      end
  end.

Definition stripTrailingSlash (str : string) : string :=
  if Js.endsWith "/" str then dropLast str else str.

(** *** The host URL *)

(** [app-update.yml], as far as the updater reads it. *)
Record Config := {
  provider : string;
  repoInfo : Providers.RepoInfo
}.

(** The network as the updater sees it: the GitHub API, the generic
    provider (a module that is not part of the sources; [None] when it
    rejects), and the base URL of the client of electron-updater
    ([None] when [clientPromise] rejects). *)
Record Net := {
  latest : string -> option (option string);
  genericFeedURL : option (option string);
  clientBaseUrl : option string
}.

(** [guessHostURL()] *)
Definition guessHostURL (N : Net) (updateConfig : option Config)
  : Res (option string) :=
  match updateConfig with
  | None => Ok None
  | Some c =>
      let hostURL :=
        if String.eqb (provider c) "github"
        then Providers.getGithubFeedURL (latest N) (repoInfo c)
        else if String.eqb (provider c) "generic"
        then match genericFeedURL N with
             | Some u => u
             | None => None
             end
        else clientBaseUrl N in
      if negb (Providers.truthy hostURL) then Ok None
      else match Url.newBaseUrl (default "" hostURL) with
           | Some u => Ok (Some u)
           | None => Throw "TypeError"
           end
  end.

(** The URL that [guessHostURL] has from the provider of the
    configuration, before it is made a base URL: [None] when the
    provider yields nothing or throws. *)
Definition providerURL (N : Net) (c : Config) : option string :=
  if String.eqb (provider c) "github"
  then Providers.getGithubFeedURL (latest N) (repoInfo c)
  else if String.eqb (provider c) "generic"
  then match genericFeedURL N with
       | Some u => u
       | None => None
       end
  else clientBaseUrl N.



Definition githubConfig : Config :=
  {| provider := "github"; repoInfo := Providers.acme |}.

Definition net (latest : string -> option (option string)) : Net := {|
  latest := latest;
  genericFeedURL := Some (Some "https://feed.example/updates");
  clientBaseUrl := Some "not a url"
|}.

(** *** Applying an update *)

(** What the updater does to the application and to the system. *)
Inductive Step :=
| StepSafeQuit
| StepExecSync (command : string)
| StepExecFile (file : string) (args : list string)
| StepQuitAndInstall (args : option (bool * bool))
| StepRemoveQuitListener
| StepAppQuit.

(** [info] of the [update-downloaded] event. *)
Record Downloaded := {
  delta : bool;
  deltaPath : string;
  newVersion : string
}.

(** The application around the updater: the file that holds the attempt
    record with the JSON encoding of a record, the clock, whether the
    record can be written ([canPersist]: the directory of the file
    exists and is writable), and whether a command run by [execSync]
    exits with status 0. *)
Record App := {
  env : Env;
  appPath : string;
  appName : string;
  updateDetailsJSON : string;
  encode : UpdateDetails -> string;
  decode : string -> option UpdateDetails;
  now : Z;
  nowHuman : string;
  canPersist : bool;
  execSync : string -> bool
}.

Section Install.
Variable A : App.

Abbreviation M := (Eff.M Step).

(** The [data] of [writeAutoUpdateDetails]. *)
Definition attemptRecord (isDelta : bool) (attemptedVersion : string)
  : UpdateDetails := {|
  isDelta := isDelta;
  attemptedVersion := attemptedVersion;
  appVersion := getVersion (env A);
  timestamp := now A;
  timeHuman := nowHuman A
|}.

(** [writeAutoUpdateDetails({ isDelta, attemptedVersion })]; a write
    that fails is taken to leave the file as it was. *)
Definition writeAutoUpdateDetails (isDelta : bool)
    (attemptedVersion : string) : M unit :=
  match platform (env A) with
  | Darwin => mret tt
  | _ =>
      let data := attemptRecord isDelta attemptedVersion in
      try_catch
        (if canPersist A
         then Fs.writeFileSync (updateDetailsJSON A) (encode A data)
         else throw "EACCES")
        (fun _ => mret tt)
  end.

(** [getAutoUpdateDetails()]: [null] when the file cannot be read as
    JSON. *)
Definition getAutoUpdateDetails : M (option UpdateDetails) :=
  fs ← getFiles;
  mret (fs !! updateDetailsJSON A ≫= decode A).

Definition ensureSafeQuitAndInstall : M unit := emit StepSafeQuit.

(** The command line of the patch installer. *)
Definition patchCommand (deltaPath restart : string) : string :=
  deltaPath +:+ " /APPPATH=" +:+ Json.dq +:+ appPath A +:+ Json.dq
    +:+ " /RESTART=" +:+ Json.dq +:+ restart +:+ Json.dq.

(** [execSync(command)]: throws when the command fails. *)
Definition runSync (command : string) : M unit :=
  emit (StepExecSync command);;
  if execSync A command then mret tt else throw "Command failed".

Definition runMacUpdater (deltaPath : string) : M unit :=
  emit (StepExecFile (macUpdaterPath (env A))
          [appName A; deltaPath; hpatchzPath (env A)]).

(** [applyUpdate(version, forceRunAfter)] *)
Definition applyUpdate (version : string) (forceRunAfter : bool) : M unit :=
  writeAutoUpdateDetails false version;;
  ensureSafeQuitAndInstall;;
  match platform (env A) with
  | Darwin => emit (StepQuitAndInstall None)
  | _ => emit (StepQuitAndInstall (Some (true, forceRunAfter)))
  end.

(** [applyDeltaUpdate(deltaPath, version)]: the [catch] reads
    [this.log], a field the class never sets, so that an error in the
    [try] ends in a TypeError. *)
Definition applyDeltaUpdate (deltaPath version : string) : M unit :=
  writeAutoUpdateDetails true version;;
  ensureSafeQuitAndInstall;;
  try_catch
    (match platform (env A) with
     | Darwin => runMacUpdater deltaPath
     | _ => runSync (patchCommand deltaPath "1")
     end;;
     emit StepRemoveQuitListener;;
     emit StepAppQuit)
    (fun _ => throw "TypeError").

(** [quitAndInstall()], with [this.autoUpdateInfo] *)
Definition quitAndInstall (autoUpdateInfo : option Downloaded) : M unit :=
  match autoUpdateInfo with
  | None => mret tt
  | Some i =>
      if delta i then applyDeltaUpdate (deltaPath i) (newVersion i)
      else applyUpdate (newVersion i) true
  end.

(** The collaborators of the [update-available] listener once the disk
    is [fs]: the attempt record is the one the file holds. *)
Definition envOn (fs : gmap string string) : Env := {|
  getVersion := getVersion (env A);
  platform := platform (env A);
  prerelease := prerelease (env A);
  sha256hex := sha256hex (env A);
  respond := respond (env A);
  canWrite := canWrite (env A);
  fetch := fetch (env A);
  readUpdateDetails := fs !! updateDetailsJSON A ≫= decode A;
  updaterWindow := updaterWindow (env A);
  hostURL := hostURL (env A);
  deltaHolderPath := deltaHolderPath (env A);
  macUpdaterPath := macUpdaterPath (env A);
  hpatchzPath := hpatchzPath (env A)
|}.

End Install.

(** An installed application, with a toy encoding of the attempt
    record that keeps the version it was written from. *)
Definition app (plat : Platform) (patchWorks : bool) : App := {|
  env := {|
    getVersion := "1.1.0";
    platform := plat;
    prerelease := fun _ => None;
    sha256hex := fun c => "sha256:" +:+ c;
    respond := ClientSpec.feed (Some "good patch");
    canWrite := fun _ => true;
    fetch := fun _ => FetchThrows;
    readUpdateDetails := None;
    updaterWindow := true;
    hostURL := Some "https://feed.example/";
    deltaHolderPath := "/local/app-updater/deltas";
    macUpdaterPath := "/local/app-updater/mac-updater";
    hpatchzPath := "/local/app-updater/hpatchz"
  |};
  appPath := "/programs/App";
  appName := "App";
  updateDetailsJSON := "/local/app-updater/update-details.json";
  encode := fun d =>
    (if isDelta d then "delta " else "full ")
      +:+ attemptedVersion d +:+ " " +:+ appVersion d;
  decode := fun s =>
    match Js.splitAt " " s with
    | (kind, Some rest) =>
        match Js.splitAt " " rest with
        | (attempted, Some from) =>
            Some {| isDelta := String.eqb kind "delta";
                    attemptedVersion := attempted;
                    appVersion := from;
                    timestamp := 0;
                    timeHuman := "" |}
        | _ => None
        end
    | _ => None
    end;
  now := 1700000000000;
  nowHuman := "Tue Nov 14 2023";
  canPersist := true;
  execSync := fun _ => patchWorks
|}.

(** The same application where the attempt record cannot be written. *)
Definition readOnly (a : App) : App := {|
  env := env a;
  appPath := appPath a;
  appName := appName a;
  updateDetailsJSON := updateDetailsJSON a;
  encode := encode a;
  decode := decode a;
  now := now a;
  nowHuman := nowHuman a;
  canPersist := false;
  execSync := execSync a
|}.

(** A configuration for a provider that is neither github nor generic:
    the host URL comes from the client of electron-updater. *)
Definition s3HostConfig : Config :=
  {| provider := "s3"; repoInfo := Providers.acme |}.

Definition downloaded : Downloaded := {|
  delta := true;
  deltaPath := "/local/app-updater/deltas/App-1.1.0-to-2.0.0-delta.exe";
  newVersion := "2.0.0"
|}.

End Lifecycle.

(* ===================================================================== *)
(** * Theorems *)
(* ===================================================================== *)

Import Eff BuildSpec.

(* --------------------------------------------------------------------- *)
(** *** Strings and the monad *)
(* --------------------------------------------------------------------- *)

(* ---------- strings ---------- *)
Lemma sapp_cons c a b : String c a +:+ b = String c (a +:+ b).
Proof. reflexivity. Qed.

Lemma sapp_nil_l a : "" +:+ a = a.
Proof. reflexivity. Qed.

Lemma sapp_nil_r a : a +:+ "" = a.
Proof. induction a as [|c a IH]; [done|]. by rewrite sapp_cons, IH. Qed.

Lemma sapp_assoc a b c : (a +:+ b) +:+ c = a +:+ (b +:+ c).
Proof. induction a as [|x a IH]; [done|]. by rewrite !sapp_cons, IH. Qed.

Lemma lastChar_app a b : b ≠ "" → lastChar (a +:+ b) = lastChar b.
Proof.
  intros Hb. induction a as [|c a IH]; [done|].
  rewrite sapp_cons. simpl. rewrite IH.
  destruct (a +:+ b) eqn:E; [|done].
  destruct a; [rewrite sapp_nil_l in E; done | rewrite sapp_cons in E; done].
Qed.

Lemma join_inj d a b : Fs.join d a = Fs.join d b → a = b.
Proof.
  unfold Fs.join. intros Hab.
  apply (inj (String.app d)) in Hab. by apply (inj (String.app "/")) in Hab.
Qed.

(* ---------- monad ---------- *)
Import Eff.

Lemma bind_inv {E A B} (m : M E A) (f : A → M E B) w r w' :
  (m ≫= f) w = (r, w') →
  (∃ a w1, m w = (Ok a, w1) ∧ f a w1 = (r, w'))
  ∨ (∃ e, m w = (Throw e, w') ∧ r = Throw e)
  ∨ (m w = (Pending, w') ∧ r = Pending).
Proof.
  unfold mbind, M_bind, bind. destruct (m w) as [[a|e|] w1]; intros Hr.
  - left. eauto.
  - right. left. inversion Hr. eauto.
  - right. right. inversion Hr. eauto.
Qed.

Lemma bind_Ok_inv {E A B} (m : M E A) (f : A → M E B) w b w' :
  (m ≫= f) w = (Ok b, w') →
  ∃ a w1, m w = (Ok a, w1) ∧ f a w1 = (Ok b, w').
Proof.
  intros Hr. apply bind_inv in Hr as [Hr|[[e [_ Hr]]|[_ Hr]]]; [done|done..].
Qed.

(* --------------------------------------------------------------------- *)
(** *** JavaScript objects *)
(* --------------------------------------------------------------------- *)

(* ---------- Json objects ---------- *)
Lemma eqb_true_iff a b : String.eqb a b = true ↔ a = b.
Proof. apply String.eqb_eq. Qed.

Lemma keys_cons k v (o : Json.Obj) :
  Json.keys ((k, v) :: o) = k :: Json.keys o.
Proof. reflexivity. Qed.

Lemma elem_of_set_keys k v o x :
  x ∈ Json.keys (Json.set k v o) ↔ x = k ∨ x ∈ Json.keys o.
Proof.
  induction o as [|[k1 v1] o IH]; cbn [Json.set].
  - rewrite keys_cons, elem_of_cons. tauto.
  - destruct (String.eqb_spec k1 k) as [->|Hne];
      rewrite !keys_cons, !elem_of_cons; [|rewrite IH]; tauto.
Qed.

Lemma set_NoDup k v o :
  NoDup (Json.keys o) → NoDup (Json.keys (Json.set k v o)).
Proof.
  induction o as [|[k1 v1] o IH]; cbn [Json.set]; intros Hnd.
  - rewrite keys_cons. apply NoDup_cons. split; [apply not_elem_of_nil|done].
  - rewrite keys_cons in Hnd. apply NoDup_cons in Hnd as [Hk1 Hnd].
    destruct (String.eqb_spec k1 k) as [->|Hne]; rewrite keys_cons;
      apply NoDup_cons.
    + by split.
    + split; [|auto]. rewrite elem_of_set_keys. intros [?|?]; done.
Qed.

Lemma get_set_eq k v o : Json.get k (Json.set k v o) = Some v.
Proof.
  induction o as [|[k' v'] o IH]; simpl.
  - by rewrite String.eqb_refl.
  - destruct (String.eqb_spec k' k) as [->|Hne]; simpl.
    + by rewrite String.eqb_refl.
    + destruct (String.eqb_spec k' k); [done|]. done.
Qed.

Lemma get_set_ne k k' v o : k ≠ k' → Json.get k' (Json.set k v o) = Json.get k' o.
Proof.
  intros Hne. induction o as [|[k1 v1] o IH]; simpl.
  - destruct (String.eqb_spec k k'); done.
  - destruct (String.eqb_spec k1 k) as [->|Hne1]; simpl.
    + destruct (String.eqb_spec k k'); done.
    + by rewrite IH.
Qed.

Lemma get_Some_elem k v o : Json.get k o = Some v → (k, v) ∈ o.
Proof.
  induction o as [|[k1 v1] o IH]; simpl; [done|].
  destruct (String.eqb_spec k1 k) as [->|Hne].
  - intros [= ->]. apply elem_of_cons. by left.
  - intros Hg. apply elem_of_cons. right. auto.
Qed.

Lemma elem_get_NoDup k v o :
  NoDup (Json.keys o) → (k, v) ∈ o → Json.get k o = Some v.
Proof.
  induction o as [|[k1 v1] o IH]; simpl; [by intros _ ?%elem_of_nil|].
  intros Hnd Hin. apply NoDup_cons in Hnd as [Hk1 Hnd].
  apply elem_of_cons in Hin as [[= <- <-]|Hin].
  - by rewrite String.eqb_refl.
  - destruct (String.eqb_spec k1 k) as [->|Hne]; [|auto].
    exfalso. apply Hk1. unfold Json.keys. apply list_elem_of_fmap. exists (k, v). split; done.
Qed.

Lemma get_None_keys k o : Json.get k o = None ↔ k ∉ Json.keys o.
Proof.
  induction o as [|[k1 v1] o IH]; cbn [Json.get].
  - split; [intros _; apply not_elem_of_nil|done].
  - rewrite keys_cons, elem_of_cons.
    destruct (String.eqb_spec k1 k) as [->|Hne].
    + split; [done|]. intros Hn. exfalso. apply Hn. by left.
    + rewrite IH. split; [intros Hn [?|?]; [congruence|done]|].
      intros Hn Hin. apply Hn. by right.
Qed.

(** set on a mapped object with unique keys *)
Lemma set_map_NoDup (g : string * Json.Value → string * Json.Value) k v o :
  (∀ kv, (g kv).1 = kv.1) →
  NoDup (Json.keys o) → k ∈ Json.keys o →
  Json.set k v (map g o)
  = map (fun kv => if String.eqb kv.1 k then (k, v) else g kv) o.
Proof.
  intros Hg. induction o as [|[k1 v1] o IH]; simpl; [by intros _ ?%elem_of_nil|].
  intros Hnd Hin. apply NoDup_cons in Hnd as [Hk1 Hnd].
  specialize (Hg (k1, v1)) as Hg1. destruct (g (k1, v1)) as [k2 v2] eqn:Eg. simpl in Hg1. subst k2.
  destruct (String.eqb_spec k1 k) as [->|Hne].
  - f_equal. clear IH Hin. induction o as [|[k3 v3] o IH]; [done|]. simpl.
    rewrite keys_cons in Hk1, Hnd. rewrite elem_of_cons in Hk1.
    destruct (String.eqb_spec k3 k) as [->|Hne3]; [exfalso; auto|].
    f_equal. apply IH; [auto|]. by apply NoDup_cons in Hnd as [_ ?].
  - f_equal. apply IH; [done|].
    apply elem_of_cons in Hin as [?|?]; [congruence|done].
Qed.

Lemma entries_elem k e (o : Json.Obj) :
  (k, e) ∈ Json.entries o ↔ (k, Json.VEntry e) ∈ o.
Proof.
  unfold Json.entries. rewrite list_elem_of_omap. split.
  - intros [[k' v] [Hin Hv]]. simpl in Hv. destruct v; [done|]. by simplify_eq.
  - intros Hin. exists (k, Json.VEntry e). done.
Qed.

Lemma entries_cons k v (o : Json.Obj) :
  Json.entries ((k, v) :: o)
  = match v with
    | Json.VEntry e => (k, e) :: Json.entries o
    | Json.VStr _ => Json.entries o
    end.
Proof. by destruct v. Qed.

Lemma entries_set_length k e o :
  length (Json.entries (Json.set k (Json.VEntry e) o)) ≤ S (length (Json.entries o)).
Proof.
  induction o as [|[k1 v1] o IH]; [simpl; lia|].
  cbn [Json.set]. destruct (String.eqb k1 k); rewrite !entries_cons.
  - destruct v1; simpl; lia.
  - destruct v1; simpl; lia.
Qed.

Lemma entries_set_same k e e' o :
  Json.get k o = Some (Json.VEntry e) →
  length (Json.entries (Json.set k (Json.VEntry e') o)) = length (Json.entries o).
Proof.
  induction o as [|[k1 v1] o IH]; [done|].
  cbn [Json.set Json.get]. destruct (String.eqb k1 k); rewrite !entries_cons.
  - intros [= ->]. done.
  - intros Hg. destruct v1; simpl; auto.
Qed.

(* --------------------------------------------------------------------- *)
(** *** The build pipeline *)
(* --------------------------------------------------------------------- *)

Import Builder.

(* ---- primitive inversions ---- *)
Section Inv.
Context {E : Type}.
Implicit Types w : World E.

Lemma mret_inv {A} (a : A) w r w' : (mret a : M E A) w = (r, w') → r = Ok a ∧ w' = w.
Proof. by intros [= <- <-]. Qed.

Lemma getFiles_inv w r w' : @getFiles E w = (r, w') → r = Ok (files w) ∧ w' = w.
Proof. by intros [= <- <-]. Qed.

Lemma setFiles_inv fs w r w' :
  @setFiles E fs w = (r, w') → r = Ok tt ∧ w' = mkWorld fs (trace w).
Proof. by intros [= <- <-]. Qed.

Lemma emit_inv e w r w' :
  @emit E e w = (r, w') → r = Ok tt ∧ w' = mkWorld (files w) (trace w ++ [e]).
Proof. by intros [= <- <-]. Qed.

Lemma throw_inv {A} e w r w' : (@throw E A e) w = (r, w') → r = Throw e ∧ w' = w.
Proof. by intros [= <- <-]. Qed.

Lemma foldM_cons {A S} (x : A) l (s : S) (f : S → A → M E S) :
  foldM (x :: l) s f = (f s x ≫= fun s' => foldM l s' f).
Proof. reflexivity. Qed.

Lemma forM_cons {A} (x : A) l (f : A → M E unit) :
  forM (x :: l) f = (f x ≫= fun _ => forM l f).
Proof. reflexivity. Qed.
End Inv.

Ltac inv_step H :=
  match type of H with
  | (_ ≫= _) _ = (Ok _, _) =>
      let a := fresh "a" in let w := fresh "w" in
      let H1 := fresh "Hm" in let H2 := fresh "Hk" in
      apply bind_Ok_inv in H as (a & w & H1 & H2);
      try inv_step H1; try inv_step H2
  | mret _ _ = (_, _) =>
      apply mret_inv in H as [? ?]; simplify_eq
  | ret _ _ = (_, _) =>
      apply (mret_inv _ _ _ _) in H as [? ?]; simplify_eq
  | getFiles _ = (_, _) =>
      apply getFiles_inv in H as [? ?]; simplify_eq
  | setFiles _ _ = (_, _) =>
      apply setFiles_inv in H as [? ?]; simplify_eq
  | emit _ _ = (_, _) =>
      apply emit_inv in H as [? ?]; simplify_eq
  | throw _ _ = (_, _) =>
      apply throw_inv in H as [? ?]; simplify_eq
  end.

Section BuilderLemmas.
Variable T : Tools.
Variable H : Host.
Variable o : Options.

Lemma publishedName_key v :
  publishedName o v = publishedName o (Some (Js.toStr v)).
Proof.
  unfold publishedName, installerFileName, deltaFileName.
  by destruct (String.eqb (platform o) "win"), v.
Qed.

Lemma installAll_result prev dj w dj' w' :
  installAll T H o prev dj w = (Ok dj', w') →
  dj' = skeletonFrom (installerFileName o) prev dj.
Proof.
  revert dj w. induction prev as [|r prev IH]; intros dj w Hrun.
  - unfold installAll in Hrun. simpl in Hrun. by inv_step Hrun.
  - unfold installAll in Hrun. rewrite foldM_cons in Hrun.
    apply bind_Ok_inv in Hrun as (dj1 & w1 & Hstep & Hrest).
    apply IH in Hrest. subst dj'. simpl. f_equal.
    apply bind_Ok_inv in Hstep as (? & ? & _ & Hstep).
    apply bind_Ok_inv in Hstep as (? & ? & _ & Hstep).
    apply bind_Ok_inv in Hstep as (? & ? & _ & Hstep).
    apply bind_Ok_inv in Hstep as (? & ? & _ & Hstep).
    by inv_step Hstep.
Qed.

Lemma moveAll_result prev dj w dj' w' :
  moveAll o prev dj w = (Ok dj', w') →
  dj' = skeletonFrom (deltaFileName o) prev dj.
Proof.
  revert dj w. induction prev as [|r prev IH]; intros dj w Hrun.
  - unfold moveAll in Hrun. simpl in Hrun. by inv_step Hrun.
  - unfold moveAll in Hrun. rewrite foldM_cons in Hrun.
    apply bind_Ok_inv in Hrun as (dj1 & w1 & Hstep & Hrest).
    apply IH in Hrest. subst dj'. simpl. f_equal.
    apply bind_Ok_inv in Hstep as (? & ? & _ & Hstep).
    by inv_step Hstep.
Qed.

Lemma computeSHA256_inv p w sha w' :
  computeSHA256 T p w = (Ok sha, w') →
  w' = w ∧ ∃ c, files w !! p = Some c ∧ sha = sha256hex T c.
Proof.
  unfold computeSHA256, Fs.readFileSync. intros Hrun.
  apply bind_Ok_inv in Hrun as (c & w1 & Hread & Hret).
  apply bind_Ok_inv in Hread as (fs & w2 & Hget & Hmatch).
  inv_step Hget. inv_step Hret.
  destruct (files _ !! p) eqn:Hl; [|by inv_step Hmatch].
  inv_step Hmatch. eauto.
Qed.

End BuilderLemmas.

Section Skeleton.
Variable T : Tools.
Variable H : Host.
Variable o : Options.

Lemma skelInv_set K dj k :
  skelInv o K dj → skelInv o (k :: K) (Json.set k (skeletonEntry o k) dj).
Proof.
  intros (Hnd & Hin & Hout). split_and!.
  - by apply set_NoDup.
  - intros k' Hk'. destruct (decide (k = k')) as [->|Hne].
    + apply get_set_eq.
    + rewrite get_set_ne by done. apply Hin.
      apply elem_of_cons in Hk' as [?|?]; [congruence|done].
  - intros k' v. destruct (decide (k = k')) as [->|Hne].
    + intros _. right. apply elem_of_cons. by left.
    + rewrite get_set_ne by done. intros Hg.
      destruct (Hout _ _ Hg) as [?|?]; [by left|right].
      apply elem_of_cons. by right.
Qed.

Lemma skelInv_skeletonFrom prev K dj :
  skelInv o K dj →
  skelInv o (reverse (map keyOf prev) ++ K) (skeletonFrom (publishedName o) prev dj).
Proof.
  revert K dj. induction prev as [|r prev IH]; intros K dj Hinv; [done|].
  simpl. rewrite reverse_cons, <- app_assoc. simpl. apply IH.
  rewrite publishedName_key. by apply skelInv_set.
Qed.

Lemma skelInv_deltaJSON0 : skelInv o [] (deltaJSON0 o).
Proof.
  split_and!.
  - unfold deltaJSON0, Json.keys. simpl. apply NoDup_cons. split; [|apply NoDup_singleton].
    rewrite list_elem_of_singleton. done.
  - intros k Hk. by apply elem_of_nil in Hk.
  - intros k v Hg%get_Some_elem. unfold deltaJSON0 in Hg. left.
    apply elem_of_cons in Hg as [[= -> ->]|Hg]; [eauto|].
    apply list_elem_of_singleton in Hg as [= -> ->]. eauto.
Qed.

Lemma skelInv_skeleton prev :
  skelInv o (reverse (map keyOf prev)) (skeleton o prev).
Proof.
  rewrite <- (app_nil_r (reverse _)). apply skelInv_skeletonFrom, skelInv_deltaJSON0.
Qed.

Lemma skeletonFrom_keys name prev dj x :
  x ∈ Json.keys (skeletonFrom name prev dj)
  ↔ x ∈ Json.keys dj ∨ x ∈ map keyOf prev.
Proof.
  revert dj. induction prev as [|r prev IH]; intros dj; simpl.
  - rewrite elem_of_nil. tauto.
  - rewrite IH, elem_of_set_keys, elem_of_cons. tauto.
Qed.

Lemma skeletonFrom_entries_length name prev dj :
  length (Json.entries (skeletonFrom name prev dj))
  ≤ length (Json.entries dj) + length prev.
Proof.
  revert dj. induction prev as [|r prev IH]; intros dj; simpl; [lia|].
  etrans; [apply IH|]. pose proof (entries_set_length (keyOf r)
    (Json.mkEntry (Some (name (p_version r))) None) dj). lia.
Qed.

Lemma get_map (g : string * Json.Value → string * Json.Value) k o' :
  (∀ kv, (g kv).1 = kv.1) →
  Json.get k (map g o') = (fun v => (g (k, v)).2) <$> Json.get k o'.
Proof.
  intros Hg. induction o' as [|[k1 v1] o' IH]; [done|]. simpl.
  specialize (Hg (k1, v1)) as Hg1. destruct (g (k1, v1)) as [k2 v2] eqn:Eg.
  simpl in Hg1. subst k2. destruct (String.eqb_spec k1 k) as [->|Hne]; [|done].
  simpl. by rewrite Eg.
Qed.

Lemma fillIf_key F D kv : (fillIf T o F D kv).1 = kv.1.
Proof. unfold fillIf. by case_bool_decide. Qed.

Lemma checksum_step K S D F r c :
  skelInv o K S → keyOf r ∈ K →
  F !! Fs.join (outputDir o) (publishedName o (p_version r)) = Some c →
  Json.set (keyOf r)
    (Json.spreadWithSha (Json.get (keyOf r) (map (fillIf T o F D) S))
       (sha256hex T c))
    (map (fillIf T o F D) S)
  = map (fillIf T o F (keyOf r :: D)) S.
Proof.
  intros (Hnd & Hin & Hout) HkK Hc.
  pose proof (Hin _ HkK) as Hget.
  assert (Hname : publishedName o (p_version r)
                  = publishedName o (Some (keyOf r)))
    by apply publishedName_key.
  rewrite get_map by apply fillIf_key. rewrite Hget.
  cbn [fmap option_fmap option_map].
  assert (Hspread :
    Json.spreadWithSha
      (Some (fillIf T o F D (keyOf r, skeletonEntry o (keyOf r))).2)
      (sha256hex T c)
    = Json.VEntry (Json.mkEntry (Some (publishedName o (Some (keyOf r))))
                     (Some (sha256hex T c)))).
  { unfold fillIf. simpl. by case_bool_decide. }
  rewrite Hspread. clear Hspread.
  rewrite set_map_NoDup; [|apply fillIf_key|done|].
  2:{ apply dec_stable. intros Hn. apply get_None_keys in Hn. congruence. }
  apply map_ext_in. intros [k v] Hkv%list_elem_of_In. simpl.
  destruct (String.eqb_spec k (keyOf r)) as [->|Hne].
  - apply (elem_get_NoDup _ _ _ Hnd) in Hkv. rewrite Hget in Hkv.
    injection Hkv as <-.
    unfold fillIf. simpl. rewrite bool_decide_true by constructor.
    f_equal. unfold skeletonEntry, fillValue. simpl.
    by rewrite <- Hname, Hc.
  - unfold fillIf. simpl.
    destruct (bool_decide_reflect (k ∈ D)) as [HD|HD].
    + rewrite bool_decide_true by (by constructor). done.
    + rewrite bool_decide_false; [done|].
      rewrite elem_of_cons. intros [?|?]; done.
Qed.

Lemma checksumAll_result rem : ∀ K S D w dj' w',
  skelInv o K S →
  (∀ r, r ∈ rem → keyOf r ∈ K) →
  checksumAll T o (publishedName o) rem (map (fillIf T o (files w) D) S) w
    = (Ok dj', w') →
  w' = w
  ∧ dj' = map (fillIf T o (files w) (reverse (map keyOf rem) ++ D)) S
  ∧ ∀ r, r ∈ rem →
      is_Some (files w !! Fs.join (outputDir o) (publishedName o (p_version r))).
Proof.
  induction rem as [|r rem IH]; intros K S D w dj' w' Hinv HK Hrun.
  - unfold checksumAll in Hrun. simpl in Hrun. inv_step Hrun.
    split_and!; [done|done|]. intros r Hr. by apply elem_of_nil in Hr.
  - unfold checksumAll in Hrun. rewrite foldM_cons in Hrun.
    apply bind_Ok_inv in Hrun as (dj1 & w1 & Hstep & Hrest).
    apply bind_Ok_inv in Hstep as (sha & w2 & Hsha & Hret).
    apply computeSHA256_inv in Hsha as (Hw2 & c & Hc & Hsha).
    apply mret_inv in Hret as [Hdj1 Hw1]. subst w2 w1 sha.
    injection Hdj1 as Hdj1.
    assert (HkK : keyOf r ∈ K) by (apply HK; apply elem_of_cons; by left).
    change (Js.toStr (p_version r)) with (keyOf r) in Hdj1.
    rewrite (checksum_step K) in Hdj1 by done. subst dj1.
    change (foldM rem ?a ?f) with (checksumAll T o (publishedName o) rem a) in Hrest.
    apply (IH K) in Hrest as (-> & -> & Hex);
      [|done|intros r' Hr'; apply HK, elem_of_cons; by right].
    split_and!; [done| |].
    + simpl. by rewrite reverse_cons, <- app_assoc.
    + intros r' [->|Hr']%elem_of_cons; [eauto|auto].
Qed.

Lemma fillIf_all K S F D :
  skelInv o K S → (∀ k, k ∈ K → k ∈ D) →
  map (fillIf T o F D) S = fillSha T o F S.
Proof.
  intros (Hnd & Hin & Hout) HKD. unfold fillSha.
  apply map_ext_in. intros [k v] Hkv%list_elem_of_In.
  unfold fillIf. simpl. case_bool_decide as HD; [done|].
  apply (elem_get_NoDup _ _ _ Hnd) in Hkv.
  destruct (Hout _ _ Hkv) as [[s ->]|HK]; [done|]. exfalso. auto.
Qed.

Lemma fillIf_nil S F : map (fillIf T o F []) S = S.
Proof.
  rewrite <- (map_id S) at 2. apply map_ext_in. intros kv _.
  unfold fillIf. rewrite bool_decide_false; [done|]. apply not_elem_of_nil.
Qed.

Lemma publishedName_win :
  String.eqb (platform o) "win" = true → publishedName o = installerFileName o.
Proof. unfold publishedName. by intros ->. Qed.

Lemma publishedName_other :
  String.eqb (platform o) "win" = false → publishedName o = deltaFileName o.
Proof. unfold publishedName. by intros ->. Qed.

(** The manifest object of a completed run: the skeleton laid down by the
    first loop, with every entry's checksum filled in from the disk. *)
Lemma buildManifest_result prev w dj w' :
  buildManifest T H o prev w = (Ok dj, w') →
  dj = fillSha T o (files w') (skeleton o prev)
  ∧ ∀ r, r ∈ prev →
      is_Some (files w' !! Fs.join (outputDir o) (publishedName o (p_version r))).
Proof.
  unfold buildManifest. intros Hrun.
  assert (∃ w1, checksumAll T o (publishedName o) prev (skeleton o prev) w1
                = (Ok dj, w')) as [w1 Hsum].
  { destruct (String.eqb (platform o) "win") eqn:Hp.
    - apply bind_Ok_inv in Hrun as (dj1 & w1 & Hfirst & Hsum).
      apply installAll_result in Hfirst. subst dj1. exists w1.
      unfold skeleton. by rewrite publishedName_win.
    - apply bind_Ok_inv in Hrun as (dj1 & w1 & Hfirst & Hsum).
      apply moveAll_result in Hfirst. subst dj1. exists w1.
      unfold skeleton. by rewrite publishedName_other. }
  clear Hrun. rewrite <- (fillIf_nil (skeleton o prev) (files w1)) in Hsum.
  pose proof (skelInv_skeleton prev) as Hinv.
  eapply checksumAll_result in Hsum as (-> & -> & Hex); [|exact Hinv|].
  2:{ intros r Hr. apply elem_of_reverse, list_elem_of_fmap. by exists r. }
  split; [|done]. apply (fillIf_all _ _ _ _ Hinv).
  intros k Hk. by rewrite app_nil_r.
Qed.

End Skeleton.

Section Emits.
Context {E : Type}.
Variable P : E → Prop.

Lemma emitsOnly_ret {A} (a : A) : emitsOnly P (mret a : M E A).
Proof. intros w r w' [_ ->]%mret_inv. exists []. by rewrite app_nil_r. Qed.

Lemma emitsOnly_throw {A} e : emitsOnly P (throw e : M E A).
Proof. intros w r w' [_ ->]%throw_inv. exists []. by rewrite app_nil_r. Qed.

Lemma emitsOnly_hang {A} : emitsOnly P (hang : M E A).
Proof. intros w r w' [= _ <-]. exists []. by rewrite app_nil_r. Qed.

Lemma emitsOnly_getFiles : emitsOnly P (@getFiles E).
Proof. intros w r w' [_ ->]%getFiles_inv. exists []. by rewrite app_nil_r. Qed.

Lemma emitsOnly_setFiles fs : emitsOnly P (@setFiles E fs).
Proof. intros w r w' [_ ->]%setFiles_inv. exists []. by rewrite app_nil_r. Qed.

Lemma emitsOnly_emit e : P e → emitsOnly P (emit e).
Proof.
  intros He w r w' [_ ->]%emit_inv. exists [e]. split; [done|].
  by apply Forall_singleton.
Qed.

Lemma emitsOnly_bind {A B} (m : M E A) (f : A → M E B) :
  emitsOnly P m → (∀ a, emitsOnly P (f a)) → emitsOnly P (m ≫= f).
Proof.
  intros Hm Hf w r w' Hrun.
  apply bind_inv in Hrun as [(a & w1 & H1 & H2)|[(e & H1 & _)|[H1 _]]].
  - apply Hm in H1 as (t1 & Ht1 & HP1). apply Hf in H2 as (t2 & Ht2 & HP2).
    exists (t1 ++ t2). rewrite Ht2, Ht1, app_assoc. split; [done|].
    by apply Forall_app.
  - by apply Hm in H1.
  - by apply Hm in H1.
Qed.

Lemma emitsOnly_bind_val {A B} (m : M E A) (f : A → M E B) :
  emitsOnly P m →
  (∀ a, (∃ w w1, m w = (Ok a, w1)) → emitsOnly P (f a)) →
  emitsOnly P (m ≫= f).
Proof.
  intros Hm Hf w r w' Hrun.
  apply bind_inv in Hrun as [(a & w1 & H1 & H2)|[(e & H1 & _)|[H1 _]]].
  - pose proof H1 as H1'.
    apply Hm in H1 as (t1 & Ht1 & HP1).
    apply Hf in H2 as (t2 & Ht2 & HP2); [|eauto].
    exists (t1 ++ t2). rewrite Ht2, Ht1, app_assoc. split; [done|].
    by apply Forall_app.
  - by apply Hm in H1.
  - by apply Hm in H1.
Qed.

Lemma emitsOnly_try {A} (m : M E A) h :
  emitsOnly P m → (∀ e, emitsOnly P (h e)) → emitsOnly P (try_catch m h).
Proof.
  intros Hm Hh w r w' Hrun. unfold try_catch in Hrun.
  destruct (m w) as [[a|e|] w1] eqn:Hmw.
  - inversion Hrun; subst. by apply Hm in Hmw.
  - apply Hm in Hmw as (t1 & Ht1 & HP1). apply Hh in Hrun as (t2 & Ht2 & HP2).
    exists (t1 ++ t2). rewrite Ht2, Ht1, app_assoc. split; [done|].
    by apply Forall_app.
  - inversion Hrun; subst. by apply Hm in Hmw.
Qed.

Lemma emitsOnly_forM {A} (l : list A) (f : A → M E unit) :
  (∀ x, emitsOnly P (f x)) → emitsOnly P (forM l f).
Proof.
  intros Hf. induction l as [|x l IH]; [apply (emitsOnly_ret tt)|].
  rewrite forM_cons. apply emitsOnly_bind; auto.
Qed.

Lemma emitsOnly_foldM {A S} (l : list A) (s : S) (f : S → A → M E S) :
  (∀ s x, emitsOnly P (f s x)) → emitsOnly P (foldM l s f).
Proof.
  intros Hf. revert s. induction l as [|x l IH]; intros s;
    [apply (emitsOnly_ret s)|].
  rewrite foldM_cons. apply emitsOnly_bind; auto.
Qed.
End Emits.

Lemma emitsOnly_mono {E A} (P Q : E → Prop) (m : M E A) :
  (∀ e, P e → Q e) → emitsOnly P m → emitsOnly Q m.
Proof.
  intros HPQ Hm w r w' Hrun. apply Hm in Hrun as (t & Ht & HP).
  exists t. split; [done|]. eapply Forall_impl; eauto.
Qed.

(** Steps through a computation, down to its [emit]s. *)
Ltac emits_step :=
  lazymatch goal with
  | |- emitsOnly _ (_ ≫= _) => apply emitsOnly_bind; [|intros]
  | |- emitsOnly _ (mret _) => apply emitsOnly_ret
  | |- emitsOnly _ (ret _) => apply (emitsOnly_ret _ _)
  | |- emitsOnly _ (throw _) => apply emitsOnly_throw
  | |- emitsOnly _ hang => apply emitsOnly_hang
  | |- emitsOnly _ getFiles => apply emitsOnly_getFiles
  | |- emitsOnly _ (setFiles _) => apply emitsOnly_setFiles
  | |- emitsOnly _ (try_catch _ _) => apply emitsOnly_try; [|intros]
  | |- emitsOnly _ (forM _ _) => apply emitsOnly_forM; intros
  | |- emitsOnly _ (foldM _ _ _) => apply emitsOnly_foldM; intros
  | |- emitsOnly _ (emit _) => apply emitsOnly_emit
  | |- emitsOnly _ (match ?x with _ => _ end) => destruct x
  | |- emitsOnly _ (let '(_, _) := ?x in _) => destruct x
  end.

Ltac emits_tac := repeat emits_step.

Section BuilderEmits.
Variable T : Tools.
Variable H : Host.
Variable o : Options.
Variable P : Event → Prop.

Lemma emitsOnly_ensureDir d : emitsOnly P (Fs.ensureDir d : M Event unit).
Proof. apply (emitsOnly_ret _ tt). Qed.

Lemma emitsOnly_emptyDir d : emitsOnly P (Fs.emptyDir d : M Event unit).
Proof. unfold Fs.emptyDir. emits_tac. Qed.

Lemma emitsOnly_readFileSync p : emitsOnly P (Fs.readFileSync p : M Event string).
Proof. unfold Fs.readFileSync. emits_tac. Qed.

Lemma emitsOnly_writeFileSync p c :
  emitsOnly P (Fs.writeFileSync p c : M Event unit).
Proof. unfold Fs.writeFileSync. emits_tac. Qed.

Lemma emitsOnly_move a b : emitsOnly P (Fs.move a b : M Event unit).
Proof. unfold Fs.move. emits_tac. Qed.

Lemma emitsOnly_computeSHA256 p : emitsOnly P (computeSHA256 T p).
Proof. unfold computeSHA256. emits_tac. apply emitsOnly_readFileSync. Qed.

Lemma emitsOnly_joinVersion d v : emitsOnly P (joinVersion d v).
Proof. unfold joinVersion. emits_tac. Qed.

Lemma emitsOnly_downloadFile u p :
  P (EvDownload u p) → emitsOnly P (downloadFile T u p).
Proof. intros HP. unfold downloadFile. emits_tac; done. Qed.

Lemma emitsOnly_extract7zip z d :
  P (EvExtract z d) → emitsOnly P (extract7zip T z d).
Proof. intros HP. unfold extract7zip. emits_tac; done. Qed.

Lemma emitsOnly_checksumAll name prev dj :
  emitsOnly P (checksumAll T o name prev dj).
Proof. unfold checksumAll. emits_tac. apply emitsOnly_computeSHA256. Qed.

Lemma emitsOnly_moveAll prev dj : emitsOnly P (moveAll o prev dj).
Proof. unfold moveAll. emits_tac. apply emitsOnly_move. Qed.

Lemma downloadFile_value u p w r w' :
  downloadFile T u p w = (Ok r, w') → r = p.
Proof.
  intros Hrun. unfold downloadFile in Hrun.
  apply bind_Ok_inv in Hrun as (? & ? & _ & Hrun).
  apply bind_Ok_inv in Hrun as (? & ? & _ & Hrun).
  destruct (got T u).
  - apply bind_Ok_inv in Hrun as (? & ? & _ & Hrun). by inv_step Hrun.
  - apply bind_Ok_inv in Hrun as (? & ? & _ & Hrun). by inv_step Hrun.
Qed.

Lemma emitsOnly_getNSISPath :
  P (EvDownload nsisURL (Fs.join (deltaBinsDir H) "nsis.zip")) →
  P (EvExtract (Fs.join (deltaBinsDir H) "nsis.zip") (deltaBinsDir H)) →
  emitsOnly P (getNSISPath T H).
Proof.
  intros Hd He. unfold getNSISPath.
  apply emitsOnly_bind; [apply emitsOnly_getFiles|intros fs].
  destruct (Fs.existsSync fs (makeNSISPath H)); [apply emitsOnly_ret|].
  apply emitsOnly_bind; [apply emitsOnly_ensureDir|intros _].
  apply emitsOnly_bind_val; [by apply emitsOnly_downloadFile|].
  intros filePath (w & w1 & ->%downloadFile_value).
  apply emitsOnly_bind; [by apply emitsOnly_extract7zip|intros _].
  apply emitsOnly_ret.
Qed.

Lemma emitsOnly_build a b c :
  (∀ exe args, P (EvSpawn exe args)) →
  P (EvDownload nsisURL (Fs.join (deltaBinsDir H) "nsis.zip")) →
  P (EvExtract (Fs.join (deltaBinsDir H) "nsis.zip") (deltaBinsDir H)) →
  emitsOnly P (build T H o a b c).
Proof.
  intros Hs Hd He. unfold build, executeNSIS, safeSpawn.
  apply emitsOnly_bind; [|intros; emits_tac].
  apply emitsOnly_try; [|intros; emits_tac].
  apply emitsOnly_bind; [by apply emitsOnly_getNSISPath|].
  intros [makensis ?]. emits_tac; done.
Qed.

Lemma emitsOnly_installAll prev dj :
  (∀ exe args, P (EvSpawn exe args)) →
  (∀ p, P (EvSign p)) →
  P (EvDownload nsisURL (Fs.join (deltaBinsDir H) "nsis.zip")) →
  P (EvExtract (Fs.join (deltaBinsDir H) "nsis.zip") (deltaBinsDir H)) →
  emitsOnly P (installAll T H o prev dj).
Proof.
  intros Hs Hg Hd He. unfold installAll.
  apply emitsOnly_foldM. intros s r.
  apply emitsOnly_bind; [by apply emitsOnly_build|intros _].
  emits_tac; done.
Qed.

Lemma emitsOnly_buildManifest prev :
  (∀ exe args, P (EvSpawn exe args)) →
  (∀ p, P (EvSign p)) →
  P (EvDownload nsisURL (Fs.join (deltaBinsDir H) "nsis.zip")) →
  P (EvExtract (Fs.join (deltaBinsDir H) "nsis.zip") (deltaBinsDir H)) →
  emitsOnly P (buildManifest T H o prev).
Proof.
  intros Hs Hg Hd He. unfold buildManifest.
  destruct (String.eqb (platform o) "win").
  - apply emitsOnly_bind; [by apply emitsOnly_installAll|intros].
    apply emitsOnly_checksumAll.
  - apply emitsOnly_bind; [by apply emitsOnly_moveAll|intros].
    apply emitsOnly_checksumAll.
Qed.

Lemma emitsOnly_writeManifest dj :
  (∀ p, P (EvWriteFile p)) → emitsOnly P (writeManifest o dj).
Proof.
  intros Hw. unfold writeManifest. emits_tac; [done|].
  apply emitsOnly_writeFileSync.
Qed.

Lemma emitsOnly_createDelta a b c :
  (∀ st, P (EvCreateDelta a b c st)) → emitsOnly P (createDelta T H a b c).
Proof. intros Hc. unfold createDelta. emits_tac; done. Qed.

Lemma emitsOnly_deltaAll prev :
  (∀ a b c st, P (EvCreateDelta a b c st)) → emitsOnly P (deltaAll T H o prev).
Proof.
  intros Hc. unfold deltaAll. apply emitsOnly_forM. intros r.
  apply emitsOnly_bind.
  - destruct (String.eqb (platform o) "win"); [apply emitsOnly_joinVersion|].
    apply emitsOnly_bind; [apply emitsOnly_joinVersion|intros; apply emitsOnly_ret].
  - intros oldDir. apply emitsOnly_bind; [by apply emitsOnly_createDelta|].
    intros; apply emitsOnly_ret.
Qed.

Lemma emitsOnly_afterLatest prev :
  (∀ a b c st, P (EvCreateDelta a b c st)) →
  (∀ exe args, P (EvSpawn exe args)) →
  (∀ p, P (EvSign p)) →
  (∀ p, P (EvWriteFile p)) →
  P (EvDownload nsisURL (Fs.join (deltaBinsDir H) "nsis.zip")) →
  P (EvExtract (Fs.join (deltaBinsDir H) "nsis.zip") (deltaBinsDir H)) →
  emitsOnly P (afterLatest T H o prev).
Proof.
  intros. unfold afterLatest.
  apply emitsOnly_bind; [apply emitsOnly_ensureDir|intros _].
  apply emitsOnly_bind; [apply emitsOnly_ensureDir|intros _].
  apply emitsOnly_bind; [apply emitsOnly_emptyDir|intros _].
  apply emitsOnly_bind; [by apply emitsOnly_deltaAll|intros _].
  apply emitsOnly_bind; [by apply emitsOnly_buildManifest|intros dj].
  apply emitsOnly_bind; [by apply emitsOnly_writeManifest|intros _].
  emits_tac.
Qed.
End BuilderEmits.

Section Run.
Variable T : Tools.
Variable H : Host.
Variable o : Options.

Lemma createAllDeltas_empty w :
  fetchReleases o = [] → createAllDeltas T H o w = (Ok None, w).
Proof. intros He. unfold createAllDeltas. rewrite He. reflexivity. Qed.

Lemma createAllDeltas_nonempty :
  fetchReleases o ≠ [] →
  createAllDeltas T H o
  = (downloadAll T o (prepared T o);;
     extractAll T o (prepared T o);;
     extract7zip T (latestReleaseFilePath o) (latestReleaseDir o);;
     afterLatest T H o (prepared T o)).
Proof.
  intros Hne. unfold createAllDeltas, prepared.
  destruct (fetchReleases o) as [|r l]; [done|]. reflexivity.
Qed.

Lemma createAllDeltas_Some_nonempty w files w' :
  createAllDeltas T H o w = (Ok (Some files), w') → fetchReleases o ≠ [].
Proof.
  intros Hrun He. rewrite createAllDeltas_empty in Hrun by done. done.
Qed.

Lemma name_not_manifest v :
  publishedName o v ≠ "delta-" +:+ platform o +:+ ".json".
Proof.
  intros Heq. apply (f_equal lastChar) in Heq.
  rewrite <- !sapp_assoc in Heq.
  rewrite (lastChar_app _ ".json") in Heq by done.
  unfold publishedName, installerFileName, deltaFileName in Heq.
  destruct (String.eqb (platform o) "win").
  - rewrite <- !sapp_assoc in Heq.
    rewrite (lastChar_app _ "-delta.exe") in Heq by done. done.
  - rewrite <- !sapp_assoc in Heq.
    rewrite (lastChar_app _ ".delta") in Heq by done. done.
Qed.

(** A completed run: the manifest object and where it went. *)
Lemma createAllDeltas_manifest w files w' :
  createAllDeltas T H o w = (Ok (Some files), w') →
  ∃ F,
    Eff.files w'
    = <[deltaJSONPath o :=
          Json.stringify (fillSha T o F (skeleton o (prepared T o)))]> F
    ∧ ∀ r, r ∈ prepared T o →
        is_Some (F !! Fs.join (outputDir o) (publishedName o (p_version r))).
Proof.
  intros Hrun. pose proof (createAllDeltas_Some_nonempty _ _ _ Hrun) as Hne.
  rewrite createAllDeltas_nonempty in Hrun by done.
  apply bind_Ok_inv in Hrun as (? & w1 & _ & Hrun).
  apply bind_Ok_inv in Hrun as (? & w2 & _ & Hrun).
  apply bind_Ok_inv in Hrun as (? & w3 & _ & Hrun).
  unfold afterLatest in Hrun.
  apply bind_Ok_inv in Hrun as (? & w4 & _ & Hrun).
  apply bind_Ok_inv in Hrun as (? & w5 & _ & Hrun).
  apply bind_Ok_inv in Hrun as (? & w6 & _ & Hrun).
  apply bind_Ok_inv in Hrun as (? & w7 & _ & Hrun).
  apply bind_Ok_inv in Hrun as (dj & w8 & Hbuild & Hrun).
  apply bind_Ok_inv in Hrun as (? & w9 & Hwrite & Hrun).
  apply bind_Ok_inv in Hrun as (? & w10 & Hget & Hrun).
  inv_step Hget. inv_step Hrun.
  apply buildManifest_result in Hbuild as [-> Hex].
  exists (Eff.files w8). split; [|done].
  unfold writeManifest in Hwrite.
  apply bind_Ok_inv in Hwrite as (? & w11 & Hemit & Hwrite).
  inv_step Hemit. unfold Fs.writeFileSync in Hwrite.
  apply bind_Ok_inv in Hwrite as (? & w12 & Hget & Hwrite).
  inv_step Hget. by inv_step Hwrite.
Qed.

Lemma entries_fillSha F S k e' :
  (k, e') ∈ Json.entries (fillSha T o F S) →
  ∃ e, (k, Json.VEntry e) ∈ S
       ∧ e' = Json.mkEntry (Json.path e)
                (sha256hex T <$> (F !! Fs.join (outputDir o) (default "" (Json.path e)))).
Proof.
  rewrite entries_elem. unfold fillSha. rewrite list_elem_of_fmap.
  intros [[k1 v1] [Heq Hin]]. simpl in Heq. destruct v1 as [s|e]; [done|].
  simpl in Heq. injection Heq as -> ->. eauto.
Qed.

Lemma entries_fillSha_length F S :
  length (Json.entries (fillSha T o F S)) = length (Json.entries S).
Proof.
  induction S as [|[k v] S IH]; [done|].
  change (fillSha T o F ((k, v) :: S))
    with ((k, fillValue T o F v) :: fillSha T o F S).
  rewrite !entries_cons. destruct v; simpl; auto.
Qed.

Lemma prepared_length :
  length (prepared T o) = Nat.min (length (fetchReleases o)) 10.
Proof.
  unfold prepared, preparePreviousReleases, Js.slice0.
  rewrite length_map, length_take. lia.
Qed.

Lemma keys_fillSha F S : Json.keys (fillSha T o F S) = Json.keys S.
Proof. unfold Json.keys, fillSha. rewrite map_map. done. Qed.

(** C4. For every list of N prior releases supplied by the release
    index, the manifest written by a completed run of [createAllDeltas]
    holds at most min(N, 10) version entries, and each entry carries a
    path that names a file of the output directory and a sha256 equal to
    the SHA-256 of that file. *)
Theorem manifest_entries_bounded_and_checksummed w files w' :
  createAllDeltas T H o w = (Ok (Some files), w') →
  ∃ deltaJSON,
    Eff.files w' !! deltaJSONPath o = Some (Json.stringify deltaJSON)
    ∧ length (Json.entries deltaJSON)
      ≤ Nat.min (length (fetchReleases o)) 10
    ∧ ∀ k e, (k, e) ∈ Json.entries deltaJSON →
        ∃ name content,
          Json.path e = Some name
          ∧ Eff.files w' !! Fs.join (outputDir o) name = Some content
          ∧ Json.sha256 e = Some (sha256hex T content).
Proof.
  intros Hrun. apply createAllDeltas_manifest in Hrun as (F & HF & Hex).
  exists (fillSha T o F (skeleton o (prepared T o))). split_and!.
  - rewrite HF. apply lookup_insert_eq.
  - rewrite entries_fillSha_length, <- prepared_length.
    pose proof (skeletonFrom_entries_length (publishedName o) (prepared T o)
                  (deltaJSON0 o)) as Hlen.
    unfold skeleton. simpl in Hlen. lia.
  - intros k e' (e & Hin & ->)%entries_fillSha.
    destruct (skelInv_skeleton o (prepared T o)) as (Hnd & Hin' & Hout).
    apply (elem_get_NoDup _ _ _ Hnd) in Hin.
    destruct (Hout _ _ Hin) as [[s Hs]|HK]; [done|].
    rewrite (Hin' _ HK) in Hin. injection Hin as <-. simpl.
    apply elem_of_reverse, list_elem_of_fmap in HK as (r & -> & Hr).
    destruct (Hex _ Hr) as [c Hc].
    rewrite publishedName_key in Hc. fold (keyOf r) in Hc.
    exists (publishedName o (Some (keyOf r))), c. split_and!; [done| |].
    + rewrite HF, lookup_insert_ne; [done|].
      unfold deltaJSONPath. intros Heq%join_inj. symmetry in Heq.
      by apply name_not_manifest in Heq.
    + by rewrite Hc.
Qed.

End Run.

Section Outs.
Variable T : Tools.
Variable H : Host.
Variable o : Options.

Lemma deltaOuts_app a b : deltaOuts (a ++ b) = deltaOuts a ++ deltaOuts b.
Proof. unfold deltaOuts. apply omap_app. Qed.

Lemma deltaOuts_notCreateDelta t : Forall notCreateDelta t → deltaOuts t = [].
Proof.
  induction 1 as [|e t He _ IH]; [done|].
  change (e :: t) with ([e] ++ t). rewrite deltaOuts_app, IH. by destruct e.
Qed.

Lemma emitsOuts_quiet {A} (m : M Event A) :
  emitsOnly notCreateDelta m → emitsOuts m [].
Proof.
  intros Hm w a w' Hrun. apply Hm in Hrun as (t & Ht & HP).
  exists t. split; [done|]. by apply deltaOuts_notCreateDelta.
Qed.

Lemma emitsOuts_bind {A B} (m : M Event A) (f : A → M Event B) l1 l2 :
  emitsOuts m l1 → (∀ a, emitsOuts (f a) l2) → emitsOuts (m ≫= f) (l1 ++ l2).
Proof.
  intros Hm Hf w b w' Hrun.
  apply bind_Ok_inv in Hrun as (a & w1 & H1 & H2).
  apply Hm in H1 as (t1 & Ht1 & <-). apply Hf in H2 as (t2 & Ht2 & <-).
  exists (t1 ++ t2). by rewrite Ht2, Ht1, app_assoc, deltaOuts_app.
Qed.

Lemma emitsOuts_createDelta a b c :
  emitsOuts (createDelta T H a b c) [c].
Proof.
  intros w r w' Hrun. unfold createDelta in Hrun.
  apply bind_Ok_inv in Hrun as (fs & w1 & Hget & Hrun). inv_step Hget.
  destruct (spawnSync T _ _ _) as [|st fs'].
  - apply bind_Ok_inv in Hrun as (? & w2 & Hemit & Hrun).
    inv_step Hemit. inv_step Hrun. eexists [_]. by split.
  - apply bind_Ok_inv in Hrun as (? & w2 & Hemit & Hrun).
    apply bind_Ok_inv in Hrun as (? & w3 & Hset & Hrun).
    inv_step Hemit. inv_step Hset. inv_step Hrun. eexists [_]. by split.
Qed.

Lemma emitsOuts_deltaAll prev :
  emitsOuts (deltaAll T H o prev) (expectedOuts o prev).
Proof.
  induction prev as [|r prev IH].
  - intros w a w' Hrun. unfold deltaAll in Hrun. simpl in Hrun. inv_step Hrun.
    exists []. by rewrite app_nil_r.
  - unfold deltaAll. rewrite forM_cons.
    change (expectedOuts o (r :: prev))
      with (([] ++ [Fs.join (deltaDir o) (deltaFileName o (p_version r))] ++ [])
            ++ expectedOuts o prev).
    apply emitsOuts_bind; [|intros _; exact IH].
    apply emitsOuts_bind.
    + apply emitsOuts_quiet.
      destruct (String.eqb (platform o) "win"); [apply emitsOnly_joinVersion|].
      apply emitsOnly_bind; [apply emitsOnly_joinVersion|intros; apply emitsOnly_ret].
    + intros oldDir. apply emitsOuts_bind; [apply emitsOuts_createDelta|].
      intros _. apply emitsOuts_quiet, emitsOnly_ret.
Qed.

Lemma emitsOnly_downloadAll P prev :
  (∀ u p, P (EvDownload u p)) → emitsOnly P (downloadAll T o prev).
Proof.
  intros HP. unfold downloadAll, downloadFileIfNotExists.
  apply emitsOnly_forM. intros r. emits_tac.
  by apply emitsOnly_downloadFile.
Qed.

Lemma emitsOnly_extractAll P prev :
  (∀ z d, P (EvExtract z d)) → emitsOnly P (extractAll T o prev).
Proof.
  intros HP. unfold extractAll.
  apply emitsOnly_forM. intros r.
  apply emitsOnly_bind; [apply emitsOnly_joinVersion|intros d].
  apply emitsOnly_bind; [apply emitsOnly_getFiles|intros fs].
  destruct (negb _); [|apply emitsOnly_ret].
  apply emitsOnly_bind; [apply emitsOnly_ensureDir|intros _].
  apply emitsOnly_bind; [apply emitsOnly_emptyDir|intros _].
  apply emitsOnly_bind; [by apply emitsOnly_extract7zip|intros _].
  apply emitsOnly_ret.
Qed.

Lemma emitsOuts_createAllDeltas_nonempty :
  emitsOuts (downloadAll T o (prepared T o);;
     extractAll T o (prepared T o);;
     extract7zip T (latestReleaseFilePath o) (latestReleaseDir o);;
     afterLatest T H o (prepared T o)) (expectedOuts o (prepared T o)).
Proof.
  change (expectedOuts o (prepared T o))
    with ([] ++ [] ++ [] ++ [] ++ [] ++ [] ++ expectedOuts o (prepared T o)).
  apply emitsOuts_bind; [by apply emitsOuts_quiet, emitsOnly_downloadAll|intros _].
  apply emitsOuts_bind; [by apply emitsOuts_quiet, emitsOnly_extractAll|intros _].
  apply emitsOuts_bind; [by apply emitsOuts_quiet, emitsOnly_extract7zip|intros _].
  unfold afterLatest.
  apply emitsOuts_bind; [apply emitsOuts_quiet, emitsOnly_ensureDir|intros _].
  apply emitsOuts_bind; [apply emitsOuts_quiet, emitsOnly_ensureDir|intros _].
  apply emitsOuts_bind; [apply emitsOuts_quiet, emitsOnly_emptyDir|intros _].
  rewrite <- (app_nil_r (expectedOuts _ _)).
  apply emitsOuts_bind; [apply emitsOuts_deltaAll|intros _].
  apply emitsOuts_quiet.
  apply emitsOnly_bind; [by apply emitsOnly_buildManifest|intros dj].
  apply emitsOnly_bind; [by apply emitsOnly_writeManifest|intros _].
  emits_tac.
Qed.

(** C1. The keys of the manifest written by a completed run, other than
    productName and latestVersion, are exactly the cleaned versions of
    the first ten prior releases, whatever the diff tool did for them;
    and [createDelta] was called once for every one of them, in order: a
    failure for one pair does not stop the loop. *)
Theorem manifest_keys_are_all_prior_versions w files w' :
  createAllDeltas T H o w = (Ok (Some files), w') →
  ∃ deltaJSON t,
    Eff.files w' !! deltaJSONPath o = Some (Json.stringify deltaJSON)
    ∧ (∀ k, k ∈ Json.keys deltaJSON
            ↔ k = "productName" ∨ k = "latestVersion"
              ∨ k ∈ map keyOf (prepared T o))
    ∧ trace w' = trace w ++ t
    ∧ deltaOuts t = expectedOuts o (prepared T o).
Proof.
  intros Hrun.
  pose proof (createAllDeltas_Some_nonempty _ _ _ _ _ _ Hrun) as Hne.
  pose proof Hrun as Hrun'.
  apply createAllDeltas_manifest in Hrun as (F & HF & Hex).
  rewrite createAllDeltas_nonempty in Hrun' by done.
  apply emitsOuts_createAllDeltas_nonempty in Hrun' as (t & Ht & Houts).
  exists (fillSha T o F (skeleton o (prepared T o))), t. split_and!; [|  |done|done].
  - rewrite HF. apply lookup_insert_eq.
  - intros k. rewrite keys_fillSha. unfold skeleton.
    rewrite skeletonFrom_keys. unfold deltaJSON0, Json.keys. simpl.
    rewrite !elem_of_cons, elem_of_nil. tauto.
Qed.
End Outs.

Section Warm.
Variable T : Tools.
Variable H : Host.
Variable o : Options.

Lemma bind_Ok_eq {E A B} (m : M E A) (f : A → M E B) w a w1 :
  m w = (Ok a, w1) → (m ≫= f) w = f a w1.
Proof. intros Hm. unfold mbind, M_bind, bind. by rewrite Hm. Qed.

Lemma downloadFileIfNotExists_cached u p w :
  Fs.existsSync (files w) p = true →
  downloadFileIfNotExists T u p w = (Ok p, w).
Proof.
  intros Hex. unfold downloadFileIfNotExists.
  rewrite (bind_Ok_eq _ _ w (files w) w) by done. by rewrite Hex.
Qed.

Lemma downloadAll_cached prev w :
  (∀ r, r ∈ prev →
     Fs.existsSync (files w) (Fs.join (dataDir o) (p_fileName r)) = true) →
  downloadAll T o prev w = (Ok tt, w).
Proof.
  induction prev as [|r prev IH]; intros Hex; [done|].
  unfold downloadAll. rewrite forM_cons.
  erewrite bind_Ok_eq.
  2:{ erewrite bind_Ok_eq; [reflexivity|].
      apply downloadFileIfNotExists_cached, Hex. constructor. }
  apply IH. intros r' Hr'. apply Hex. by constructor.
Qed.

Lemma extractAll_cached prev w :
  (∀ r, r ∈ prev →
     ∃ v, p_version r = Some v
       ∧ Fs.existsSync (files w) (Fs.join (Fs.join (dataDir o) v) (exeName o))
         = true) →
  extractAll T o prev w = (Ok tt, w).
Proof.
  induction prev as [|r prev IH]; intros Hex; [done|].
  unfold extractAll. rewrite forM_cons.
  destruct (Hex r) as (v & Hv & Hexe); [constructor|].
  erewrite bind_Ok_eq.
  2:{ rewrite Hv. unfold joinVersion.
      erewrite bind_Ok_eq; [|reflexivity].
      erewrite bind_Ok_eq; [|reflexivity].
      rewrite Hexe. reflexivity. }
  apply IH. intros r' Hr'. apply Hex. by constructor.
Qed.

Lemma extract7zip_trace z d w r w' :
  extract7zip T z d w = (r, w') → trace w' = trace w ++ [EvExtract z d].
Proof.
  unfold extract7zip, mbind, M_bind, bind. simpl.
  destruct (sevenZip T z d (files w)); simpl; by intros [= <- <-].
Qed.

Lemma stripSha_fillSha F S : stripSha (fillSha T o F S) = stripSha S.
Proof.
  unfold stripSha, fillSha. rewrite map_map. apply map_ext.
  intros [k [s|e]]; done.
Qed.

Lemma fillSha_agree F1 F2 prev :
  (∀ r, r ∈ prev → F1 !! artifact o r = F2 !! artifact o r) →
  fillSha T o F1 (skeleton o prev) = fillSha T o F2 (skeleton o prev).
Proof.
  intros Hagree. unfold fillSha. apply map_ext_in.
  intros [k v] Hkv%list_elem_of_In. simpl. f_equal.
  destruct v as [s|e]; [done|].
  destruct (skelInv_skeleton o prev) as (Hnd & Hin & Hout).
  apply (elem_get_NoDup _ _ _ Hnd) in Hkv.
  destruct (Hout _ _ Hkv) as [[s Hs]|HK]; [done|].
  rewrite (Hin _ HK) in Hkv. injection Hkv as <-. simpl.
  apply elem_of_reverse, list_elem_of_fmap in HK as (r & -> & Hr).
  specialize (Hagree r Hr). unfold artifact in Hagree.
  rewrite publishedName_key in Hagree. fold (keyOf r) in Hagree.
  by rewrite Hagree.
Qed.

Lemma artifact_not_manifest r : deltaJSONPath o ≠ artifact o r.
Proof.
  unfold deltaJSONPath, artifact. intros Heq%join_inj. symmetry in Heq.
  by apply name_not_manifest in Heq.
Qed.

(** C6. A run against an already-populated cache downloads no artifact
    and extracts no prior release; it does extract the latest release,
    once, and the only other downloads and extractions are those that
    fetch the NSIS compiler. Two completed runs write manifests with the
    same keys and paths, and with the same bytes when the published
    artifacts have the same bytes. *)
Theorem warm_cache_run w r w' :
  populated T o (files w) →
  fetchReleases o ≠ [] →
  createAllDeltas T H o w = (r, w') →
  (∃ t, trace w' = trace w
                   ++ EvExtract (latestReleaseFilePath o) (latestReleaseDir o)
                      :: t
        ∧ Forall (toolingOnly H) t)
  ∧ ∀ produced, r = Ok (Some produced) →
      ∀ w2 produced2 w2',
        createAllDeltas T H o w2 = (Ok (Some produced2), w2') →
        ∃ dj dj2,
          files w' !! deltaJSONPath o = Some (Json.stringify dj)
          ∧ files w2' !! deltaJSONPath o = Some (Json.stringify dj2)
          ∧ stripSha dj = stripSha dj2
          ∧ ((∀ r, r ∈ prepared T o →
                files w' !! artifact o r = files w2' !! artifact o r) →
             files w' !! deltaJSONPath o = files w2' !! deltaJSONPath o).
Proof.
  intros Hpop Hne Hrun. split.
  - rewrite createAllDeltas_nonempty in Hrun by done.
    erewrite bind_Ok_eq in Hrun
      by (apply downloadAll_cached; intros r0 Hr0; apply Hpop, Hr0).
    erewrite bind_Ok_eq in Hrun
      by (apply extractAll_cached; intros r0 Hr0; apply Hpop, Hr0).
    apply bind_inv in Hrun as [(a & w1 & H1 & H2)|[(e & H1 & _)|[H1 _]]].
    + apply extract7zip_trace in H1.
      apply (emitsOnly_afterLatest T H o (toolingOnly H)) in H2
        as (t & Ht & HP); try done.
      exists t. split; [|done]. rewrite Ht, H1, <- app_assoc. done.
    + apply extract7zip_trace in H1. exists []. by split.
    + apply extract7zip_trace in H1. exists []. by split.
  - intros produced -> w2 produced2 w2' Hrun2.
    apply createAllDeltas_manifest in Hrun as (F & HF & Hex).
    apply createAllDeltas_manifest in Hrun2 as (F2 & HF2 & Hex2).
    exists (fillSha T o F (skeleton o (prepared T o))),
           (fillSha T o F2 (skeleton o (prepared T o))).
    split_and!.
    + rewrite HF. apply lookup_insert_eq.
    + rewrite HF2. apply lookup_insert_eq.
    + by rewrite !stripSha_fillSha.
    + intros Hagree. rewrite HF, HF2, !lookup_insert_eq. do 2 f_equal.
      apply fillSha_agree. intros r Hr. specialize (Hagree r Hr).
      rewrite HF, HF2 in Hagree.
      by rewrite !lookup_insert_ne in Hagree by apply artifact_not_manifest.
Qed.

(** C5. If [getPreviousReleases] rejects or answers no release,
    [createAllDeltas] returns [null], which is not the empty file list;
    the disk is left as it was (no manifest is written), no collaborator
    is called and nothing is thrown. *)
Theorem no_releases_returns_null w :
  getPreviousReleases o (platform o) (target o) = None
  ∨ getPreviousReleases o (platform o) (target o) = Some [] →
  createAllDeltas T H o w = (Ok None, w)
  ∧ (Ok None : Res (option (list string))) ≠ Ok (Some []).
Proof.
  intros Hrel. split; [|done]. apply createAllDeltas_empty.
  unfold fetchReleases. by destruct Hrel as [-> | ->].
Qed.
End Warm.

(* --------------------------------------------------------------------- *)
(** *** The build pipeline on concrete inputs *)
(* --------------------------------------------------------------------- *)

Section BuildWitnesses.
Import BuildScenario.

Lemma manifest_entries_bounded_and_checksummed_witness :
  ∃ deltaJSON,
    files (createAllDeltas tools host (options "win" twoReleases) cold).2
      !! deltaJSONPath (options "win" twoReleases)
    = Some (Json.stringify deltaJSON)
    ∧ length (Json.entries deltaJSON)
      ≤ Nat.min (length (fetchReleases (options "win" twoReleases))) 10
    ∧ ∀ k e, (k, e) ∈ Json.entries deltaJSON →
        ∃ name content,
          Json.path e = Some name
          ∧ files (createAllDeltas tools host (options "win" twoReleases) cold).2
              !! Fs.join (outputDir (options "win" twoReleases)) name
            = Some content
          ∧ Json.sha256 e = Some (sha256hex tools content).
Proof.
  apply (manifest_entries_bounded_and_checksummed tools host
           (options "win" twoReleases) cold
           ["/out/2.0.0-win-deltas/App-1.1.0-to-2.0.0-delta.exe";
            "/out/2.0.0-win-deltas/App-1.0.0-to-2.0.0-delta.exe";
            "/out/2.0.0-win-deltas/delta-win.json"]).
  vm_compute. reflexivity.
Defined.

Lemma manifest_keys_are_all_prior_versions_witness :
  ∃ deltaJSON t,
    files (createAllDeltas (toolsWith partialHdiffz) host
             (options "mac" oneRelease) cold).2
      !! deltaJSONPath (options "mac" oneRelease)
    = Some (Json.stringify deltaJSON)
    ∧ (∀ k, k ∈ Json.keys deltaJSON
            ↔ k = "productName" ∨ k = "latestVersion"
              ∨ k ∈ map keyOf (prepared (toolsWith partialHdiffz)
                                 (options "mac" oneRelease)))
    ∧ trace (createAllDeltas (toolsWith partialHdiffz) host
               (options "mac" oneRelease) cold).2
      = trace cold ++ t
    ∧ deltaOuts t
      = expectedOuts (options "mac" oneRelease)
          (prepared (toolsWith partialHdiffz) (options "mac" oneRelease)).
Proof.
  apply (manifest_keys_are_all_prior_versions (toolsWith partialHdiffz) host
           (options "mac" oneRelease) cold
           ["/out/2.0.0-mac-deltas/App-1.0.0-to-2.0.0.delta";
            "/out/2.0.0-mac-deltas/delta-mac.json"]).
  vm_compute. reflexivity.
Defined.

(** The diff tool exits with status 1 and leaves a partial file: the run
    completes, and the manifest lists the version all the same. *)
Lemma manifest_lists_failed_diff :
  ∃ deltaJSON,
    (createAllDeltas (toolsWith partialHdiffz) host
       (options "mac" oneRelease) cold).1
    = Ok (Some ["/out/2.0.0-mac-deltas/App-1.0.0-to-2.0.0.delta";
                "/out/2.0.0-mac-deltas/delta-mac.json"])
    ∧ files (createAllDeltas (toolsWith partialHdiffz) host
               (options "mac" oneRelease) cold).2
        !! deltaJSONPath (options "mac" oneRelease)
      = Some (Json.stringify deltaJSON)
    ∧ "1.0.0" ∈ Json.keys deltaJSON
    ∧ EvCreateDelta "/cache/data/1.0.0/App.app" "/cache/data/2.0.0/App.app"
        "/cache/deltas/App-1.0.0-to-2.0.0.delta" (Some (Some 1%Z))
      ∈ trace (createAllDeltas (toolsWith partialHdiffz) host
                 (options "mac" oneRelease) cold).2
    ∧ ¬ keysAreDiffSuccesses (options "mac" oneRelease) deltaJSON
          (trace (createAllDeltas (toolsWith partialHdiffz) host
                    (options "mac" oneRelease) cold).2).
Proof.
  exists [ ("productName", Json.VStr "App");
           ("latestVersion", Json.VStr "2.0.0");
           ("1.0.0", Json.VEntry
              (Json.mkEntry (Some "App-1.0.0-to-2.0.0.delta")
                 (Some "sha256:partial"))) ].
  split_and!.
  - vm_compute. reflexivity.
  - vm_compute. reflexivity.
  - apply list_elem_of_In. vm_compute. tauto.
  - apply list_elem_of_In. vm_compute. tauto.
  - intros Hclaim.
    destruct (Hclaim "1.0.0") as [Hthen _]; [done|done|].
    destruct Hthen as (oldDir & newDir & Hin).
    { apply list_elem_of_In. vm_compute. tauto. }
    apply list_elem_of_In in Hin. vm_compute in Hin.
    repeat (destruct Hin as [Hin|Hin]; [discriminate Hin|]). exact Hin.
Qed.

Lemma no_releases_returns_null_witness :
  createAllDeltas tools host (options "win" None) cold = (Ok None, cold)
  ∧ (Ok None : Res (option (list string))) ≠ Ok (Some []).
Proof.
  apply (no_releases_returns_null tools host (options "win" None) cold).
  left. reflexivity.
Defined.

Lemma warm_is_populated T :
  semverClean T = (fun s => Some s) →
  basename T = lastSegment EmptyString →
  populated T (options "mac" oneRelease) (files warm).
Proof.
  intros Hclean Hbase r Hr. apply list_elem_of_In in Hr.
  unfold prepared, preparePreviousReleases, fileNameFromUrl in Hr.
  rewrite Hclean, Hbase in Hr. vm_compute in Hr.
  destruct Hr as [<-|[]]. split.
  - vm_compute. reflexivity.
  - exists "1.0.0". split; [reflexivity|]. vm_compute. reflexivity.
Defined.

Lemma warm_cache_run_witness :
  (∃ t, trace (createAllDeltas tools host (options "mac" oneRelease) warm).2
        = trace warm
          ++ EvExtract (latestReleaseFilePath (options "mac" oneRelease))
               (latestReleaseDir (options "mac" oneRelease)) :: t
        ∧ Forall (toolingOnly host) t)
  ∧ ∀ produced,
      (createAllDeltas tools host (options "mac" oneRelease) warm).1
      = Ok (Some produced) →
      ∀ w2 produced2 w2',
        createAllDeltas tools host (options "mac" oneRelease) w2
        = (Ok (Some produced2), w2') →
        ∃ dj dj2,
          files (createAllDeltas tools host (options "mac" oneRelease) warm).2
            !! deltaJSONPath (options "mac" oneRelease)
          = Some (Json.stringify dj)
          ∧ files w2' !! deltaJSONPath (options "mac" oneRelease)
            = Some (Json.stringify dj2)
          ∧ stripSha dj = stripSha dj2
          ∧ ((∀ r, r ∈ prepared tools (options "mac" oneRelease) →
                files (createAllDeltas tools host (options "mac" oneRelease)
                         warm).2
                  !! artifact (options "mac" oneRelease) r
                = files w2' !! artifact (options "mac" oneRelease) r) →
             files (createAllDeltas tools host (options "mac" oneRelease) warm).2
               !! deltaJSONPath (options "mac" oneRelease)
             = files w2' !! deltaJSONPath (options "mac" oneRelease)).
Proof.
  apply (warm_cache_run tools host (options "mac" oneRelease) warm).
  - apply warm_is_populated; reflexivity.
  - vm_compute. discriminate.
  - vm_compute. reflexivity.
Defined.

(** A run against a populated cache extracts the latest release again;
    and when the diff tool cannot be started while an earlier patch lies
    in the delta directory, the first run publishes that patch and the
    second run, finding it gone, writes no manifest at all. *)
Lemma warm_cache_run_extracts_and_diverges :
  populated (toolsWith missingHdiffz) (options "mac" oneRelease) (files warm)
  ∧ extractions
      (trace (createAllDeltas (toolsWith missingHdiffz) host
                (options "mac" oneRelease) warm).2) = 1
  ∧ is_Some
      (files (createAllDeltas (toolsWith missingHdiffz) host
                (options "mac" oneRelease) warm).2
         !! deltaJSONPath (options "mac" oneRelease))
  ∧ populated (toolsWith missingHdiffz) (options "mac" oneRelease)
      (files (createAllDeltas (toolsWith missingHdiffz) host
                (options "mac" oneRelease) warm).2)
  ∧ (createAllDeltas (toolsWith missingHdiffz) host (options "mac" oneRelease)
       (createAllDeltas (toolsWith missingHdiffz) host
          (options "mac" oneRelease) warm).2).1
    = Throw "ENOENT"
  ∧ files
      (createAllDeltas (toolsWith missingHdiffz) host (options "mac" oneRelease)
         (createAllDeltas (toolsWith missingHdiffz) host
            (options "mac" oneRelease) warm).2).2
      !! deltaJSONPath (options "mac" oneRelease)
    = None.
Proof.
  split_and!.
  - apply warm_is_populated; reflexivity.
  - vm_compute. reflexivity.
  - vm_compute. eauto.
  - intros r Hr. apply list_elem_of_In in Hr. vm_compute in Hr.
    destruct Hr as [<-|[]]. split.
    + vm_compute. reflexivity.
    + exists "1.0.0". split; [reflexivity|]. vm_compute. reflexivity.
  - vm_compute. reflexivity.
  - vm_compute. reflexivity.
Qed.

End BuildWitnesses.

(* --------------------------------------------------------------------- *)
(** *** The release index filter *)
(* --------------------------------------------------------------------- *)

Section ReleaseIndexFacts.
Import ReleaseIndex.

Lemma endsWith_includes sub suf s :
  Js.endsWith suf s = true → Js.includes sub suf = true →
  Js.includes sub s = true.
Proof.
  intros Hends Hsub. induction s as [|c s IH].
  - destruct suf; [done|discriminate Hends].
  - cbn [Js.endsWith] in Hends.
    destruct (String.eqb_spec (String c s) suf) as [<-|Hne]; [done|].
    cbn [Js.includes]. destruct (String.prefix sub (String c s)); auto.
Qed.

Lemma keptUrls_single e tag u :
  keptUrls e {| tag_name := tag; assets := [ {| browser_download_url := u |} ] |}
  = if negb (Js.includes "untagged" u) && Js.endsWith e u && notDeltaNorSetup u
    then [u] else [].
Proof.
  unfold keptUrls. cbn [assets browser_download_url map].
  rewrite !filter_cons, !filter_nil.
  destruct (Js.includes "untagged" u); cbn [negb andb].
  { rewrite decide_False by (intros []). by rewrite !filter_nil. }
  rewrite decide_True by exact I. rewrite !filter_cons, !filter_nil.
  destruct (Js.endsWith e u); cbn [andb].
  2:{ rewrite decide_False by (intros []). by rewrite !filter_nil. }
  rewrite decide_True by exact I. rewrite !filter_cons, !filter_nil.
  destruct (notDeltaNorSetup u).
  - by rewrite decide_True by exact I.
  - by rewrite decide_False by (intros []).
Qed.

(** C7. For the release list
    [{1.0.0, .exe}, {1.1.0, .exe}, {1.1.0, -Setup.exe}, {1.2.0, -delta.exe}]
    with platform win and target nsis, the resolver returns two entries,
    1.0.0 and 1.1.0, each with its plain .exe asset, in index order; the
    -Setup and -delta variants are excluded. *)
Theorem scenario_keeps_every_plain_installer (u1 u2 u3 u4 : string) :
  plainInstaller u1 = true →
  plainInstaller u2 = true →
  Js.endsWith "-Setup.exe" u3 = true →
  Js.endsWith "-delta.exe" u4 = true →
  getPreviousReleases
    [ indexEntry "1.0.0" u1; indexEntry "1.1.0" u2;
      indexEntry "1.1.0" u3; indexEntry "1.2.0" u4 ] "win" "nsis"
  = [ {| version := "1.0.0"; url := u1 |};
      {| version := "1.1.0"; url := u2 |} ].
Proof.
  unfold plainInstaller. intros H1 H2 H3 H4.
  apply andb_prop in H1 as [[H1a%negb_true_iff H1b]%andb_prop H1c].
  apply andb_prop in H2 as [[H2a%negb_true_iff H2b]%andb_prop H2c].
  assert (H3' : notDeltaNorSetup u3 = false).
  { unfold notDeltaNorSetup.
    rewrite (endsWith_includes "-Setup" "-Setup.exe" u3) by done.
    apply andb_false_r. }
  assert (H4' : notDeltaNorSetup u4 = false).
  { unfold notDeltaNorSetup. by rewrite H4. }
  unfold getPreviousReleases, indexEntry, reducer.
  change (ext "win" "nsis") with ".exe". cbn [fold_left].
  rewrite !keptUrls_single.
  rewrite H1a, H1b, H1c, H2a, H2b, H2c, H3', H4'.
  rewrite !andb_false_r. reflexivity.
Qed.

Lemma scenario_keeps_every_plain_installer_witness :
  getPreviousReleases scenario "win" "nsis"
  = [ {| version := "1.0.0"; url := dl "1.0.0" "App-1.0.0.exe" |};
      {| version := "1.1.0"; url := dl "1.1.0" "App-1.1.0.exe" |} ].
Proof.
  apply (scenario_keeps_every_plain_installer
           (dl "1.0.0" "App-1.0.0.exe") (dl "1.1.0" "App-1.1.0.exe")
           (dl "1.1.0" "App-1.1.0-Setup.exe")
           (dl "1.2.0" "App-1.2.0-delta.exe"));
    vm_compute; reflexivity.
Defined.

(** On the scenario the resolver does not answer the single entry 1.1.0:
    1.0.0 passes every filter too. *)
Lemma scenario_is_not_one_entry :
  ¬ ∃ u, getPreviousReleases scenario "win" "nsis"
         = [ {| version := "1.1.0"; url := u |} ].
Proof. intros [u Hu]. vm_compute in Hu. discriminate Hu. Qed.

End ReleaseIndexFacts.

(* --------------------------------------------------------------------- *)
(** *** Strings: characters, cuts, prefixes and suffixes *)
(* --------------------------------------------------------------------- *)

Lemma hasChar_app c a b :
  Js.hasChar c (a +:+ b) = Js.hasChar c a || Js.hasChar c b.
Proof.
  induction a as [|x a IH]; [done|]. rewrite sapp_cons. cbn [Js.hasChar].
  destruct (Ascii.eqb x c); [done|exact IH].
Qed.

Lemma hasChar_app_false c a b :
  Js.hasChar c (a +:+ b) = false ↔
  Js.hasChar c a = false ∧ Js.hasChar c b = false.
Proof. rewrite hasChar_app. apply orb_false_iff. Qed.

Lemma splitAt_found c a b :
  Js.hasChar c a = false → Js.splitAt c (a +:+ String c b) = (a, Some b).
Proof.
  induction a as [|x a IH]; intros Ha.
  - rewrite sapp_nil_l. cbn [Js.splitAt]. by rewrite Ascii.eqb_refl.
  - rewrite sapp_cons. cbn [Js.splitAt Js.hasChar] in *.
    destruct (Ascii.eqb x c); [done|]. by rewrite IH.
Qed.

Lemma splitAt_none c s :
  Js.hasChar c s = false → Js.splitAt c s = (s, None).
Proof.
  induction s as [|x s IH]; intros Hs; [done|].
  cbn [Js.splitAt Js.hasChar] in *.
  destruct (Ascii.eqb x c); [done|]. by rewrite IH.
Qed.

Lemma splitAt_spec c s a ob :
  Js.splitAt c s = (a, ob) →
  Js.hasChar c a = false
  ∧ s = a +:+ match ob with Some b => String c b | None => "" end.
Proof.
  revert a. induction s as [|x s IH]; intros a Hs.
  - injection Hs as <- <-. done.
  - cbn [Js.splitAt] in Hs. destruct (Ascii.eqb_spec x c) as [->|Hne].
    + injection Hs as <- <-. done.
    + destruct (Js.splitAt c s) as [a' ob'] eqn:Hrec.
      injection Hs as <- <-. destruct (IH a' eq_refl) as [Ha' Hs'].
      split.
      * cbn [Js.hasChar]. by destruct (Ascii.eqb_spec x c).
      * rewrite sapp_cons. by f_equal.
Qed.

Lemma splitAt_optPart c x v :
  Js.hasChar c x = false →
  Js.splitAt c (x +:+ Url.optPart (String c "") v) = (x, v).
Proof.
  intros Hx. destruct v as [y|]; simpl.
  - by apply splitAt_found.
  - rewrite sapp_nil_r. by apply splitAt_none.
Qed.

Lemma prefix_app a b : String.prefix a (a +:+ b) = true.
Proof.
  induction a as [|x a IH]; [by destruct b|].
  rewrite sapp_cons. cbn [String.prefix].
  destruct (ascii_dec x x); [exact IH|done].
Qed.

Lemma prefix_slash_inv s :
  String.prefix "/" s = true → ∃ r, s = "/" +:+ r.
Proof.
  destruct s as [|c s]; [done|]. cbn [String.prefix].
  destruct (ascii_dec "/" c) as [<-|]; [|done]. intros _. by exists s.
Qed.

Lemma hasChar_dropN c n s :
  Js.hasChar c s = false → Js.hasChar c (Js.dropN n s) = false.
Proof.
  revert s. induction n as [|n IH]; intros s Hs; [done|].
  destruct s as [|x s]; [done|]. cbn [Js.dropN Js.hasChar] in *.
  destruct (Ascii.eqb x c); [done|auto].
Qed.

Lemma endsWith_app suf a : Js.endsWith suf (a +:+ suf) = true.
Proof.
  induction a as [|x a IH].
  - rewrite sapp_nil_l. destruct suf; cbn [Js.endsWith];
      by rewrite String.eqb_refl.
  - rewrite sapp_cons. cbn [Js.endsWith].
    destruct (String.eqb _ suf); [done|exact IH].
Qed.

Lemma endsWith_slash_hasChar s :
  Js.endsWith "/" s = true → Js.hasChar "/" s = true.
Proof.
  induction s as [|x s IH]; [done|]. cbn [Js.endsWith Js.hasChar].
  destruct (String.eqb_spec (String x s) "/") as [[= -> ->]|Hne]; [done|].
  intros Hs. destruct (Ascii.eqb x "/"); auto.
Qed.

Lemma dirOf_endsWith p : Js.endsWith "/" p = true → Url.dirOf p = p.
Proof.
  induction p as [|c p IH]; [done|]. cbn [Js.endsWith Url.dirOf].
  destruct (String.eqb_spec (String c p) "/") as [[= -> ->]|Hne]; [done|].
  intros Hp. rewrite (endsWith_slash_hasChar _ Hp). by rewrite IH.
Qed.

(* --------------------------------------------------------------------- *)
(** *** URLs: parsing what was serialised *)
(* --------------------------------------------------------------------- *)

Section UrlFacts.
Import Url UrlSpec.

Lemma allChars_hasChar f c s :
  f c = false → allChars f s = true → Js.hasChar c s = false.
Proof.
  intros Hc. induction s as [|x s IH]; [done|]. cbn [allChars Js.hasChar].
  intros [Hx Hs]%andb_prop. destruct (Ascii.eqb_spec x c) as [->|_];
    [congruence|auto].
Qed.

Lemma validScheme_hasChar c s :
  schemeChar c = false → validScheme s = true → Js.hasChar c s = false.
Proof.
  intros Hc. destruct s as [|x s]; [done|]. cbn [validScheme Js.hasChar].
  intros [Hx Hs]%andb_prop. destruct (Ascii.eqb_spec x c) as [->|_].
  - unfold schemeChar in Hc. by rewrite Hx in Hc.
  - by apply (allChars_hasChar schemeChar).
Qed.

Lemma href_shape u :
  href u
  = ((scheme u +:+ String ":" (optPart "//" (host u) +:+ pathname u))
       +:+ optPart "?" (query u))
      +:+ optPart "#" (fragment u).
Proof.
  unfold href. rewrite !sapp_assoc. f_equal.
  change (":" +:+ ?a) with (String ":" a). by rewrite sapp_cons, !sapp_assoc.
Qed.

Lemma parseHier_wellFormed sch h p q f :
  wellFormed (mkURL sch h p q f) →
  parseHier sch (optPart "//" h +:+ p) q f = Some (mkURL sch h p q f).
Proof.
  intros (Hsch & Hp1 & Hp2 & Hq & Hh). cbn [scheme host pathname query] in *.
  unfold parseHier. destruct h as [h|].
  - destruct Hh as (Hh1 & Hh2 & Hh3 & Hempty & Hpath).
    cbn [optPart]. rewrite sapp_assoc, prefix_app.
    change (Js.dropN 2 ("//" +:+ (h +:+ p))) with (h +:+ p).
    destruct Hpath as [[-> Hns]|[r ->]%prefix_slash_inv].
    + rewrite sapp_nil_r, (splitAt_none _ _ Hh1). by rewrite Hempty, Hns.
    + change ("/" +:+ r) with (String "/" r).
      by rewrite (splitAt_found _ _ _ Hh1), Hempty.
  - destruct Hh as (Hns & Hpp). cbn [optPart]. rewrite sapp_nil_l.
    by rewrite Hpp, Hns.
Qed.

(** Parsing a serialised URL gives the URL back. *)
Lemma parse_href u : wellFormed u → parse (href u) = Some u.
Proof.
  intros Hwf. pose proof Hwf as (Hsch & Hp1 & Hp2 & Hq & Hh).
  assert (Hhost : ∀ c, c = "#"%char ∨ c = "?"%char →
                  Js.hasChar c (optPart "//" (host u)) = false).
  { intros c Hc. destruct (host u) as [h|]; [|done].
    destruct Hh as (_ & Hh2 & Hh3 & _). cbn [optPart].
    apply hasChar_app_false. by destruct Hc as [-> | ->]. }
  unfold parse. rewrite href_shape.
  rewrite splitAt_optPart.
  2:{ rewrite !hasChar_app_false. split_and!.
      - by apply validScheme_hasChar.
      - cbn [Js.hasChar]. apply hasChar_app_false. split; [auto|done].
      - destruct (query u); [|done]. cbn [optPart].
        by apply hasChar_app_false. }
  rewrite splitAt_optPart.
  2:{ rewrite !hasChar_app_false. split.
      - by apply validScheme_hasChar.
      - cbn [Js.hasChar]. apply hasChar_app_false. split; [auto|done]. }
  rewrite splitAt_found by (by apply validScheme_hasChar).
  rewrite Hsch. destruct u as [sch h p q f]. by apply parseHier_wellFormed.
Qed.

Lemma parseHier_Some_wellFormed sch rest q f u :
  validScheme sch = true →
  Js.hasChar "#" rest = false → Js.hasChar "?" rest = false →
  match q with Some q' => Js.hasChar "#" q' = false | None => True end →
  parseHier sch rest q f = Some u → wellFormed u.
Proof.
  intros Hsch Hr1 Hr2 Hq. unfold parseHier.
  destruct (String.prefix "//" rest) eqn:Hpre.
  - destruct (Js.splitAt "/" (Js.dropN 2 rest)) as [auth p] eqn:Hsplit.
    destruct (special sch && String.eqb auth "" && negb (String.eqb sch "file"))
      eqn:Hempty; [done|].
    intros [= <-]. apply splitAt_spec in Hsplit as [Hauth Hrest].
    pose proof (hasChar_dropN "#" 2 _ Hr1) as Hd1.
    pose proof (hasChar_dropN "?" 2 _ Hr2) as Hd2.
    rewrite Hrest in Hd1, Hd2.
    apply hasChar_app_false in Hd1 as [Ha1 Hp1].
    apply hasChar_app_false in Hd2 as [Ha2 Hp2].
    split_and!; cbn [scheme host pathname query]; try done.
    + destruct p as [p|]; [exact Hp1|destruct (special sch); reflexivity].
    + destruct p as [p|]; [exact Hp2|destruct (special sch); reflexivity].
    + split_and!; try done.
      destruct p as [p|]; [right; apply prefix_app|].
      destruct (special sch); [right; reflexivity|by left].
  - destruct (special sch) eqn:Hsp; [done|]. intros [= <-].
    split_and!; cbn [scheme host pathname query]; done.
Qed.

(** [parse] answers well-formed URLs only. *)
Lemma parse_wellFormed s u : parse s = Some u → wellFormed u.
Proof.
  unfold parse.
  destruct (Js.splitAt "#" s) as [s1 f] eqn:H1.
  destruct (Js.splitAt "?" s1) as [s2 q] eqn:H2.
  destruct (Js.splitAt ":" s2) as [sch [rest|]] eqn:H3; [|done].
  destruct (validScheme sch) eqn:Hsch; [|done].
  apply splitAt_spec in H1 as [Hs1 _].
  apply splitAt_spec in H2 as [Hs2 Hs1eq].
  apply splitAt_spec in H3 as [_ Hs2eq].
  rewrite Hs1eq in Hs1. apply hasChar_app_false in Hs1 as [Hs2' Hq].
  rewrite Hs2eq in Hs2, Hs2'.
  apply hasChar_app_false in Hs2 as [_ Hr2].
  apply hasChar_app_false in Hs2' as [_ Hr1].
  cbn [Js.hasChar] in Hr1, Hr2. cbn [Ascii.eqb Bool.eqb] in Hr1, Hr2.
  apply parseHier_Some_wellFormed; try done.
  destruct q as [q|]; [|done]. cbn [Js.hasChar] in Hq. exact Hq.
Qed.

Lemma withTrailingSlash_opaque u :
  hasOpaquePath u = true → withTrailingSlash u = u.
Proof.
  intros Ho. unfold withTrailingSlash, setPathname. rewrite Ho.
  by destruct (negb _).
Qed.

Lemma withTrailingSlash_endsWith u :
  hasOpaquePath u = false →
  Js.endsWith "/" (pathname (withTrailingSlash u)) = true.
Proof.
  intros Ho. unfold withTrailingSlash, setPathname. rewrite Ho.
  destruct (Js.endsWith "/" (pathname u)) eqn:He; [exact He|].
  cbn [negb pathname].
  destruct (String.prefix "/" (pathname u +:+ "/"));
    [|rewrite <- sapp_assoc]; apply endsWith_app.
Qed.

Lemma withTrailingSlash_idem u :
  withTrailingSlash (withTrailingSlash u) = withTrailingSlash u.
Proof.
  destruct (hasOpaquePath u) eqn:Ho.
  - rewrite (withTrailingSlash_opaque u Ho).
    exact (withTrailingSlash_opaque u Ho).
  - unfold withTrailingSlash at 1.
    by rewrite (withTrailingSlash_endsWith u Ho).
Qed.


Lemma prefix_slash_app p s :
  String.prefix "/" p = true → String.prefix "/" (p +:+ s) = true.
Proof. intros [r ->]%prefix_slash_inv. rewrite sapp_assoc. apply prefix_app. Qed.

Lemma withTrailingSlash_wellFormed u :
  wellFormed u → wellFormed (withTrailingSlash u).
Proof.
  intros Hwf. unfold withTrailingSlash.
  destruct (Js.endsWith "/" (pathname u)) eqn:He; [exact Hwf|].
  cbn [negb]. unfold setPathname.
  destruct (hasOpaquePath u) eqn:Ho; [exact Hwf|].
  destruct Hwf as (Hsch & Hp1 & Hp2 & Hq & Hh).
  unfold hasOpaquePath in Ho.
  assert (Hnew : pathname u = "" ∧ host u ≠ None
                 ∨ String.prefix "/" (pathname u) = true).
  { destruct (host u) as [h|].
    - destruct Hh as (_ & _ & _ & _ & [[Hp _]|Hp]); [left|right]; done.
    - right. by apply negb_false_iff in Ho. }
  assert (Hpath :
    (if String.prefix "/" (pathname u +:+ "/") then pathname u +:+ "/"
     else "/" +:+ (pathname u +:+ "/")) = pathname u +:+ "/").
  { destruct Hnew as [[-> _]|Hp]; [done|]. by rewrite prefix_slash_app. }
  rewrite Hpath.
  split_and!; cbn [scheme host pathname query]; try done.
  - apply hasChar_app_false. by split.
  - apply hasChar_app_false. by split.
  - destruct (host u) as [h|].
    + destruct Hh as (Hh1 & Hh2 & Hh3 & Hempty & _). split_and!; try done.
      right. destruct Hnew as [[-> _]|Hp]; [done|]. by apply prefix_slash_app.
    + destruct Hh as (Hns & Hpp). split; [done|].
      destruct Hnew as [[_ ?]|Hp]; [done|].
      apply prefix_slash_inv in Hp as [r Hr]. rewrite Hr in *.
      destruct r as [|c r]; [done|].
      change ("/" +:+ String c r) with (String "/" (String c r)) in *.
      rewrite !sapp_cons. cbn [String.prefix] in Hpp |- *.
      destruct (ascii_dec "/" "/"); [|done].
      destruct (ascii_dec "/" c); [|done]. by destruct r.
Qed.


Lemma newBaseUrl_unfold u :
  newBaseUrl u = (fun x => href (withTrailingSlash x)) <$> parse u.
Proof. unfold newBaseUrl. by destruct (parse u). Qed.

Lemma plainName_hasScheme n : plainName n = true → hasScheme n = false.
Proof.
  unfold plainName. rewrite !andb_true_iff, !negb_true_iff.
  intros ((((((_ & _) & _) & _) & Hq) & Hh) & Hc).
  unfold hasScheme. by rewrite !splitAt_none.
Qed.

Lemma resolveRelative_plainName n b :
  plainName n = true → hasOpaquePath b = false →
  Js.endsWith "/" (pathname b) = true →
  resolveRelative n b
  = Some (mkURL (scheme b) (host b) (pathname b +:+ n) None None).
Proof.
  unfold plainName. rewrite !andb_true_iff, !negb_true_iff.
  intros ((((((Hne & _) & _) & Hs) & Hq) & Hh) & Hc) Ho He.
  unfold resolveRelative. rewrite !splitAt_none by done. rewrite Ho.
  destruct n as [|c n]; [done|]. cbn [Js.hasChar] in Hs.
  destruct (Ascii.eqb_spec c "/") as [->|Hc']; [done|].
  assert (String.prefix "/" (String c n) = false) as Hp1.
  { cbn [String.prefix]. destruct (ascii_dec "/" c); [congruence|done]. }
  assert (String.prefix "//" (String c n) = false) as ->.
  { cbn [String.prefix]. destruct (ascii_dec "/" c); [congruence|done]. }
  rewrite Hp1, Hne. by rewrite dirOf_endsWith.
Qed.









End UrlFacts.

(* --------------------------------------------------------------------- *)
(** *** The client: download, verification, fallback *)
(* --------------------------------------------------------------------- *)

Section ClientFacts.
Import Updater ClientSpec.
Variable V : Env.

Lemma emit_run (a : Action) w :
  emit a w = (Ok tt, mkWorld (files w) (trace w ++ [a])).
Proof. reflexivity. Qed.

(** The redirect branch, one step: the promise resolves exactly when the
    re-issued download resolves, and never settles otherwise. *)
Lemma downloadFile_redirect fuel url filePath w code location body :
  respond V (Js.startsWith "https" url) url = Responded code location body →
  code = 301%Z ∨ code = 302%Z →
  downloadFile V (S fuel) url filePath w
  = match
      match location with
      | Some l => downloadFile V fuel l filePath (requested url w)
      | None => (Throw "ERR_INVALID_ARG_TYPE", requested url w)
      end
    with
    | (Ok tt, w') => (Ok tt, w')
    | (_, w') => (Pending, w')
    end.
Proof.
  intros Hresp Hcode. cbn [downloadFile].
  rewrite (bind_Ok_eq _ _ w tt (requested url w)) by reflexivity.
  rewrite Hresp. by destruct Hcode as [-> | ->].
Qed.

Lemma downloadFile_ok_complete fuel url filePath w code location content :
  respond V (Js.startsWith "https" url) url
  = Responded code location (BodyComplete content) →
  code = 200%Z →
  ∀ r w', downloadFile V fuel url filePath w = (r, w') →
    r = Ok tt → files w' !! filePath = Some content.
Proof.
  intros Hresp -> r w' Hrun ->. destruct fuel; cbn [downloadFile] in Hrun.
  all: rewrite (bind_Ok_eq _ _ w tt (requested url w)) in Hrun by reflexivity.
  all: rewrite Hresp in Hrun; cbn [Z.eqb Pos.eqb] in Hrun.
  all: destruct (canWrite V filePath); [|discriminate Hrun].
  all: injection Hrun as <-; cbn [files]; apply lookup_insert_eq.
Qed.

Lemma downloadFile_other_status fuel url filePath w code location body :
  respond V (Js.startsWith "https" url) url = Responded code location body →
  code ≠ 200%Z → code ≠ 301%Z → code ≠ 302%Z →
  downloadFile V fuel url filePath w = (Throw "Network error", requested url w).
Proof.
  intros Hresp H200 H301 H302.
  apply Z.eqb_neq in H200, H301, H302.
  destruct fuel; cbn [downloadFile].
  all: rewrite (bind_Ok_eq _ _ w tt (requested url w)) by reflexivity.
  all: by rewrite Hresp, H200, H301, H302.
Qed.

(** C8. A request answered with 301 or 302 and a Location
    header is re-issued against the Location target with the same file
    path; when that download resolves, [downloadFile] resolves with the
    file fetched from the target at the requested path. A response with
    any status other than 200, 301 and 302 rejects the call. *)
Theorem redirect_followed_and_errors_rejected
    (fuel : nat) (url filePath : string) (w : World Action)
    (code : Z) (location : option string) (body : Body) :
  respond V (Js.startsWith "https" url) url = Responded code location body →
  ((code = 301%Z ∨ code = 302%Z) →
   ∀ l w', location = Some l →
     downloadFile V fuel l filePath (requested url w) = (Ok tt, w') →
     downloadFile V (S fuel) url filePath w = (Ok tt, w')
     ∧ ∀ location' content,
         respond V (Js.startsWith "https" l) l
         = Responded 200 location' (BodyComplete content) →
         files w' !! filePath = Some content)
  ∧ (code ≠ 200%Z → code ≠ 301%Z → code ≠ 302%Z →
     downloadFile V fuel url filePath w
     = (Throw "Network error", requested url w)).
Proof.
  intros Hresp. split.
  - intros Hcode l w' -> Hinner. split.
    + rewrite (downloadFile_redirect _ _ _ _ _ _ _ Hresp Hcode).
      by rewrite Hinner.
    + intros location' content Hl.
      by eapply downloadFile_ok_complete.
  - by apply (downloadFile_other_status _ _ _ _ _ location body).
Qed.

(** *** Checksums *)

(** C9. For a path at which nothing exists, [computeSHA256] returns
    [null] without throwing, [isSHACorrect] is false for every expected
    checksum, and both checks of [doSmartDownload] take the fallback
    side: the cached-file test fails and the verification after the
    download requests the full update. *)
Theorem missing_file_never_verifies
    (fs : gmap string string) (filePath : string) :
  Fs.existsSync fs filePath = false →
  computeSHA256 V fs filePath = Ok None
  ∧ (∀ correctSHA, isSHACorrect V fs filePath correctSHA = false)
  ∧ (∀ correctSHA,
       Fs.existsSync fs filePath && isSHACorrect V fs filePath correctSHA
       = false)
  ∧ (∀ info shaVal w, files w = fs →
       verify V info filePath shaVal w
       = (Ok tt, mkWorld fs (trace w ++ [ActDownloadUpdate]))).
Proof.
  intros Hmissing.
  assert (Hsha : computeSHA256 V fs filePath = Ok None).
  { unfold computeSHA256. by rewrite Hmissing. }
  assert (Hcorrect : ∀ correctSHA, isSHACorrect V fs filePath correctSHA = false).
  { intros correctSHA. unfold isSHACorrect. by rewrite Hsha. }
  split_and!; [done|done| |].
  - intros correctSHA. by rewrite Hmissing.
  - intros info shaVal w <-. unfold verify.
    rewrite (bind_Ok_eq _ _ w (files w) w) by reflexivity.
    by rewrite Hcorrect.
Qed.

Lemma isSHACorrect_mismatch fs filePath content shaVal :
  fs !! filePath = Some content → sha256hex V content ≠ shaVal →
  isSHACorrect V fs filePath shaVal = false.
Proof.
  intros Hfile Hne. unfold isSHACorrect, computeSHA256. rewrite Hfile.
  destruct (Fs.existsSync fs filePath); [|done]. cbn [negb].
  by apply String.eqb_neq.
Qed.

Lemma emitsOnly_client_downloadFile P fuel url filePath :
  (∀ s u, P (ActHttpGet s u)) → emitsOnly P (downloadFile V fuel url filePath).
Proof.
  intros HP. revert url. induction fuel as [|fuel IH]; intros url.
  - cbn [downloadFile]. emits_tac; done.
  - cbn [downloadFile]. apply emitsOnly_bind; [by apply emitsOnly_emit|].
    intros _. destruct (respond V _ url) as [e|code location body];
      [apply emitsOnly_throw|].
    destruct (Z.eqb code 200); [emits_tac|].
    destruct (_ || _); [|apply emitsOnly_throw].
    intros w r w' Hrun. destruct location as [l|].
    + destruct (downloadFile V fuel l filePath w) as [r1 w1] eqn:Hinner.
      apply IH in Hinner as (t & Ht & HPt).
      exists t. destruct r1 as [[]|e|]; injection Hrun as <- <-; done.
    + injection Hrun as <- <-. exists []. by rewrite app_nil_r.
Qed.

Lemma orThrow_inv {A} (v : option A) w a w' :
  orThrow v w = (Ok a, w') → v = Some a ∧ w' = w.
Proof. destruct v; [|done]. by intros [= <- <-]. Qed.

Lemma emitsOnly_orThrow {A} P (v : option A) :
  emitsOnly P (orThrow v : Eff.M Action A).
Proof. destruct v; [apply emitsOnly_ret|apply emitsOnly_throw]. Qed.

(** When [resolveDelta] asks for a fetch, nothing has been requested or
    signalled yet. *)
Lemma resolveDelta_Fetch_quiet fuel info w deltaURL deltaPath shaVal w' :
  resolveDelta V fuel info w = (Ok (Fetch deltaURL deltaPath shaVal), w') →
  ∃ t, trace w' = trace w ++ t ∧ Forall quiet t.
Proof.
  unfold resolveDelta. destruct (negb (truthyChannel _)); [done|].
  intros Hrun.
  apply bind_Ok_inv in Hrun as (deltaJSONUrl & w1 & [_ ->]%orThrow_inv & Hrun).
  apply bind_Ok_inv in Hrun as (deltaJSON & w2 & Hfetch & Hrun).
  assert (Hw2 : trace w2 = trace w ++ [ActFetch deltaJSONUrl]).
  { unfold fetchDeltaJSON in Hfetch.
    rewrite (bind_Ok_eq _ _ w tt _ (emit_run _ _)) in Hfetch.
    destruct (fetch V deltaJSONUrl) as [|status json];
      [|destruct (negb _)]; by injection Hfetch as _ <-. }
  destruct deltaJSON as [deltaJSON|].
  2:{ apply bind_Ok_inv in Hrun as (? & ? & _ & Hrun). by inv_step Hrun. }
  destruct (negb (truthyValue _)).
  { apply bind_Ok_inv in Hrun as (? & ? & _ & Hrun). by inv_step Hrun. }
  apply bind_Ok_inv in Hrun as (deltaURL' & w3 & [_ ->]%orThrow_inv & Hrun).
  destruct (negb (truthyString _)).
  { apply bind_Ok_inv in Hrun as (? & ? & _ & Hrun). by inv_step Hrun. }
  apply bind_Ok_inv in Hrun as (helpers & w4 & Hhelp & Hrun).
  destruct helpers; cbn [negb] in Hrun; [|by inv_step Hrun].
  assert (Hw4 : ∃ t, trace w4 = trace w2 ++ t ∧ Forall quiet t).
  { destruct (platform V).
    - unfold try_catch in Hhelp.
      destruct ((downloadHelpers V fuel ≫= λ _, mret true) w2)
        as [[b|e|] w5] eqn:Htry.
      + injection Hhelp as _ <-.
        eapply (emitsOnly_bind quiet) in Htry as (t & Ht & HP); eauto.
        * unfold downloadHelpers.
          apply emitsOnly_bind; [apply emitsOnly_orThrow|intros].
          apply emitsOnly_bind; [apply emitsOnly_orThrow|intros].
          apply emitsOnly_bind;
            [by apply emitsOnly_client_downloadFile|intros].
          apply emitsOnly_bind;
            [by apply emitsOnly_client_downloadFile|intros].
          emits_tac; done.
        * intros. apply emitsOnly_ret.
      + unfold fullUpdate in Hhelp.
        apply bind_Ok_inv in Hhelp as (? & ? & _ & Hhelp). by inv_step Hhelp.
      + done.
    - inv_step Hhelp. exists []. by rewrite app_nil_r.
    - inv_step Hhelp. exists []. by rewrite app_nil_r. }
  destruct Hw4 as (t4 & Ht4 & HP4).
  apply bind_Ok_inv in Hrun as (deltaPath' & w5 & [_ ->]%orThrow_inv & Hrun).
  apply bind_Ok_inv in Hrun as (fs & w6 & Hget & Hrun). inv_step Hget.
  destruct (_ && _).
  { apply bind_Ok_inv in Hrun as (? & ? & _ & Hrun). by inv_step Hrun. }
  apply bind_Ok_inv in Hrun as (? & w7 & Hens & Hrun).
  cbv [Fs.ensureDir ret] in Hens. simplify_eq. inv_step Hrun.
  exists ([ActFetch deltaJSONUrl] ++ t4). split.
  - by rewrite Ht4, Hw2, app_assoc.
  - apply Forall_app. split; [by apply Forall_singleton|done].
Qed.

(** C3. In a cycle in which the patch has been downloaded and its
    recomputed SHA-256 differs from the checksum of the manifest entry,
    [doSmartDownload] ends with one full-update request: none was made
    before, no delta-ready signal is given, nothing follows the request,
    and the downloaded file stays where it is. *)
Theorem checksum_mismatch_falls_back_once
    (fuel : nat) (info : UpdateInfo) (w0 w w1 : World Action)
    (deltaURL deltaPath shaVal content : string) :
  resolveDelta V fuel info w0 = (Ok (Fetch deltaURL deltaPath shaVal), w) →
  downloadFile V fuel deltaURL deltaPath w = (Ok tt, w1) →
  files w1 !! deltaPath = Some content →
  sha256hex V content ≠ shaVal →
  ∃ t,
    doSmartDownload V fuel info w0
    = (Ok tt, mkWorld (files w1) (trace w0 ++ t ++ [ActDownloadUpdate]))
    ∧ Forall quiet t
    ∧ trace w1 = trace w0 ++ t
    ∧ files w1 !! deltaPath = Some content.
Proof.
  intros Hresolve Hdl Hfile Hsha.
  pose proof (resolveDelta_Fetch_quiet _ _ _ _ _ _ _ Hresolve) as (t1 & Ht1 & HP1).
  pose proof (emitsOnly_client_downloadFile quiet fuel deltaURL deltaPath
                (fun _ _ => I) _ _ _ Hdl) as (t2 & Ht2 & HP2).
  exists (t1 ++ t2). split_and!.
  - unfold doSmartDownload.
    rewrite (bind_Ok_eq _ _ _ _ _ Hresolve).
    unfold downloadAndVerify, try_catch.
    rewrite (bind_Ok_eq _ _ _ _ _ Hdl). unfold verify.
    rewrite (bind_Ok_eq _ _ w1 (files w1) w1) by reflexivity.
    rewrite (isSHACorrect_mismatch _ _ _ _ Hfile Hsha). cbn [negb].
    unfold fullUpdate. rewrite emit_run, Ht2, Ht1.
    by rewrite <- !app_assoc.
  - by apply Forall_app.
  - by rewrite Ht2, Ht1, app_assoc.
  - done.
Qed.

(** C2. When a persisted update-attempt record carries the version of
    the running application, the [update-available] listener requests
    the full update and does nothing else: no manifest is fetched, no
    patch is downloaded, whatever the feed holds. *)
Theorem attempted_base_goes_full
    (fuel : nat) (info : UpdateInfo) (w : World Action)
    (updateDetails : UpdateDetails) :
  readUpdateDetails V = Some updateDetails →
  appVersion updateDetails = getVersion V →
  onUpdateAvailable V fuel info w
  = (Ok tt,
     mkWorld (files w)
       (trace w
        ++ ActEmit "update-available"
           :: (if updaterWindow V then [ActDispatch "update-available"] else [])
        ++ [ActDownloadUpdate])).
Proof.
  intros Hread Hsame. unfold onUpdateAvailable.
  rewrite (bind_Ok_eq _ _ _ _ _ (emit_run _ _)).
  unfold dispatchEvent. rewrite Hread, Hsame, String.eqb_refl.
  unfold fullUpdate. destruct (updaterWindow V).
  - rewrite (bind_Ok_eq _ _ _ _ _ (emit_run _ _)), emit_run. cbn [files trace].
    by rewrite <- !app_assoc.
  - rewrite (bind_Ok_eq (mret tt) _ _ tt _ eq_refl), emit_run.
    cbn [files trace]. by rewrite <- !app_assoc.
Qed.

End ClientFacts.

(* --------------------------------------------------------------------- *)
(** *** The client on concrete inputs *)
(* --------------------------------------------------------------------- *)

Section ClientWitnesses.
Import Updater ClientSpec.

Lemma attempted_base_goes_full_witness :
  onUpdateAvailable (env (Some "good patch") (Some attempt)) 5 info start
  = (Ok tt,
     mkWorld (files start)
       (trace start
        ++ ActEmit "update-available"
           :: (if updaterWindow (env (Some "good patch") (Some attempt))
               then [ActDispatch "update-available"] else [])
        ++ [ActDownloadUpdate])).
Proof.
  apply (attempted_base_goes_full (env (Some "good patch") (Some attempt))
           5 info start attempt); reflexivity.
Defined.

Lemma checksum_mismatch_falls_back_once_witness :
  ∃ t,
    doSmartDownload (env (Some "bad patch") None) 5 info start
    = (Ok tt,
       mkWorld
         (files
            (downloadFile (env (Some "bad patch") None) 5
               "https://feed.example/App-1.1.0-to-2.0.0-delta.exe"
               "/local/app-updater/deltas/App-1.1.0-to-2.0.0-delta.exe"
               (resolveDelta (env (Some "bad patch") None) 5 info start).2).2)
         (trace start ++ t ++ [ActDownloadUpdate]))
    ∧ Forall quiet t
    ∧ trace
        (downloadFile (env (Some "bad patch") None) 5
           "https://feed.example/App-1.1.0-to-2.0.0-delta.exe"
           "/local/app-updater/deltas/App-1.1.0-to-2.0.0-delta.exe"
           (resolveDelta (env (Some "bad patch") None) 5 info start).2).2
      = trace start ++ t
    ∧ files
        (downloadFile (env (Some "bad patch") None) 5
           "https://feed.example/App-1.1.0-to-2.0.0-delta.exe"
           "/local/app-updater/deltas/App-1.1.0-to-2.0.0-delta.exe"
           (resolveDelta (env (Some "bad patch") None) 5 info start).2).2
        !! "/local/app-updater/deltas/App-1.1.0-to-2.0.0-delta.exe"
      = Some "bad patch".
Proof.
  apply (checksum_mismatch_falls_back_once (env (Some "bad patch") None)
           5 info start
           (resolveDelta (env (Some "bad patch") None) 5 info start).2
           _
           "https://feed.example/App-1.1.0-to-2.0.0-delta.exe"
           "/local/app-updater/deltas/App-1.1.0-to-2.0.0-delta.exe"
           "sha256:good patch" "bad patch").
  - vm_compute. reflexivity.
  - vm_compute. reflexivity.
  - vm_compute. reflexivity.
  - vm_compute. discriminate.
Defined.

Lemma redirect_followed_and_errors_rejected_witness :
  ((302%Z = 301%Z ∨ 302%Z = 302%Z) →
   ∀ l w', Some "https://cdn.example/patch" = Some l →
     downloadFile (env (Some "good patch") None) 4 l "/local/patch"
       (requested "https://feed.example/App-1.1.0-to-2.0.0-delta.exe" start)
     = (Ok tt, w') →
     downloadFile (env (Some "good patch") None) 5
       "https://feed.example/App-1.1.0-to-2.0.0-delta.exe" "/local/patch" start
     = (Ok tt, w')
     ∧ ∀ location' content,
         respond (env (Some "good patch") None) (Js.startsWith "https" l) l
         = Responded 200 location' (BodyComplete content) →
         files w' !! "/local/patch" = Some content)
  ∧ (302%Z ≠ 200%Z → 302%Z ≠ 301%Z → 302%Z ≠ 302%Z →
     downloadFile (env (Some "good patch") None) 4
       "https://feed.example/App-1.1.0-to-2.0.0-delta.exe" "/local/patch" start
     = (Throw "Network error",
        requested "https://feed.example/App-1.1.0-to-2.0.0-delta.exe" start)).
Proof.
  apply (redirect_followed_and_errors_rejected (env (Some "good patch") None)
           4 "https://feed.example/App-1.1.0-to-2.0.0-delta.exe"
           "/local/patch" start 302 (Some "https://cdn.example/patch")
           (BodyComplete "")).
  vm_compute. reflexivity.
Defined.

(** The redirect is followed and the file arrives. *)
Example redirect_delivers_the_file :
  downloadFile (env (Some "good patch") None) 5
    "https://feed.example/App-1.1.0-to-2.0.0-delta.exe" "/local/patch" start
  = (Ok tt,
     mkWorld (<["/local/patch" := "good patch"]> ∅)
       [ActHttpGet true "https://feed.example/App-1.1.0-to-2.0.0-delta.exe";
        ActHttpGet true "https://cdn.example/patch"]).
Proof. vm_compute. reflexivity. Qed.

(** A request answered with 302 whose target answers 404: whatever the
    number of redirects allowed, [downloadFile] does not resolve (the
    promise never settles). *)
Lemma redirect_to_missing_target_never_resolves :
  respond (env None None) true
    "https://feed.example/App-1.1.0-to-2.0.0-delta.exe"
  = Responded 302 (Some "https://cdn.example/patch") (BodyComplete "")
  ∧ ¬ ∃ fuel w',
        downloadFile (env None None) fuel
          "https://feed.example/App-1.1.0-to-2.0.0-delta.exe" "/local/patch"
          start
        = (Ok tt, w').
Proof.
  split; [reflexivity|]. intros (fuel & w' & Hrun).
  destruct fuel as [|[|fuel]]; vm_compute in Hrun; discriminate Hrun.
Qed.

Lemma missing_file_never_verifies_witness :
  computeSHA256 (env None None) ∅ "/local/app-updater/deltas/gone" = Ok None
  ∧ (∀ correctSHA,
       isSHACorrect (env None None) ∅ "/local/app-updater/deltas/gone"
         correctSHA = false)
  ∧ (∀ correctSHA,
       Fs.existsSync ∅ "/local/app-updater/deltas/gone"
       && isSHACorrect (env None None) ∅ "/local/app-updater/deltas/gone"
            correctSHA
       = false)
  ∧ (∀ info shaVal w, files w = ∅ →
       verify (env None None) info "/local/app-updater/deltas/gone" shaVal w
       = (Ok tt, mkWorld ∅ (trace w ++ [ActDownloadUpdate]))).
Proof.
  apply (missing_file_never_verifies (env None None) ∅
           "/local/app-updater/deltas/gone").
  vm_compute. reflexivity.
Defined.

End ClientWitnesses.

(* ===================================================================== *)
(** * Further properties *)
(* ===================================================================== *)

(* --------------------------------------------------------------------- *)
(** *** Running the monad *)
(* --------------------------------------------------------------------- *)

Section Running.
Context {E : Type}.

Lemma getFiles_bind {B} (k : gmap string string → M E B) w :
  (getFiles ≫= k) w = k (files w) w.
Proof. reflexivity. Qed.

Lemma setFiles_bind {B} fs (k : unit → M E B) w :
  (setFiles fs ≫= k) w = k tt (mkWorld fs (trace w)).
Proof. reflexivity. Qed.

Lemma emit_bind {B} (e : E) (k : unit → M E B) w :
  (emit e ≫= k) w = k tt (mkWorld (files w) (trace w ++ [e])).
Proof. reflexivity. Qed.

Lemma mret_bind {A B} (a : A) (k : A → M E B) w :
  (mret a ≫= k) w = k a w.
Proof. reflexivity. Qed.

Lemma throw_bind {A B} e (k : A → M E B) w :
  (throw e ≫= k) w = (Throw e, w).
Proof. reflexivity. Qed.

Lemma bind_assoc {A B C} (m : M E A) (f : A → M E B) (g : B → M E C) w :
  ((m ≫= f) ≫= g) w = (m ≫= fun a => f a ≫= g) w.
Proof.
  unfold mbind, M_bind, bind. by destruct (m w) as [[a|e|] w1].
Qed.

End Running.

(* --------------------------------------------------------------------- *)
(** *** The client: one decision per cycle *)
(* --------------------------------------------------------------------- *)

Section CycleFacts.
Import Updater ClientSpec Cycle.
Variable V : Env.
Variable info : UpdateInfo.

Lemma settles_quiet {A} (Pre : World Action → Prop) Q D
    (m : Eff.M Action A) :
  emitsOnly quiet m →
  (∀ w a w', Pre w → m w = (Ok a, w') → Q a w') →
  settles V info Pre Q D m.
Proof.
  intros Hm HQ w r w' Hpre Hrun.
  destruct (Hm _ _ _ Hrun) as (t & Ht & HP). exists t. split; [done|].
  left. split; [done|]. destruct r; [by eapply HQ|done..].
Qed.

Lemma settles_pre {A} (P : Prop) (Pre : World Action → Prop) Q D
    (m : Eff.M Action A) :
  (∀ w, Pre w → P) → (P → settles V info Pre Q D m) →
  settles V info Pre Q D m.
Proof. intros HP Hm w r w' Hpre. by apply Hm; [eapply HP|]. Qed.

Lemma settles_weaken {A} (Pre Pre' : World Action → Prop) Q D
    (m : Eff.M Action A) :
  (∀ w, Pre w → Pre' w) → settles V info Pre' Q D m →
  settles V info Pre Q D m.
Proof. intros HP Hm w r w' Hpre. by apply Hm, HP. Qed.

Lemma decided_app t1 t2 fs :
  Forall quiet t1 → decided V info t2 fs → decided V info (t1 ++ t2) fs.
Proof.
  intros H1 (t0 & H0 & Hd). exists (t1 ++ t0).
  split; [by apply Forall_app|].
  destruct Hd as [->|(p & -> & Hv)]; [left|right; exists p];
    by rewrite app_assoc.
Qed.

Lemma settles_bind {A B} (Pre : World Action → Prop) Q1 D1 Q D
    (m : Eff.M Action A) (k : A → Eff.M Action B) :
  settles V info Pre Q1 D1 m →
  (∀ a, settles V info (Q1 a) Q D (k a)) →
  (∀ a, D1 a → ∃ b, D b ∧ ∀ w, k a w = (Ok b, w)) →
  settles V info Pre Q D (m ≫= k).
Proof.
  intros Hm Hk Hd w r w' Hpre Hrun.
  apply bind_inv in Hrun as [(a & w1 & H1 & H2)|[(e & H1 & ->)|[H1 ->]]].
  - destruct (Hm _ _ _ Hpre H1) as (t1 & Ht1 & [[HP1 HQ1]|(a' & Ha' & HD1 & Hdec)]).
    + destruct (Hk a _ _ _ HQ1 H2) as (t2 & Ht2 & Hout).
      exists (t1 ++ t2). rewrite Ht2, Ht1, app_assoc. split; [done|].
      destruct Hout as [[HP2 HQ2]|(b & -> & HDb & Hdec)].
      * left. split; [by apply Forall_app|done].
      * right. exists b. split_and!; [done..|]. by apply decided_app.
    + injection Ha' as <-. destruct (Hd _ HD1) as (b & HDb & Hkb).
      rewrite Hkb in H2. injection H2 as <- <-.
      exists t1. split; [done|]. right. by exists b.
  - destruct (Hm _ _ _ Hpre H1) as (t1 & Ht1 & [[HP1 _]|(a' & Ha' & _)]);
      [|done].
    exists t1. split; [done|]. by left.
  - destruct (Hm _ _ _ Hpre H1) as (t1 & Ht1 & [[HP1 _]|(a' & Ha' & _)]);
      [|done].
    exists t1. split; [done|]. by left.
Qed.

Lemma settles_bind_quiet {A B} (Pre : World Action → Prop) Q1 Q D
    (m : Eff.M Action A) (k : A → Eff.M Action B) :
  emitsOnly quiet m →
  (∀ w a w', Pre w → m w = (Ok a, w') → Q1 a w') →
  (∀ a, settles V info (Q1 a) Q D (k a)) →
  settles V info Pre Q D (m ≫= k).
Proof.
  intros Hm HQ Hk.
  apply (settles_bind Pre Q1 (fun _ => False)); [|done|done].
  by apply settles_quiet.
Qed.

Lemma settles_ret_bind {A B} (Pre : World Action → Prop) Q D
    (a : A) (k : A → Eff.M Action B) :
  settles V info Pre Q D (k a) → settles V info Pre Q D (mret a ≫= k).
Proof. intros Hk w r w' Hpre Hrun. exact (Hk w r w' Hpre Hrun). Qed.

Lemma settles_throw_bind {A B} (Pre : World Action → Prop) Q D
    (e : string) (k : A → Eff.M Action B) :
  settles V info Pre Q D (throw e ≫= k).
Proof.
  intros w r w' _ [= <- <-]. exists []. rewrite app_nil_r.
  split; [done|]. by left.
Qed.

Lemma settles_full {A} (Pre : World Action → Prop) Q (D : A → Prop) (a : A) :
  D a → settles V info Pre Q D (fullUpdate;; mret a).
Proof.
  intros HD w r w' _ [= <- <-]. exists [ActDownloadUpdate].
  split; [done|]. right. exists a. split_and!; [done..|].
  exists []. split; [done|]. by left.
Qed.

Lemma fetchDeltaJSON_run url w :
  fetchDeltaJSON V url w
  = (Ok (manifestAt V url), mkWorld (files w) (trace w ++ [ActFetch url])).
Proof.
  unfold fetchDeltaJSON, manifestAt.
  rewrite (bind_Ok_eq _ _ w tt _ (emit_run _ _)).
  destruct (fetch V url) as [|status json]; [done|].
  by destruct (negb _).
Qed.

Lemma emitsOnly_downloadHelpers fuel :
  emitsOnly quiet (downloadHelpers V fuel).
Proof.
  unfold downloadHelpers.
  apply emitsOnly_bind; [apply emitsOnly_orThrow|intros].
  apply emitsOnly_bind; [apply emitsOnly_orThrow|intros].
  apply emitsOnly_bind; [by apply emitsOnly_client_downloadFile|intros].
  apply emitsOnly_bind; [by apply emitsOnly_client_downloadFile|intros].
  emits_tac; done.
Qed.

Lemma isSHACorrect_true fs filePath shaVal :
  isSHACorrect V fs filePath shaVal = true →
  ∃ c, fs !! filePath = Some c ∧ sha256hex V c = shaVal.
Proof.
  unfold isSHACorrect, computeSHA256.
  destruct (negb (Fs.existsSync fs filePath)); [done|].
  destruct (fs !! filePath) as [c|]; [|done].
  intros Heq%String.eqb_eq. by exists c.
Qed.

Lemma truthyString_Some v :
  truthyString v = true → ∃ s, v = Some s.
Proof. destruct v; [eauto|done]. Qed.

(** The helper downloads of the macOS branch: quiet when they succeed,
    one full-update request when they fail. *)
Lemma helpers_settles fuel (Pre : World Action → Prop) :
  settles V info Pre (fun b _ => b = true) (fun b => b = false)
    (match platform V with
     | Darwin =>
         try_catch (downloadHelpers V fuel;; mret true)
           (fun _ => fullUpdate;; mret false)
     | _ => mret true
     end).
Proof.
  assert (Hret : settles V info Pre (fun b _ => b = true)
                   (fun b => b = false) (mret true)).
  { apply settles_quiet; [apply emitsOnly_ret|].
    intros w a w' _ Hrun. by inv_step Hrun. }
  destruct (platform V); [|done..].
  intros w r w' _ Hrun. unfold try_catch in Hrun.
  destruct ((downloadHelpers V fuel ≫= λ _, mret true) w)
    as [[b|e|] w1] eqn:Htry.
  - injection Hrun as <- <-.
    pose proof Htry as Hb. apply bind_Ok_inv in Hb as (? & ? & _ & Hb).
    inv_step Hb.
    eapply (emitsOnly_bind quiet) in Htry as (t & Ht & HP);
      [|apply emitsOnly_downloadHelpers|intros; apply emitsOnly_ret].
    exists t. split; [done|]. by left.
  - injection Hrun as <- <-.
    eapply (emitsOnly_bind quiet) in Htry as (t & Ht & HP);
      [|apply emitsOnly_downloadHelpers|intros; apply emitsOnly_ret].
    exists (t ++ [ActDownloadUpdate]). cbn [trace files].
    rewrite Ht, app_assoc. split; [done|]. right. exists false.
    split_and!; [done..|]. exists t. split; [done|]. by left.
  - injection Hrun as <- <-.
    eapply (emitsOnly_bind quiet) in Htry as (t & Ht & HP);
      [|apply emitsOnly_downloadHelpers|intros; apply emitsOnly_ret].
    exists t. split; [done|]. by left.
Qed.

(** [doSmartDownload] up to the download: it stays quiet and hands over
    what the manifest entry says, or it has taken the decision. *)
Lemma resolveDelta_settles fuel :
  settles V info (fun _ => True) (fun d _ => resolved V d)
    (fun d => d = Finished) (resolveDelta V fuel info).
Proof.
  unfold resolveDelta.
  destruct (truthyChannel (getChannel V)) eqn:Hch; cbn [negb].
  2:{ apply settles_quiet; [apply emitsOnly_ret|].
      intros w a w' _ Hrun. by inv_step Hrun. }
  destruct (getDeltaJSONUrl V) as [deltaJSONUrl|] eqn:Hurl;
    [apply settles_ret_bind|apply settles_throw_bind].
  apply (settles_bind_quiet _ (fun a _ => a = manifestAt V deltaJSONUrl)).
  { unfold fetchDeltaJSON. apply emitsOnly_bind; [by apply emitsOnly_emit|].
    intros _. destruct (fetch V _); [apply emitsOnly_ret|].
    destruct (negb _); apply emitsOnly_ret. }
  { intros w a w' _. rewrite fetchDeltaJSON_run. by intros [= <- _]. }
  intros deltaJSON'. apply (settles_pre (deltaJSON' = manifestAt V deltaJSONUrl));
    [done|intros ->].
  destruct (manifestAt V deltaJSONUrl) as [deltaJSON|] eqn:Hmanifest;
    [|by apply settles_full].
  destruct (truthyValue (Json.get (getVersion V) deltaJSON)) eqn:Htruthy;
    cbn [negb]; [|by apply settles_full].
  assert (Hentry : manifestEntry V
                   = Some (entryOf (Json.get (getVersion V) deltaJSON))).
  { unfold manifestEntry. by rewrite Hurl, Hmanifest, Htruthy. }
  set (details := entryOf (Json.get (getVersion V) deltaJSON)) in *.
  destruct (getDeltaURL V (Json.path details)) as [deltaURL|] eqn:HdeltaURL;
    [apply settles_ret_bind|apply settles_throw_bind].
  destruct (truthyString (Json.sha256 details)) eqn:Hsha; cbn [negb];
    [|by apply settles_full].
  apply truthyString_Some in Hsha as (shaVal & Hsha). rewrite Hsha.
  cbn [default from_option id].
  eapply settles_bind; [apply helpers_settles| |].
  2:{ intros a ->. exists Finished. by split. }
  intros helpers. apply (settles_pre (helpers = true)); [done|intros ->].
  cbn [negb].
  destruct (Json.path details) as [name|] eqn:Hname;
    [apply settles_ret_bind|apply settles_throw_bind].
  apply (settles_bind_quiet _ (fun fs w => fs = files w)).
  { apply emitsOnly_getFiles. }
  { intros w a w' _ Hrun. by inv_step Hrun. }
  intros fs. cbv beta.
  destruct (Fs.existsSync fs (Fs.join (deltaHolderPath V) name)
            && isSHACorrect V fs (Fs.join (deltaHolderPath V) name) shaVal)
    eqn:Hcached.
  - intros w r w' -> Hrun. unfold deltaDownloaded in Hrun.
    rewrite (bind_Ok_eq _ _ _ _ _ (emit_run _ _)) in Hrun.
    injection Hrun as <- <-. cbn [files trace].
    exists [ActUpdateDownloaded (Fs.join (deltaHolderPath V) name)
              (version info)].
    split; [done|]. right. exists Finished. split_and!; [done..|].
    exists []. split; [done|]. right. eexists. split; [done|].
    apply andb_true_iff in Hcached as [_ (c & Hc & Hsum)%isSHACorrect_true].
    by exists details, name, shaVal, c.
  - apply settles_quiet.
    { apply emitsOnly_bind; [apply (emitsOnly_ret _ tt)|intros].
      apply emitsOnly_ret. }
    intros w a w' _ Hrun.
    apply bind_Ok_inv in Hrun as (? & w7 & Hens & Hrun).
    cbv [Fs.ensureDir ret] in Hens. simplify_eq. inv_step Hrun.
    by exists details, name.
Qed.

(** The last [try]: whatever the download does, short of never
    settling, the cycle ends in a decision. *)
Lemma downloadAndVerify_settles fuel deltaURL deltaPath shaVal :
  settles V info (fun _ => toFetch V deltaURL deltaPath shaVal)
    (fun _ _ => False) (fun _ => True)
    (downloadAndVerify V fuel info deltaURL deltaPath shaVal).
Proof.
  intros w r w' (e & name & He & Hname & Hsha & Hpath & _) Hrun.
  unfold downloadAndVerify, try_catch in Hrun.
  destruct ((downloadFile V fuel deltaURL deltaPath ≫=
             λ _, verify V info deltaPath shaVal) w)
    as [[[]|err|] w1] eqn:Htry.
  - injection Hrun as <- <-.
    apply bind_Ok_inv in Htry as ([] & w2 & Hdl & Hver).
    pose proof (emitsOnly_client_downloadFile V quiet fuel deltaURL deltaPath
                  (fun _ _ => I) _ _ _ Hdl) as (t & Ht & HP).
    unfold verify in Hver.
    rewrite (bind_Ok_eq _ _ w2 (files w2) w2) in Hver by reflexivity.
    destruct (isSHACorrect V (files w2) deltaPath shaVal) eqn:Hgood;
      cbn [negb] in Hver; injection Hver as <-; cbn [trace files].
    + exists (t ++ [ActUpdateDownloaded deltaPath (version info)]).
      rewrite Ht, app_assoc. split; [done|]. right. exists tt.
      split_and!; [done..|]. exists t. split; [done|]. right.
      eexists. split; [done|].
      apply isSHACorrect_true in Hgood as (c & Hc & Hsum).
      by exists e, name, shaVal, c.
    + exists (t ++ [ActDownloadUpdate]).
      rewrite Ht, app_assoc. split; [done|]. right. exists tt.
      split_and!; [done..|]. exists t. split; [done|]. by left.
  - injection Hrun as <- <-. cbn [trace files].
    apply bind_inv in Htry as [(a & w2 & H1 & H2)|[(e' & H1 & _)|[_ ?]]];
      [| |done].
    + unfold verify in H2.
      rewrite (bind_Ok_eq _ _ w2 (files w2) w2) in H2 by reflexivity.
      by destruct (negb _).
    + pose proof (emitsOnly_client_downloadFile V quiet fuel deltaURL
                    deltaPath (fun _ _ => I) _ _ _ H1) as (t & Ht & HP).
      exists (t ++ [ActDownloadUpdate]).
      rewrite Ht, app_assoc. split; [done|]. right. exists tt.
      split_and!; [done..|]. exists t. split; [done|]. by left.
  - injection Hrun as <- <-.
    apply bind_inv in Htry as [(a & w2 & H1 & H2)|[(? & _ & ?)|[H1 _]]];
      [|done|].
    + unfold verify in H2.
      rewrite (bind_Ok_eq _ _ w2 (files w2) w2) in H2 by reflexivity.
      by destruct (negb _).
    + pose proof (emitsOnly_client_downloadFile V quiet fuel deltaURL
                    deltaPath (fun _ _ => I) _ _ _ H1) as (t & Ht & HP).
      exists t. split; [done|]. by left.
Qed.

Lemma doSmartDownload_settles fuel :
  settles V info (fun _ => True)
    (fun _ _ => truthyChannel (getChannel V) = false) (fun _ => True)
    (doSmartDownload V fuel info).
Proof.
  unfold doSmartDownload.
  eapply settles_bind; [apply resolveDelta_settles| |].
  - intros [|deltaURL deltaPath shaVal].
    + apply settles_quiet; [apply emitsOnly_ret|].
      intros w a w' Hres _. exact Hres.
    + intros w r w' Hpre Hrun.
      destruct (downloadAndVerify_settles fuel deltaURL deltaPath shaVal
                  w r w' Hpre Hrun) as (t & Ht & [[HP HQ]|Hdec]).
      * exists t. split; [done|]. left. split; [done|]. by destruct r.
      * exists t. split; [done|]. by right.
  - intros a ->. exists tt. by split.
Qed.

(** X1. Whatever the feed answers, a cycle of [doSmartDownload] takes
    at most one decision, and nothing follows it: among its actions
    only the last can be a full-update request or a delta-ready
    signal, and such a signal is for the offered version; every action
    before it is neither of the two. (The [download-progress] reports
    of a running download are events of neither kind, and are not in
    the trace.) *)
Theorem cycle_takes_at_most_one_decision
    (fuel : nat) (w : World Action) :
  ∃ t0 last,
    trace (doSmartDownload V fuel info w).2 = trace w ++ t0 ++ last
    ∧ Forall quiet t0
    ∧ (last = [] ∨ last = [ActDownloadUpdate]
       ∨ ∃ p, last = [ActUpdateDownloaded p (version info)]).
Proof.
  destruct (doSmartDownload V fuel info w) as [r w'] eqn:Hrun.
  destruct (doSmartDownload_settles fuel w r w' I Hrun)
    as (t & Ht & [[HP _]|(a & _ & _ & t0 & HP & Hd)]).
  - exists t, []. rewrite app_nil_r. by split_and!; [|  |left].
  - exists t0. destruct Hd as [->|(p & -> & _)].
    + exists [ActDownloadUpdate]. split_and!; [done..|]. right. by left.
    + eexists. split_and!; [done..|]. right. right. by exists p.
Qed.

(** X2. The delta-ready signal is only ever given for a file that is on
    disk when the cycle ends, at the path the manifest entry of the
    running version names inside the delta holder, and whose SHA-256 is
    the checksum of that entry; the version signalled is the one
    offered. *)
Theorem delta_ready_only_for_verified_file
    (fuel : nat) (w w' : World Action) (r : Res unit)
    (t : list Action) (p v : string) :
  doSmartDownload V fuel info w = (r, w') →
  trace w' = trace w ++ t →
  ActUpdateDownloaded p v ∈ t →
  v = version info ∧ verified V p (files w').
Proof.
  intros Hrun Ht Hin.
  destruct (doSmartDownload_settles fuel w r w' I Hrun)
    as (t' & Ht' & Hout).
  assert (t' = t) as -> by (rewrite Ht in Ht'; by apply app_inv_head in Ht').
  assert (Hq : ∀ t0, Forall quiet t0 → ActUpdateDownloaded p v ∉ t0).
  { intros t0 HP Hin0. by apply (proj1 (Forall_forall _ _) HP) in Hin0. }
  destruct Hout as [[HP _]|(a & _ & _ & t0 & HP & Hd)];
    [by apply Hq in Hin|].
  destruct Hd as [->|(p' & -> & Hv)];
    apply elem_of_app in Hin as [Hin|Hin%list_elem_of_singleton];
    [by apply Hq in Hin|done|by apply Hq in Hin|].
  by injection Hin as -> ->.
Qed.

(** X3. For a version with a truthy channel, a cycle returns normally
    exactly when it has taken its decision: a normal return ends in one
    full-update request or one delta-ready signal, and a cycle that
    throws or never settles has requested nothing, neither the delta
    nor the full update. *)
Theorem cycle_decides_iff_it_returns
    (fuel : nat) (w w' : World Action) (r : Res unit) :
  truthyChannel (getChannel V) = true →
  doSmartDownload V fuel info w = (r, w') →
  ∃ t, trace w' = trace w ++ t
    ∧ (r = Ok tt → decided V info t (files w'))
    ∧ (r ≠ Ok tt → Forall quiet t).
Proof.
  intros Hch Hrun.
  destruct (doSmartDownload_settles fuel w r w' I Hrun)
    as (t & Ht & [[HP HQ]|([] & -> & _ & Hd)]).
  - exists t. split_and!; [done| |done].
    intros ->. by rewrite Hch in HQ.
  - exists t. by split_and!.
Qed.

End CycleFacts.

(* --------------------------------------------------------------------- *)
(** *** The client: the branches of a cycle *)
(* --------------------------------------------------------------------- *)

Section CycleBranches.
Import Updater ClientSpec Cycle.
Variable V : Env.
Variable info : UpdateInfo.

Lemma existsSync_file (fs : gmap string string) p c :
  fs !! p = Some c → Fs.existsSync fs p = true.
Proof.
  intros Hp. unfold Fs.existsSync. rewrite bool_decide_true; [done|].
  by rewrite Hp.
Qed.

Lemma isSHACorrect_match fs filePath c :
  fs !! filePath = Some c →
  isSHACorrect V fs filePath (sha256hex V c) = true.
Proof.
  intros Hp. unfold isSHACorrect, computeSHA256.
  rewrite (existsSync_file _ _ _ Hp), Hp. cbn [negb].
  apply String.eqb_refl.
Qed.

Lemma orThrow_Some_bind {A B} (a : A) (k : A → Eff.M Action B) w :
  (orThrow (Some a) ≫= k) w = k a w.
Proof. reflexivity. Qed.

Lemma fullUpdate_run {A} (a : A) (w : World Action) :
  (fullUpdate;; mret a) w
  = (Ok a, mkWorld (files w) (trace w ++ [ActDownloadUpdate])).
Proof. reflexivity. Qed.

(** X4. When no patch is on offer for the running version (the manifest
    cannot be fetched, answers another status than 200, has no truthy
    value under the version, or its entry has no checksum), a cycle
    fetches the manifest, requests the full update and returns: no HTTP
    download is started and the disk is not touched. *)
Theorem no_delta_requests_full_update
    (fuel : nat) (w : World Action) (deltaJSONUrl : string) :
  truthyChannel (getChannel V) = true →
  getDeltaJSONUrl V = Some deltaJSONUrl →
  noDelta V →
  doSmartDownload V fuel info w
  = (Ok tt,
     mkWorld (files w)
       (trace w ++ [ActFetch deltaJSONUrl; ActDownloadUpdate])).
Proof.
  intros Hch Hurl Hno. unfold noDelta, manifestEntry in Hno.
  rewrite Hurl in Hno.
  assert (Hres : resolveDelta V fuel info w
                 = (Ok Finished,
                    mkWorld (files w)
                      (trace w ++ [ActFetch deltaJSONUrl; ActDownloadUpdate]))).
  { unfold resolveDelta. rewrite Hch, Hurl. cbn [negb].
    rewrite orThrow_Some_bind.
    rewrite (bind_Ok_eq _ _ _ _ _ (fetchDeltaJSON_run V _ _)).
    destruct (manifestAt V deltaJSONUrl) as [deltaJSON|].
    2:{ rewrite fullUpdate_run. cbn [trace files]. by rewrite <- app_assoc. }
    destruct (truthyValue (Json.get (getVersion V) deltaJSON)); cbn [negb].
    2:{ rewrite fullUpdate_run. cbn [trace files]. by rewrite <- app_assoc. }
    destruct Hno as [Hdelta Hsha].
    destruct (getDeltaURL V _) as [deltaURL|]; [|done].
    rewrite orThrow_Some_bind, Hsha. cbn [negb].
    rewrite fullUpdate_run. cbn [trace files]. by rewrite <- app_assoc. }
  unfold doSmartDownload. by rewrite (bind_Ok_eq _ _ _ _ _ Hres).
Qed.

(** X5. When the patch named by the manifest entry is already in the
    delta holder and hashes to the checksum of the entry, a cycle on
    Windows or Linux fetches the manifest and signals delta-ready for
    that file at once: no HTTP download is started, no full update is
    requested and the disk is not touched. *)
Theorem cached_patch_is_reused
    (fuel : nat) (w : World Action) (deltaJSONUrl : string)
    (e : Json.Entry) (name content : string) :
  truthyChannel (getChannel V) = true →
  platform V ≠ Darwin →
  getDeltaJSONUrl V = Some deltaJSONUrl →
  manifestEntry V = Some e →
  Json.path e = Some name →
  Json.sha256 e = Some (sha256hex V content) →
  sha256hex V content ≠ "" →
  getDeltaURL V (Some name) ≠ None →
  files w !! Fs.join (deltaHolderPath V) name = Some content →
  doSmartDownload V fuel info w
  = (Ok tt,
     mkWorld (files w)
       (trace w
        ++ [ActFetch deltaJSONUrl;
            ActUpdateDownloaded (Fs.join (deltaHolderPath V) name)
              (version info)])).
Proof.
  intros Hch Hplat Hurl Hentry Hname Hsha Hne Hdelta Hfile.
  unfold manifestEntry in Hentry. rewrite Hurl in Hentry.
  assert (Hres : resolveDelta V fuel info w
                 = (Ok Finished,
                    mkWorld (files w)
                      (trace w
                       ++ [ActFetch deltaJSONUrl;
                           ActUpdateDownloaded
                             (Fs.join (deltaHolderPath V) name)
                             (version info)]))).
  { unfold resolveDelta. rewrite Hch, Hurl. cbn [negb].
    rewrite orThrow_Some_bind.
    rewrite (bind_Ok_eq _ _ _ _ _ (fetchDeltaJSON_run V _ _)).
    destruct (manifestAt V deltaJSONUrl) as [deltaJSON|]; [|done].
    destruct (truthyValue (Json.get (getVersion V) deltaJSON)); [|done].
    injection Hentry as Hentry. rewrite Hentry, Hname, Hsha. cbn [negb].
    destruct (getDeltaURL V (Some name)) as [deltaURL|]; [|done].
    rewrite orThrow_Some_bind.
    assert (Htruthy : truthyString (Some (sha256hex V content)) = true).
    { cbn [truthyString]. apply negb_true_iff. by apply String.eqb_neq. }
    rewrite Htruthy. cbn [negb default from_option id].
    assert (Hhelp : ∀ w0 : World Action,
              (match platform V with
               | Darwin =>
                   try_catch (downloadHelpers V fuel;; mret true)
                     (fun _ => fullUpdate;; mret false)
               | _ => mret true
               end) w0 = (Ok true, w0)).
    { intros w0. by destruct (platform V). }
    rewrite (bind_Ok_eq _ _ _ _ _ (Hhelp _)). cbn [negb fmap option_fmap option_map].
    rewrite orThrow_Some_bind.
    rewrite getFiles_bind.
    cbn [files].
    rewrite (existsSync_file _ _ _ Hfile), (isSHACorrect_match _ _ _ Hfile).
    cbn [andb]. unfold deltaDownloaded.
    rewrite (bind_Ok_eq _ _ _ _ _ (emit_run _ _)).
    cbv [mret M_ret ret]. cbn [trace files]. by rewrite <- app_assoc. }
  unfold doSmartDownload. by rewrite (bind_Ok_eq _ _ _ _ _ Hres).
Qed.

(** X6. Without a host URL ([hostURL] is [null]) a cycle for a version
    with a truthy channel throws the TypeError of [new URL] before
    anything else happens: the manifest is not fetched and, the call
    sitting outside every [try], no full update is requested either. *)
Theorem null_host_url_throws_before_anything (fuel : nat) (w : World Action) :
  truthyChannel (getChannel V) = true →
  hostURL V = None →
  doSmartDownload V fuel info w = (Throw "TypeError", w).
Proof.
  intros Hch Hhost. unfold doSmartDownload, resolveDelta.
  rewrite Hch. cbn [negb]. unfold getDeltaJSONUrl. rewrite Hhost.
  by destruct (platform V).
Qed.

(** X7. For a running version whose first prerelease identifier is
    falsy (the number 0, as in 1.0.0-0), the [update-available]
    listener with no matching attempt record announces the update and
    stops there: it requests neither the delta nor the full update. *)
Theorem falsy_channel_requests_nothing
    (fuel : nat) (w : World Action) :
  truthyChannel (getChannel V) = false →
  (∀ d, readUpdateDetails V = Some d → appVersion d ≠ getVersion V) →
  onUpdateAvailable V fuel info w
  = (Ok tt,
     mkWorld (files w)
       (trace w
        ++ ActEmit "update-available"
           :: (if updaterWindow V then [ActDispatch "update-available"]
               else []))).
Proof.
  intros Hch Hrec.
  assert (Hsmart : ∀ w0, doSmartDownload V fuel info w0 = (Ok tt, w0)).
  { intros w0. unfold doSmartDownload, resolveDelta. by rewrite Hch. }
  unfold onUpdateAvailable.
  rewrite (bind_Ok_eq _ _ _ _ _ (emit_run _ _)).
  unfold dispatchEvent.
  assert (Hnext : ∀ w0 : World Action,
            match readUpdateDetails V with
            | Some updateDetails =>
                if String.eqb (appVersion updateDetails) (getVersion V)
                then fullUpdate
                else doSmartDownload V fuel info
            | None => doSmartDownload V fuel info
            end w0 = (Ok tt, w0)).
  { intros w0. destruct (readUpdateDetails V) as [d|] eqn:Hd; [|done].
    specialize (Hrec d eq_refl). apply String.eqb_neq in Hrec.
    by rewrite Hrec. }
  destruct (updaterWindow V).
  - rewrite (bind_Ok_eq _ _ _ _ _ (emit_run _ _)), Hnext.
    cbn [files trace]. by rewrite <- !app_assoc.
  - rewrite (bind_Ok_eq (mret tt) _ _ tt _ eq_refl), Hnext. done.
Qed.

(** X8. Once a patch is to be fetched, how its download ends decides
    the cycle: a download that rejects is answered by one full-update
    request and a normal return, while a download that never settles
    (a redirect whose target fails) leaves the cycle unsettled, with no
    full update requested. *)
Theorem download_outcome_drives_fallback
    (fuel : nat) (w0 w : World Action)
    (deltaURL deltaPath shaVal : string) :
  resolveDelta V fuel info w0 = (Ok (Fetch deltaURL deltaPath shaVal), w) →
  (∀ e w1, downloadFile V fuel deltaURL deltaPath w = (Throw e, w1) →
     doSmartDownload V fuel info w0
     = (Ok tt, mkWorld (files w1) (trace w1 ++ [ActDownloadUpdate])))
  ∧ (∀ w1, downloadFile V fuel deltaURL deltaPath w = (Pending, w1) →
       doSmartDownload V fuel info w0 = (Pending, w1)).
Proof.
  intros Hres. unfold doSmartDownload.
  rewrite (bind_Ok_eq _ _ _ _ _ Hres).
  unfold downloadAndVerify, try_catch.
  split; intros; unfold mbind at 1, M_bind at 1, bind at 1; by rewrite H.
Qed.

(** X30. On macOS the two helper binaries are downloaded before the
    patch; when that fails (a url that cannot be built, a download that
    rejects), the cycle requests the full update and returns: the patch
    is not downloaded, and the cached patch is not even looked at. *)
Theorem mac_helper_failure_falls_back
    (fuel : nat) (w w2 : World Action) (deltaJSONUrl err : string)
    (e : Json.Entry) :
  truthyChannel (getChannel V) = true →
  platform V = Darwin →
  getDeltaJSONUrl V = Some deltaJSONUrl →
  manifestEntry V = Some e →
  truthyString (Json.sha256 e) = true →
  getDeltaURL V (Json.path e) ≠ None →
  downloadHelpers V fuel
    (mkWorld (files w) (trace w ++ [ActFetch deltaJSONUrl]))
  = (Throw err, w2) →
  doSmartDownload V fuel info w
  = (Ok tt, mkWorld (files w2) (trace w2 ++ [ActDownloadUpdate])).
Proof.
  intros Hch Hplat Hurl Hentry Hsha Hdelta Hhelp.
  unfold manifestEntry in Hentry. rewrite Hurl in Hentry.
  assert (Hres : resolveDelta V fuel info w
                 = (Ok Finished,
                    mkWorld (files w2) (trace w2 ++ [ActDownloadUpdate]))).
  { unfold resolveDelta. rewrite Hch, Hurl. cbn [negb].
    rewrite orThrow_Some_bind.
    rewrite (bind_Ok_eq _ _ _ _ _ (fetchDeltaJSON_run V _ _)).
    destruct (manifestAt V deltaJSONUrl) as [deltaJSON|]; [|done].
    destruct (truthyValue (Json.get (getVersion V) deltaJSON)); [|done].
    injection Hentry as Hentry. rewrite Hentry. cbn [negb].
    destruct (getDeltaURL V (Json.path e)) as [deltaURL|]; [|done].
    rewrite orThrow_Some_bind, Hsha, Hplat. cbn [negb].
    unfold mbind at 1, M_bind at 1, bind at 1. unfold try_catch.
    unfold mbind at 1, M_bind at 1, bind at 1. rewrite Hhelp.
    reflexivity. }
  unfold doSmartDownload. by rewrite (bind_Ok_eq _ _ _ _ _ Hres).
Qed.

End CycleBranches.

(* --------------------------------------------------------------------- *)
(** *** download.ts: redirects and failures *)
(* --------------------------------------------------------------------- *)

Section Download.
Import Updater ClientSpec Cycle.
Variable V : Env.

Lemma downloadFile_200 fuel url filePath w location content :
  respond V (Js.startsWith "https" url) url
  = Responded 200 location (BodyComplete content) →
  canWrite V filePath = true →
  downloadFile V fuel url filePath w
  = (Ok tt,
     mkWorld (<[filePath := content]> (files w))
       (trace w ++ [ActHttpGet (Js.startsWith "https" url) url])).
Proof.
  intros Hresp Hwrite. destruct fuel; cbn [downloadFile].
  all: rewrite (bind_Ok_eq _ _ w tt (requested url w)) by reflexivity.
  all: by rewrite Hresp, Hwrite.
Qed.

(** X9. A chain of redirects of any length that ends at a url answering
    200 is followed to its end: [downloadFile] resolves, the requests
    are issued in the order of the chain, one each, and the content
    served by the last url is written at the path that was asked for. *)
Theorem redirect_chain_is_followed
    (urls : list string) (url content filePath : string) (fuel : nat)
    (w : World Action) :
  redirectChain V (url :: urls) content →
  canWrite V filePath = true →
  length urls ≤ fuel →
  downloadFile V fuel url filePath w
  = (Ok tt,
     mkWorld (<[filePath := content]> (files w))
       (trace w ++ gets (url :: urls))).
Proof.
  intros Hchain Hwrite. revert url fuel w Hchain.
  induction urls as [|u' urls IH]; intros url fuel w Hchain Hlen.
  - destruct Hchain as (location & Hresp). by eapply downloadFile_200.
  - destruct Hchain as [(code & body & Hresp & Hcode) Hrest].
    destruct fuel as [|fuel]; [cbn [length] in Hlen; lia|].
    rewrite (downloadFile_redirect _ _ _ _ _ _ _ _ Hresp Hcode).
    rewrite (IH u' fuel (requested url w) Hrest)
      by (cbn [length] in Hlen; lia).
    cbn [requested files trace gets map]. by rewrite <- app_assoc.
Qed.

(** X10. Redirects are followed without any limit and without any way
    out: a url that redirects to itself is requested again for as long
    as the download is allowed to run, and a redirect without a
    Location header stops after one request; in both cases the promise
    is never settled, neither resolved nor rejected. *)
Theorem bad_redirect_never_settles
    (url filePath : string) (code : Z) (body : Body) (w : World Action) :
  code = 301%Z ∨ code = 302%Z →
  (respond V (Js.startsWith "https" url) url
   = Responded code (Some url) body →
   ∀ fuel,
     downloadFile V fuel url filePath w
     = (Pending,
        mkWorld (files w)
          (trace w
           ++ replicate (S fuel)
                (ActHttpGet (Js.startsWith "https" url) url))))
  ∧ (respond V (Js.startsWith "https" url) url
     = Responded code None body →
     ∀ fuel,
       downloadFile V fuel url filePath w = (Pending, requested url w)).
Proof.
  intros Hcode. split; intros Hresp fuel.
  - revert w. induction fuel as [|fuel IH]; intros w.
    + cbn [downloadFile].
      rewrite (bind_Ok_eq _ _ w tt (requested url w)) by reflexivity.
      rewrite Hresp. by destruct Hcode as [-> | ->].
    + rewrite (downloadFile_redirect _ _ _ _ _ _ _ _ Hresp Hcode), IH.
      cbn [requested files trace]. rewrite <- app_assoc. done.
  - destruct fuel as [|fuel].
    + cbn [downloadFile].
      rewrite (bind_Ok_eq _ _ w tt (requested url w)) by reflexivity.
      rewrite Hresp. by destruct Hcode as [-> | ->].
    + by rewrite (downloadFile_redirect _ _ _ _ _ _ _ _ Hresp Hcode).
Qed.

(** X11. [downloadFile] touches no other path than the one it is given,
    and a download that does not resolve leaves nothing new there: the
    file at the path is then gone or what it was before. *)
Theorem download_touches_only_its_path
    (fuel : nat) (url filePath : string) (w w' : World Action)
    (r : Res unit) :
  downloadFile V fuel url filePath w = (r, w') →
  (∀ q, q ≠ filePath → files w' !! q = files w !! q)
  ∧ (r ≠ Ok tt →
     files w' !! filePath = None
     ∨ files w' !! filePath = files w !! filePath).
Proof.
  revert url w r w'.
  assert (Hsame : ∀ (w w' : World Action) (r : Res unit),
            files w' = files w →
            (∀ q, q ≠ filePath → files w' !! q = files w !! q)
            ∧ (r ≠ Ok tt →
               files w' !! filePath = None
               ∨ files w' !! filePath = files w !! filePath)).
  { intros w w' r ->. split; [done|]. by right. }
  assert (Hdirect : ∀ fuel url w r w',
            (∀ code location body,
               respond V (Js.startsWith "https" url) url
               = Responded code location body →
               (code =? 200)%Z = false →
               (code =? 302)%Z || (code =? 301)%Z = true → False) →
            downloadFile V fuel url filePath w = (r, w') →
            (∀ q, q ≠ filePath → files w' !! q = files w !! q)
            ∧ (r ≠ Ok tt →
               files w' !! filePath = None
               ∨ files w' !! filePath = files w !! filePath)).
  { intros fuel' url w r w' Hnored Hrun.
    destruct fuel'; cbn [downloadFile] in Hrun.
    all: rewrite (bind_Ok_eq _ _ w tt (requested url w)) in Hrun
        by reflexivity.
    all: destruct (respond V _ url) as [e|code location body] eqn:Hresp;
      [injection Hrun as <- <-; by apply Hsame|].
    all: destruct (Z.eqb code 200) eqn:H200.
    all: try (destruct (Z.eqb code 302 || Z.eqb code 301) eqn:Hred;
              [by destruct (Hnored _ _ _ eq_refl H200 Hred)
              |injection Hrun as <- <-; by apply Hsame]).
    all: destruct (canWrite V filePath);
      [|injection Hrun as <- <-; by apply Hsame].
    all: destruct body as [content|e]; injection Hrun as <- <-;
      cbn [requested files].
    all: split; [intros q Hq|intros Hr; try done].
    all: try (by rewrite lookup_insert_ne).
    all: try (by rewrite lookup_delete_ne).
    all: left; apply lookup_delete_eq. }
  induction fuel as [|fuel IH]; intros url w r w' Hrun.
  - destruct (respond V (Js.startsWith "https" url) url)
      as [e|code location body] eqn:Hresp.
    { eapply Hdirect; [|exact Hrun]. intros c0 l0 b0 Heq H2 H3; rewrite Hresp in Heq; congruence. }
    destruct (Z.eqb code 200) eqn:H200.
    { eapply Hdirect; [|exact Hrun]. intros c0 l0 b0 Heq H2 H3; rewrite Hresp in Heq; congruence. }
    destruct (Z.eqb code 302 || Z.eqb code 301) eqn:Hred.
    2:{ eapply Hdirect; [|exact Hrun]. intros c0 l0 b0 Heq H2 H3; rewrite Hresp in Heq; congruence. }
    cbn [downloadFile] in Hrun.
    rewrite (bind_Ok_eq _ _ w tt (requested url w)) in Hrun by reflexivity.
    rewrite Hresp, H200, Hred in Hrun. injection Hrun as <- <-.
    by apply Hsame.
  - destruct (respond V (Js.startsWith "https" url) url)
      as [e|code location body] eqn:Hresp.
    { eapply Hdirect; [|exact Hrun]. intros c0 l0 b0 Heq H2 H3; rewrite Hresp in Heq; congruence. }
    destruct (Z.eqb code 200) eqn:H200.
    { eapply Hdirect; [|exact Hrun]. intros c0 l0 b0 Heq H2 H3; rewrite Hresp in Heq; congruence. }
    destruct (Z.eqb code 302 || Z.eqb code 301) eqn:Hred.
    2:{ eapply Hdirect; [|exact Hrun]. intros c0 l0 b0 Heq H2 H3; rewrite Hresp in Heq; congruence. }
    cbn [downloadFile] in Hrun.
    rewrite (bind_Ok_eq _ _ w tt (requested url w)) in Hrun by reflexivity.
    rewrite Hresp, H200, Hred in Hrun.
    destruct location as [l|].
    + destruct (downloadFile V fuel l filePath (requested url w))
        as [r1 w1] eqn:Hinner.
      apply IH in Hinner as [Hframe Hfail]. cbn [requested files] in *.
      destruct r1 as [[]|e|]; injection Hrun as <- <-.
      * split; [done|]. by intros [].
      * split; [done|]. intros _. by apply Hfail.
      * split; [done|]. intros _. by apply Hfail.
    + injection Hrun as <- <-. by apply Hsame.
Qed.

End Download.

Import RunSpec.

(* --------------------------------------------------------------------- *)
(** *** The release index *)
(* --------------------------------------------------------------------- *)

Section IndexFacts.
Import ReleaseIndex.

Lemma fold_reducer e data acc :
  fold_left (reducer e) data acc
  = acc ++ concat (map (fun r =>
                          map (fun u => {| version := tag_name r; url := u |})
                            (keptUrls e r)) data).
Proof.
  revert acc. induction data as [|r data IH]; intros acc; cbn [fold_left].
  - by rewrite app_nil_r.
  - rewrite IH. unfold reducer. cbn [map concat]. by rewrite app_assoc.
Qed.

Lemma elem_of_concat {A} (x : A) (ls : list (list A)) :
  x ∈ concat ls → ∃ l, x ∈ l ∧ l ∈ ls.
Proof.
  induction ls as [|l ls IH]; cbn [concat].
  - by intros ?%elem_of_nil.
  - intros [Hx|Hx]%elem_of_app.
    + exists l. split; [done|]. apply elem_of_cons. by left.
    + destruct (IH Hx) as (l' & Hl' & Hin). exists l'.
      split; [done|]. apply elem_of_cons. by right.
Qed.

(** X12. [getPreviousReleases] answers at most three releases, and each
    of them pairs the tag of a release of the index with the download
    url of one of its assets: a url that has the extension of the
    platform and target, is not untagged, is not a delta installer and
    not a web ([-Setup]) installer. *)
Theorem previous_releases_are_kept_assets
    (data : list IndexRelease) (platform target : string) :
  length (getPreviousReleases data platform target) ≤ 3
  ∧ ∀ r, r ∈ getPreviousReleases data platform target →
      ∃ release asset,
        release ∈ data ∧ asset ∈ assets release
        ∧ version r = tag_name release
        ∧ url r = browser_download_url asset
        ∧ Js.endsWith (ext platform target) (url r) = true
        ∧ Js.includes "untagged" (url r) = false
        ∧ Js.endsWith "-delta.exe" (url r) = false
        ∧ Js.includes "-Setup" (url r) = false.
Proof.
  unfold getPreviousReleases, Js.slice0. split.
  - rewrite length_take. lia.
  - intros r Hr. apply subseteq_take in Hr.
    rewrite fold_reducer, app_nil_l in Hr.
    apply elem_of_concat in Hr as (l & Hr & Hl).
    apply list_elem_of_fmap in Hl as (release & -> & Hrelease).
    apply list_elem_of_fmap in Hr as (u & -> & Hu).
    unfold keptUrls in Hu.
    apply list_elem_of_filter in Hu as [Hplain Hu].
    apply list_elem_of_filter in Hu as [Hext Hu].
    apply list_elem_of_filter in Hu as [Htagged Hu].
    apply list_elem_of_fmap in Hu as (asset & -> & Hasset).
    exists release, asset. cbn [version url].
    unfold notDeltaNorSetup in Hplain.
    apply Is_true_true in Hplain, Hext, Htagged.
    apply andb_true_iff in Hplain as [Hd Hs].
    apply negb_true_iff in Hd, Hs, Htagged.
    by split_and!.
Qed.

End IndexFacts.

(* --------------------------------------------------------------------- *)
(** *** The build pipeline: what a run never does *)
(* --------------------------------------------------------------------- *)

Section Settled.
Context {E : Type}.

Lemma settled_ret {A} (a : A) : settled (mret a : M E A).
Proof. by intros w. Qed.

Lemma settled_throw {A} e : settled (throw e : M E A).
Proof. by intros w. Qed.

Lemma settled_emit e : settled (emit e : M E unit).
Proof. by intros w. Qed.

Lemma settled_getFiles : settled (getFiles : M E _).
Proof. by intros w. Qed.

Lemma settled_setFiles fs : settled (setFiles fs : M E unit).
Proof. by intros w. Qed.

Lemma settled_bind {A B} (m : M E A) (k : A → M E B) :
  settled m → (∀ a, settled (k a)) → settled (m ≫= k).
Proof.
  intros Hm Hk w. specialize (Hm w). unfold mbind, M_bind, bind.
  destruct (m w) as [[a|e|] w1]; [apply Hk|done|done].
Qed.

Lemma settled_try {A} (m : M E A) h :
  settled m → (∀ e, settled (h e)) → settled (try_catch m h).
Proof.
  intros Hm Hh w. specialize (Hm w). unfold try_catch.
  destruct (m w) as [[a|e|] w1]; [done|apply Hh|done].
Qed.

Lemma settled_forM {A} (l : list A) (f : A → M E unit) :
  (∀ x, settled (f x)) → settled (forM l f).
Proof.
  intros Hf. induction l as [|x l IH]; [by intros w|].
  rewrite forM_cons. apply settled_bind; [apply Hf|by intros _].
Qed.

(** A loop with an element whose step always throws never completes. *)
Lemma forM_throws {A} (l : list A) (f : A → M E unit) x0 :
  (∀ x, settled (f x)) → x0 ∈ l →
  (∀ w, ∃ e w', f x0 w = (Throw e, w')) →
  ∀ w, ∃ e w', forM l f w = (Throw e, w').
Proof.
  intros Hf Hin Hx0. induction l as [|x l IH]; intros w.
  - by apply elem_of_nil in Hin.
  - rewrite forM_cons. unfold mbind, M_bind, bind.
    apply elem_of_cons in Hin as [<-|Hin].
    + destruct (Hx0 w) as (e & w' & ->). eauto.
    + pose proof (Hf x w) as Hs.
      destruct (f x w) as [[[]|e|] w1]; [by apply IH|eauto|done].
Qed.

End Settled.

Ltac settled_step :=
  lazymatch goal with
  | |- settled (_ ≫= _) => apply settled_bind; [|intros]
  | |- settled (mret _) => apply settled_ret
  | |- settled (ret _) => apply (settled_ret _)
  | |- settled (throw _) => apply settled_throw
  | |- settled getFiles => apply settled_getFiles
  | |- settled (setFiles _) => apply settled_setFiles
  | |- settled (try_catch _ _) => apply settled_try; [|intros]
  | |- settled (forM _ _) => apply settled_forM; intros
  | |- settled (emit _) => apply settled_emit
  | |- settled (match ?x with _ => _ end) => destruct x
  | |- settled (if ?x then _ else _) => destruct x
  end.

Ltac settled_tac := repeat settled_step.

Section PipelineFacts.
Variable T : Tools.
Variable H : Host.

Lemma settled_downloadFile u p : settled (downloadFile T u p).
Proof. unfold downloadFile. settled_tac. Qed.

Lemma settled_extract7zip z d : settled (extract7zip T z d).
Proof. unfold extract7zip. settled_tac. Qed.

Lemma settled_safeSpawn exe args : settled (safeSpawn T exe args).
Proof. unfold safeSpawn. settled_tac. Qed.

Lemma settled_getNSISPath : settled (getNSISPath T H).
Proof.
  unfold getNSISPath. settled_tac.
  - apply (settled_ret tt).
  - apply settled_downloadFile.
  - apply settled_extract7zip.
Qed.

(** *** utils.ts: the download cache *)

(** X13. Once [downloadFileIfNotExists] has returned for a path, the
    file is there, and every later call for that path, whatever its
    url, is answered from the disk: it returns the path, downloads
    nothing and changes nothing. *)
Theorem download_is_cached_after_first_success
    (url filePath r : string) (w w1 : World Event) :
  downloadFileIfNotExists T url filePath w = (Ok r, w1) →
  r = filePath
  ∧ Fs.existsSync (files w1) filePath = true
  ∧ ∀ url', downloadFileIfNotExists T url' filePath w1 = (Ok filePath, w1).
Proof.
  intros Hrun.
  assert (Hex : r = filePath ∧ Fs.existsSync (files w1) filePath = true).
  { unfold downloadFileIfNotExists in Hrun.
    rewrite getFiles_bind in Hrun.
    destruct (Fs.existsSync (files w) filePath) eqn:Hex.
    - by injection Hrun as <- <-.
    - split; [by eapply downloadFile_value|].
      unfold downloadFile in Hrun.
      apply bind_Ok_inv in Hrun as ([] & w2 & Hemit & Hrun).
      apply bind_Ok_inv in Hrun as (fs & w3 & Hget & Hrun).
      destruct (got T url) as [body|written].
      + apply bind_Ok_inv in Hrun as ([] & w4 & Hset & Hrun).
        inv_step Hrun. injection Hset as <-. cbn [files].
        eapply existsSync_file. apply lookup_insert_eq.
      + apply bind_Ok_inv in Hrun as ([] & w4 & _ & Hrun). done. }
  destruct Hex as [-> Hex]. split_and!; [done..|].
  intros url'. by apply downloadFileIfNotExists_cached.
Qed.

(** X14. A download that fails after the write stream has created the
    file leaves what was written at the path, and the next call for
    that path takes it for a cached installer: it returns the path
    without downloading anything. *)
Theorem failed_download_poisons_the_cache
    (url filePath written : string) (w : World Event) :
  Fs.existsSync (files w) filePath = false →
  got T url = GotError (Some written) →
  ∃ e w1,
    downloadFileIfNotExists T url filePath w = (Throw e, w1)
    ∧ files w1 !! filePath = Some written
    ∧ ∀ url', downloadFileIfNotExists T url' filePath w1 = (Ok filePath, w1).
Proof.
  intros Hex Hgot.
  exists "download failed",
    (mkWorld (<[filePath := written]> (files w))
       (trace w ++ [EvDownload url filePath])).
  split_and!.
  - unfold downloadFileIfNotExists.
    rewrite getFiles_bind, Hex.
    unfold downloadFile.
    rewrite emit_bind, getFiles_bind, Hgot. reflexivity.
  - apply lookup_insert_eq.
  - intros url'. apply downloadFileIfNotExists_cached. cbn [files].
    eapply existsSync_file. apply lookup_insert_eq.
Qed.

(** *** The delta installer builder *)

Variable o : Options.

Lemma settled_executeNSIS d : settled (executeNSIS T H d).
Proof.
  unfold executeNSIS. apply settled_bind; [apply settled_getNSISPath|].
  intros [makensis root]. apply settled_try; [|intros; apply settled_ret].
  apply settled_bind; [apply settled_safeSpawn|intros; apply settled_ret].
Qed.

(** X15. [DeltaInstallerBuilder.build] never throws and always settles:
    whatever happens to the download and the extraction of the compiler
    and to the compiler run, it returns the output path it was given,
    or [null]. *)
Theorem installer_build_never_throws
    (installerOutputPath deltaFilePath deltaFileName : string)
    (w : World Event) :
  ∃ w',
    build T H o installerOutputPath deltaFilePath deltaFileName w
    = (Ok (Some installerOutputPath), w')
    ∨ build T H o installerOutputPath deltaFilePath deltaFileName w
      = (Ok None, w').
Proof.
  unfold build, mbind, M_bind, bind.
  pose proof (settled_executeNSIS
                (defines o installerOutputPath deltaFilePath deltaFileName) w)
    as Hs.
  unfold try_catch.
  destruct (executeNSIS T H _ w) as [[[]|e|] w1]; cbn -[defines];
    [eauto..|done].
Qed.

(** X16. With the compiler in the cache, the installer is reported as
    built whenever [spawnSync] returns, whatever the exit status of
    makensis and whether or not it wrote the installer; [null] is
    returned only when [spawnSync] itself throws. The compiler is run
    once, on the defines that have a value and the script. *)
Theorem installer_build_ignores_exit_status
    (installerOutputPath deltaFilePath deltaFileName : string)
    (w : World Event) :
  Fs.existsSync (files w) (makeNSISPath H) = true →
  let args :=
    getNSISArgs (defines o installerOutputPath deltaFilePath deltaFileName)
    ++ [getNSISScript H] in
  build T H o installerOutputPath deltaFilePath deltaFileName w
  = match spawnSync T (makeNSISPath H) args (files w) with
    | SpawnReturn status after =>
        (Ok (Some installerOutputPath),
         mkWorld after (trace w ++ [EvSpawn (makeNSISPath H) args]))
    | SpawnThrow =>
        (Ok None,
         mkWorld (files w) (trace w ++ [EvSpawn (makeNSISPath H) args]))
    end.
Proof.
  intros Hcached args.
  unfold build, executeNSIS, getNSISPath.
  unfold mbind at 1, M_bind at 1, bind at 1. unfold try_catch at 1.
  unfold mbind at 1, M_bind at 1, bind at 1.
  rewrite getFiles_bind, Hcached.
  cbv [mret M_ret ret]. unfold try_catch, safeSpawn.
  unfold mbind at 1, M_bind at 1, bind at 1.
  rewrite emit_bind, getFiles_bind.
  cbn [files]. fold args.
  by destruct (spawnSync T (makeNSISPath H) args (files w)).
Qed.

(** *** create-all-deltas.ts: a tag that is no version *)

Lemma settled_downloadAll prev : settled (downloadAll T o prev).
Proof.
  unfold downloadAll, downloadFileIfNotExists. settled_tac.
  apply settled_downloadFile.
Qed.

Lemma settled_extractStep r :
  settled (extractedDir ← joinVersion (dataDir o) (p_version r);
           let filePath := Fs.join (dataDir o) (p_fileName r) in
           fs ← getFiles;
           if negb (Fs.existsSync fs (Fs.join extractedDir (exeName o)))
           then
             Fs.ensureDir extractedDir;;
             Fs.emptyDir extractedDir;;
             extract7zip T filePath extractedDir;; mret tt
           else mret tt).
Proof.
  apply settled_bind.
  { unfold joinVersion. settled_tac. }
  intros d. apply settled_bind; [apply settled_getFiles|intros fs].
  destruct (negb _); [|apply settled_ret].
  apply settled_bind; [apply (settled_ret tt)|intros _].
  apply settled_bind; [unfold Fs.emptyDir; settled_tac|intros _].
  apply settled_bind; [apply settled_extract7zip|intros; apply settled_ret].
Qed.

(** X17. When one of the (first ten) prior releases carries a tag that
    [semver.clean] rejects, the run cannot complete: it throws, at the
    latest when the extraction loop joins the [null] version to the
    data directory, after downloads and extractions only; no diff is
    computed, no installer built and no manifest written. *)
Theorem invalid_tag_aborts_before_any_diff
    (w w' : World Event) (res : Res (option (list string)))
    (r : ReleaseIndex.Release) :
  r ∈ Js.slice0 10 (fetchReleases o) →
  semverClean T (ReleaseIndex.version r) = None →
  createAllDeltas T H o w = (res, w') →
  (∃ e, res = Throw e)
  ∧ ∃ t, trace w' = trace w ++ t ∧ Forall fetchOnly t.
Proof.
  intros Hin Hclean Hrun.
  assert (Hne : fetchReleases o ≠ []).
  { intros He. rewrite He in Hin. by apply elem_of_nil in Hin. }
  rewrite (createAllDeltas_nonempty T H o Hne) in Hrun.
  assert (Hprep : mkPrepared (ReleaseIndex.url r) None
                    (fileNameFromUrl T (ReleaseIndex.url r))
                  ∈ prepared T o).
  { unfold prepared, preparePreviousReleases.
    apply list_elem_of_fmap. exists r. by rewrite Hclean. }
  assert (Hext : ∀ w0, ∃ e w1, extractAll T o (prepared T o) w0 = (Throw e, w1)).
  { eapply forM_throws; [apply settled_extractStep|exact Hprep|].
    intros w0. by exists "ERR_INVALID_ARG_TYPE", w0. }
  apply bind_inv in Hrun as [(a & w1 & H1 & H2)|[(e & H1 & ->)|[H1 ->]]].
  - apply bind_inv in H2 as [(a2 & w2 & H2 & _)|[(e & H2 & ->)|[H2 ->]]].
    + destruct (Hext w1) as (e & w3 & He). congruence.
    + split; [eauto|].
      destruct (emitsOnly_downloadAll T o fetchOnly _ (fun _ _ => I) _ _ _ H1)
        as (t1 & Ht1 & HP1).
      destruct (emitsOnly_extractAll T o fetchOnly _ (fun _ _ => I) _ _ _ H2)
        as (t2 & Ht2 & HP2).
      exists (t1 ++ t2). rewrite Ht2, Ht1, app_assoc.
      split; [done|by apply Forall_app].
    + destruct (Hext w1) as (e & w3 & He). congruence.
  - split; [eauto|].
    by apply (emitsOnly_downloadAll T o fetchOnly _ (fun _ _ => I) _ _ _ H1).
  - by pose proof (settled_downloadAll (prepared T o) w) as Hs;
      rewrite H1 in Hs.
Qed.

End PipelineFacts.

(* --------------------------------------------------------------------- *)
(** *** delta-builder/index.ts *)
(* --------------------------------------------------------------------- *)

Section TopLevel.
Import DeltaBuilder.
Variable T : Tools.
Variable H : Host.
Variable P : Process.

(** *** [removeExt] *)

Lemma includes_cons_false sub c s :
  Js.includes sub (String c s) = false →
  String.prefix sub (String c s) = false ∧ Js.includes sub s = false.
Proof.
  cbn [Js.includes]. by destruct (String.prefix sub (String c s)).
Qed.

(** No occurrence of [.exe] starts inside a string that holds none and
    runs over into an [.exe] that follows it. *)
Lemma prefix_exe_app a b :
  Js.includes ".exe" a = false → a ≠ "" →
  String.prefix ".exe" (a +:+ ".exe" +:+ b) = false.
Proof.
  intros Ha Hne. destruct a as [|c1 a]; [done|].
  apply includes_cons_false in Ha as [Hp _].
  destruct (String.prefix ".exe" (String c1 a +:+ ".exe" +:+ b)) eqn:Hpre;
    [|done].
  exfalso. rewrite sapp_cons in Hpre. cbn [String.prefix] in Hpre.
  destruct (ascii_dec "." c1) as [<-|]; [|done].
  destruct a as [|c2 a]; [by rewrite sapp_nil_l in Hpre|].
  rewrite sapp_cons in Hpre. cbn [String.prefix] in Hpre.
  destruct (ascii_dec "e" c2) as [<-|]; [|done].
  destruct a as [|c3 a]; [by rewrite sapp_nil_l in Hpre|].
  rewrite sapp_cons in Hpre. cbn [String.prefix] in Hpre.
  destruct (ascii_dec "x" c3) as [<-|]; [|done].
  destruct a as [|c4 a]; [by rewrite sapp_nil_l in Hpre|].
  rewrite sapp_cons in Hpre. cbn [String.prefix] in Hpre.
  destruct (ascii_dec "e" c4) as [<-|]; [|done].
  revert Hp. cbn [String.prefix].
  repeat (destruct (ascii_dec _ _); [|done]). by destruct a.
Qed.

Lemma replaceFirst_unfold pat repl s :
  replaceFirst pat repl s
  = if String.prefix pat s then repl +:+ Js.dropN (String.length pat) s
    else match s with
         | EmptyString => EmptyString
         | String c r => String c (replaceFirst pat repl r)
         end.
Proof. by destruct s. Qed.

(** X18. [removeExt] removes the first [.exe] of a name, wherever it
    stands, and nothing else: a later [.exe] stays, and a name without
    [.exe] is returned as it is. *)
Theorem removeExt_removes_first_occurrence (a b : string) :
  Js.includes ".exe" a = false →
  removeExt (a +:+ ".exe" +:+ b) = a +:+ b
  ∧ removeExt a = a.
Proof.
  unfold removeExt. induction a as [|c a IH]; intros Ha.
  - split; [|done]. rewrite sapp_nil_l.
    rewrite replaceFirst_unfold, prefix_app.
    change (".exe" +:+ b) with
      (String "." (String "e" (String "x" (String "e" b)))).
    cbn [String.length Js.dropN]. by rewrite sapp_nil_l.
  - pose proof (prefix_exe_app (String c a) b Ha ltac:(done)) as Hpre.
    apply includes_cons_false in Ha as [Hp Ha].
    destruct (IH Ha) as [IH1 IH2]. split.
    + rewrite replaceFirst_unfold, Hpre. rewrite sapp_cons. by rewrite IH1.
    + rewrite replaceFirst_unfold, Hp. by rewrite IH2.
Qed.

(** *** [getLatestReleaseInfo] *)

Lemma head_filter_Some {A} (f : A → bool) l x :
  head (filter (fun d => Is_true (f d)) l) = Some x →
  ∃ l1 l2, l = l1 ++ x :: l2 ∧ f x = true ∧ Forall (fun d => f d = false) l1.
Proof.
  induction l as [|d l IH]; [done|]. rewrite filter_cons.
  destruct (decide (Is_true (f d))) as [Hd|Hd].
  - intros [= ->]. exists [], l. split_and!; [done| |done].
    by apply Is_true_true.
  - intros (l1 & l2 & -> & Hx & Hl1)%IH. exists (d :: l1), l2.
    split_and!; [done..|]. constructor; [|done].
    by destruct (f d).
Qed.

Lemma getLatestReleaseInfo_unsupported artifactPaths platform target :
  (platform = "win" → target ≠ "nsis" ∧ target ≠ "nsis-web") →
  platform ≠ "mac" →
  getLatestReleaseInfo T artifactPaths platform target = None.
Proof.
  intros Hwin Hmac. unfold getLatestReleaseInfo.
  assert (Hnone : ∀ d, isLatestRelease platform target d = false).
  { intros d. unfold isLatestRelease.
    apply String.eqb_neq in Hmac. rewrite Hmac.
    destruct (String.eqb_spec platform "win") as [Hp|_]; [|done].
    destruct (Hwin Hp) as [Hn Hw].
    apply String.eqb_neq in Hn, Hw. by rewrite Hn, Hw. }
  induction artifactPaths as [|d l IH]; [done|].
  rewrite filter_cons. rewrite Hnone.
  destruct (decide (Is_true false)) as [[]|_]. exact IH.
Qed.

(** X19. The latest release that [getLatestReleaseInfo] answers is the
    first artifact that passes the filter of the platform and target:
    no artifact before it passes, and its file name is the base name of
    that path with the first [.exe] removed. On Windows with a target
    other than [nsis] and [nsis-web], and on every platform other than
    Windows and macOS, no artifact passes and the function throws. *)
Theorem latest_release_is_first_matching_artifact
    (artifactPaths : list string) (platform target : string) :
  (∀ latestReleaseFilePath latestReleaseFileName,
     getLatestReleaseInfo T artifactPaths platform target
     = Some (latestReleaseFilePath, latestReleaseFileName) →
     ∃ before after,
       artifactPaths = before ++ latestReleaseFilePath :: after
       ∧ isLatestRelease platform target latestReleaseFilePath = true
       ∧ Forall (fun d => isLatestRelease platform target d = false) before
       ∧ latestReleaseFileName
         = removeExt (basename T latestReleaseFilePath))
  ∧ ((platform = "win" → target ≠ "nsis" ∧ target ≠ "nsis-web") →
     platform ≠ "mac" →
     getLatestReleaseInfo T artifactPaths platform target = None).
Proof.
  split.
  - intros p n. unfold getLatestReleaseInfo.
    destruct (head _) as [p'|] eqn:Hhead; [|done]. intros [= <- <-].
    apply head_filter_Some in Hhead as (l1 & l2 & -> & Hp & Hl1).
    by exists l1, l2.
  - apply getLatestReleaseInfo_unsupported.
Qed.

(** *** [DeltaBuilder.build] *)

Lemma required_Some_bind {A B} (a : A) (k : A → Eff.M Event B) w :
  (required (Some a) ≫= k) w = k a w.
Proof. reflexivity. Qed.

Lemma buildPlatform_other c o buildFiles entry w :
  entry.1 ≠ "win" → entry.1 ≠ "mac" →
  buildPlatform T H P c o buildFiles entry w = (Ok buildFiles, w).
Proof.
  intros Hw Hm. unfold buildPlatform. cbv zeta.
  apply String.eqb_neq in Hw, Hm. by rewrite Hw, Hm.
Qed.

(** X20. Platforms other than Windows and macOS are passed over: a
    build whose platforms are all of another kind returns no file, and
    neither reads the artifacts nor touches the disk or any tool. *)
Theorem build_passes_over_other_platforms
    (c : Context) (o : DeltaBuilder.Options) (w : World Event) :
  Forall (fun entry => entry.1 ≠ "win" ∧ entry.1 ≠ "mac")
    (platformToTargets c) →
  build T H P c o w = (Ok [], w).
Proof.
  unfold build. generalize (@nil string) as buildFiles.
  induction (platformToTargets c) as [|entry l IH];
    intros buildFiles Hall; [done|].
  apply Forall_cons in Hall as [[Hw Hm] Hall].
  rewrite foldM_cons.
  rewrite (bind_Ok_eq _ _ _ _ _ (buildPlatform_other c o _ _ w Hw Hm)).
  by apply IH.
Qed.

Lemma deltasFor_first_release c o platformName target w :
  (∀ platform target,
     DeltaBuilder.getPreviousReleases o platform target = None
     ∨ DeltaBuilder.getPreviousReleases o platform target = Some []) →
  getLatestReleaseInfo T (artifactPaths c) platformName target ≠ None →
  deltasFor T H P c o platformName target w = (Ok None, w).
Proof.
  intros Hindex Hinfo. unfold deltasFor.
  destruct (getLatestReleaseInfo T _ platformName target)
    as [[p n]|]; [|done].
  rewrite required_Some_bind. apply createAllDeltas_empty.
  unfold fetchReleases.
  cbn [Builder.getPreviousReleases Builder.platform Builder.target].
  by destruct (Hindex platformName target) as [-> | ->].
Qed.

Lemma buildPlatform_first_release c o buildFiles entry w :
  (∀ platform target,
     DeltaBuilder.getPreviousReleases o platform target = None
     ∨ DeltaBuilder.getPreviousReleases o platform target = Some []) →
  (entry.1 = "win" →
   ∃ target, head entry.2 = Some target
     ∧ getLatestReleaseInfo T (artifactPaths c) "win" target ≠ None) →
  (entry.1 = "mac" →
   getLatestReleaseInfo T (artifactPaths c) "mac" "zip" ≠ None) →
  buildPlatform T H P c o buildFiles entry w
  = (Ok (buildFiles ++ helpersOf P entry), w).
Proof.
  intros Hindex Hw Hm. unfold buildPlatform, helpersOf. cbv zeta.
  destruct (String.eqb_spec entry.1 "win") as [Hwin|Hwin].
  - destruct (Hw Hwin) as (target & Hhead & Hinfo).
    rewrite Hhead, bind_assoc, required_Some_bind. rewrite Hwin.
    rewrite bind_assoc.
    rewrite (bind_Ok_eq _ _ _ _ _
               (deltasFor_first_release c o "win" target w Hindex Hinfo)).
    change ("win" =? "mac")%string with false.
    rewrite app_nil_r. reflexivity.
  - destruct (String.eqb_spec entry.1 "mac") as [Hmac|Hmac].
    + rewrite Hmac.
      unfold mbind at 1, M_bind at 1, bind at 1.
      cbv [mret M_ret ret]. cbv iota beta.
      rewrite (bind_Ok_eq _ _ _ _ _
                 (deltasFor_first_release c o "mac" "zip" w Hindex
                    (Hm Hmac))).
      reflexivity.
    + rewrite app_nil_r. reflexivity.
Qed.

(** X21. When the release index has no prior release (or cannot be
    read), a build in which every Windows and macOS platform has its
    latest artifact produces no delta: it writes and removes no file,
    downloads nothing and runs no tool (the cache directories that
    [createAllDeltas] ensures first hold no file, and the disk of the
    model, which holds files only, does not show them); what it
    returns is the pair of macOS helper binaries, once for each macOS
    platform, and nothing for Windows. *)
Theorem first_release_ships_only_mac_helpers
    (c : Context) (o : DeltaBuilder.Options) (w : World Event) :
  (∀ platform target,
     DeltaBuilder.getPreviousReleases o platform target = None
     ∨ DeltaBuilder.getPreviousReleases o platform target = Some []) →
  Forall (fun entry =>
            (entry.1 = "win" →
             ∃ target, head entry.2 = Some target
               ∧ getLatestReleaseInfo T (artifactPaths c) "win" target
                 ≠ None)
            ∧ (entry.1 = "mac" →
               getLatestReleaseInfo T (artifactPaths c) "mac" "zip" ≠ None))
    (platformToTargets c) →
  build T H P c o w
  = (Ok (concat (map (helpersOf P) (platformToTargets c))), w).
Proof.
  intros Hindex. unfold build.
  change (concat (map (helpersOf P) (platformToTargets c)))
    with ([] ++ concat (map (helpersOf P) (platformToTargets c))).
  generalize (@nil string) as buildFiles.
  induction (platformToTargets c) as [|entry l IH];
    intros buildFiles Hall.
  { cbn [map concat]. by rewrite app_nil_r. }
  apply Forall_cons in Hall as [[Hw Hm] Hall].
  rewrite foldM_cons.
  rewrite (bind_Ok_eq _ _ _ _ _
             (buildPlatform_first_release c o _ _ w Hindex Hw Hm)).
  rewrite (IH _ Hall). cbn [map concat]. by rewrite app_assoc.
Qed.

Lemma buildPlatform_unsupported c o buildFiles targets w :
  (∀ target, head targets = Some target →
     target ≠ "nsis" ∧ target ≠ "nsis-web") →
  buildPlatform T H P c o buildFiles ("win", targets) w
  = (Throw "TypeError", w).
Proof.
  intros Htarget. unfold buildPlatform. cbv zeta. cbn [fst snd].
  change ("win" =? "win")%string with true. cbv iota.
  destruct (head targets) as [target|] eqn:Hhead; [|done].
  rewrite bind_assoc, required_Some_bind. unfold deltasFor.
  rewrite (getLatestReleaseInfo_unsupported (artifactPaths c) "win" target);
    [done| |done].
  intros _. by apply Htarget.
Qed.

Lemma foldM_unsupported c o before targets rest buildFiles w :
  (∀ target, head targets = Some target →
     target ≠ "nsis" ∧ target ≠ "nsis-web") →
  foldM (before ++ ("win", targets) :: rest) buildFiles
    (buildPlatform T H P c o) w
  = match foldM before buildFiles (buildPlatform T H P c o) w with
    | (Ok _, w') => (Throw "TypeError", w')
    | other => other
    end.
Proof.
  intros Htarget. revert buildFiles w.
  induction before as [|entry before IH]; intros buildFiles w.
  - rewrite app_nil_l, foldM_cons. cbn [foldM]. unfold mbind, M_bind, bind.
    by rewrite (buildPlatform_unsupported c o buildFiles targets w Htarget).
  - rewrite <- app_comm_cons, !foldM_cons. unfold mbind, M_bind, bind.
    destruct (buildPlatform T H P c o buildFiles entry w) as [[files| |] w1];
      [apply IH|done..].
Qed.

(** X22. A Windows platform whose first target is neither [nsis] nor
    [nsis-web] (or that has no target at all) makes the whole build
    fail, wherever it stands among the platforms: the platforms before
    it are built as usual, and when they succeed the build throws a
    TypeError at the Windows platform, for which nothing has been
    done; the platforms after it are not built, and the build never
    returns a list of files. *)
Theorem unsupported_windows_target_throws
    (c : Context) (o : DeltaBuilder.Options) (w : World Event)
    (before : list (string * list string)) (targets : list string)
    (rest : list (string * list string)) :
  platformToTargets c = before ++ ("win", targets) :: rest →
  (∀ target, head targets = Some target →
     target ≠ "nsis" ∧ target ≠ "nsis-web") →
  build T H P c o w
  = match foldM before [] (buildPlatform T H P c o) w with
    | (Ok _, w') => (Throw "TypeError", w')
    | other => other
    end
  ∧ ∀ buildFiles, (build T H P c o w).1 ≠ Ok buildFiles.
Proof.
  intros Hplat Htarget.
  assert (Hbuild : build T H P c o w
                   = match foldM before [] (buildPlatform T H P c o) w with
                     | (Ok _, w') => (Throw "TypeError", w')
                     | other => other
                     end).
  { unfold build. rewrite Hplat. by apply foldM_unsupported. }
  split; [exact Hbuild|].
  intros buildFiles. rewrite Hbuild.
  by destruct (foldM before [] (buildPlatform T H P c o) w) as [[?| |] ?].
Qed.

End TopLevel.

(* --------------------------------------------------------------------- *)
(** *** The feed providers and the host URL *)
(* --------------------------------------------------------------------- *)

Section HostURL.
Import Url UrlSpec Providers Lifecycle.

Lemma newBaseUrl_fixed u b :
  newBaseUrl u = Some b → newBaseUrl b = Some b.
Proof.
  rewrite newBaseUrl_unfold.
  destruct (parse u) as [x|] eqn:Hparse; [|done]. intros [= <-].
  pose proof (parse_wellFormed _ _ Hparse) as Hwf.
  pose proof (withTrailingSlash_wellFormed _ Hwf) as Hwf'.
  rewrite newBaseUrl_unfold, (parse_href _ Hwf'). cbn.
  by rewrite withTrailingSlash_idem.
Qed.

Lemma plainName_chars n :
  plainName n = true →
  n ≠ "" ∧ Js.hasChar "/" n = false ∧ Js.hasChar "?" n = false
  ∧ Js.hasChar "#" n = false.
Proof.
  unfold plainName. rewrite !andb_true_iff, !negb_true_iff.
  intros ((((((Hne & _) & _) & Hs) & Hq) & Hh) & Hc).
  split_and!; [|done..]. by apply String.eqb_neq.
Qed.

Lemma releaseDownload_href r tag :
  href (releaseDownload r tag) = releaseDownloadURL r tag.
Proof.
  unfold href, releaseDownload, releaseDownloadURL.
  cbn [scheme host pathname query fragment optPart].
  rewrite !sapp_nil_r. reflexivity.
Qed.

Lemma safeName_plainName n : safeName n = true → plainName n = true.
Proof. by intros [? _]%andb_true_iff. Qed.

Lemma releaseDownload_wellFormed r tag :
  safeName (owner r) = true → safeName (repo r) = true →
  safeName tag = true →
  wellFormed (releaseDownload r tag).
Proof.
  intros (_ & _ & Ho1 & Ho2)%safeName_plainName%plainName_chars
         (_ & _ & Hr1 & Hr2)%safeName_plainName%plainName_chars
         (_ & _ & Ht1 & Ht2)%safeName_plainName%plainName_chars.
  unfold wellFormed, releaseDownload.
  cbn [scheme host pathname query fragment].
  split_and!; try done.
  - change ("/" +:+ ?a) with (String "/" a). cbn [Js.hasChar Ascii.eqb].
    cbn. rewrite !hasChar_app, Ho2, Hr2, Ht2. reflexivity.
  - change ("/" +:+ ?a) with (String "/" a). cbn [Js.hasChar Ascii.eqb].
    cbn. rewrite !hasChar_app, Ho1, Hr1, Ht1. reflexivity.
  - right. apply prefix_app.
Qed.

(** The release-download URL of a tag is a base URL as [newBaseUrl]
    makes them, and a file name of letters, digits, hyphens, underscores
    and dots resolves below it. *)
Lemma releaseDownloadURL_base r tag :
  safeName (owner r) = true → safeName (repo r) = true →
  safeName tag = true →
  newBaseUrl (releaseDownloadURL r tag) = Some (releaseDownloadURL r tag)
  ∧ ∀ name, safeName name = true →
      newUrlFromBase name (releaseDownloadURL r tag)
      = Some (releaseDownloadURL r tag +:+ name).
Proof.
  intros Ho Hr Ht.
  pose proof (releaseDownload_wellFormed r tag Ho Hr Ht) as Hwf.
  pose proof (parse_href _ Hwf) as Hparse.
  rewrite releaseDownload_href in Hparse.
  assert (Hends : Js.endsWith "/" (pathname (releaseDownload r tag)) = true).
  { unfold releaseDownload. cbn [pathname]. rewrite <- !sapp_assoc.
    apply endsWith_app. }
  split.
  - rewrite newBaseUrl_unfold, Hparse. cbn [fmap option_fmap option_map].
    unfold withTrailingSlash. rewrite Hends. cbn [negb].
    by rewrite releaseDownload_href.
  - intros name Hname%safeName_plainName. unfold newUrlFromBase.
    rewrite (plainName_hasScheme _ Hname), Hparse.
    rewrite resolveRelative_plainName; [|done|done|done].
    cbn [fmap option_fmap option_map]. f_equal.
    unfold href, releaseDownload, releaseDownloadURL.
    cbn [scheme host pathname query fragment optPart].
    rewrite !sapp_nil_r, !sapp_assoc. reflexivity.
Qed.

(** X23. [getGithubFeedURL] never rejects. When the API answers the tag
    of the latest release, and owner, repository and tag are made of
    letters, digits, hyphens, underscores and dots, the feed is the
    release-download URL of that tag, which is a base URL already (it
    ends with a slash, so [newBaseUrl] leaves it as it is), and a file
    name made of the same characters resolves to the file of that name
    in the release. When the API cannot be reached or answers no tag,
    the feed is [null]. *)
Theorem github_feed_is_the_release_download_url
    (latest : string → option (option string)) (r : RepoInfo) :
  (∀ tag,
     latest (releasesApi r) = Some (Some tag) →
     safeName (owner r) = true → safeName (repo r) = true →
     safeName tag = true →
     getGithubFeedURL latest r = Some (releaseDownloadURL r tag)
     ∧ newBaseUrl (releaseDownloadURL r tag)
       = Some (releaseDownloadURL r tag)
     ∧ ∀ name, safeName name = true →
         newUrlFromBase name (releaseDownloadURL r tag)
         = Some (releaseDownloadURL r tag +:+ name))
  ∧ (latest (releasesApi r) = None ∨ latest (releasesApi r) = Some None →
     getGithubFeedURL latest r = None).
Proof.
  split.
  - intros tag Hlatest Ho Hr Ht.
    destruct (releaseDownloadURL_base r tag Ho Hr Ht) as [Hbase Hname].
    split_and!; [|done..].
    unfold getGithubFeedURL, getLatestReleaseTagName. rewrite Hlatest.
    apply safeName_plainName, plainName_chars in Ht as (Hne & _).
    apply String.eqb_neq in Hne.
    cbn [truthy]. rewrite Hne. cbn [negb truthy]. by rewrite Hne.
  - unfold getGithubFeedURL, getLatestReleaseTagName.
    by intros [-> | ->].
Qed.



(** X25. [stripTrailingSlash] removes one trailing slash, and one
    only: a string that ends with a slash is cut by that one character,
    and any other string is returned as it is. *)
Theorem stripTrailingSlash_removes_one_slash (s : string) :
  stripTrailingSlash (s +:+ "/") = s
  ∧ (Js.endsWith "/" s = false → stripTrailingSlash s = s).
Proof.
  split.
  - unfold stripTrailingSlash. rewrite endsWith_app.
    induction s as [|c s IH]; [done|].
    rewrite sapp_cons. cbn [dropLast].
    destruct (s +:+ "/") as [|c' s'] eqn:Hs.
    + destruct s; discriminate Hs.
    + by rewrite IH.
  - unfold stripTrailingSlash. by intros ->.
Qed.

Lemma parse_without_colon feed :
  Js.hasChar ":" feed = false → parse feed = None.
Proof.
  intros Hcolon. unfold parse.
  destruct (Js.splitAt "#" feed) as [s1 f] eqn:H1.
  destruct (Js.splitAt "?" s1) as [s2 q] eqn:H2.
  apply splitAt_spec in H1 as [_ ->].
  apply splitAt_spec in H2 as [_ ->].
  rewrite !hasChar_app_false in Hcolon.
  destruct Hcolon as [[Hs2 _] _]. by rewrite (splitAt_none _ _ Hs2).
Qed.

Lemma guessHostURL_unfold N c :
  guessHostURL N (Some c)
  = if negb (truthy (providerURL N c)) then Ok None
    else match newBaseUrl (default "" (providerURL N c)) with
         | Some u => Ok (Some u)
         | None => Throw "TypeError"
         end.
Proof. reflexivity. Qed.

(** X26. Without an [app-update.yml], and when the provider of the
    configuration yields nothing (or throws, which the [try] catches),
    [guessHostURL] answers [null]. When the provider yields a URL in
    normalised form, the answer is that URL with a slash at the end of
    its path, which is a base URL as [newBaseUrl] makes them
    ([newBaseUrl] leaves it as it is). And a provider that yields a
    non-empty string without any colon, which is no URL, makes the call
    throw: the [newBaseUrl] call stands outside the [try]. *)
Theorem guessed_host_is_a_base_url (N : Net) (c : Config) :
  guessHostURL N None = Ok None
  ∧ (truthy (providerURL N c) = false → guessHostURL N (Some c) = Ok None)
  ∧ (∀ feed x,
       providerURL N c = Some feed → parse feed = Some x →
       Normalised.safeURL x = true →
       guessHostURL N (Some c) = Ok (Some (href (withTrailingSlash x)))
       ∧ newBaseUrl (href (withTrailingSlash x))
         = Some (href (withTrailingSlash x)))
  ∧ (∀ feed,
       providerURL N c = Some feed → feed ≠ "" →
       Js.hasChar ":" feed = false →
       guessHostURL N (Some c) = Throw "TypeError").
Proof.
  split_and!; [done|..].
  - intros Hnone. by rewrite guessHostURL_unfold, Hnone.
  - intros feed x Hfeed Hparse _.
    assert (Hbase : newBaseUrl feed = Some (href (withTrailingSlash x))).
    { by rewrite newBaseUrl_unfold, Hparse. }
    split; [|by eapply newBaseUrl_fixed].
    rewrite guessHostURL_unfold, Hfeed.
    assert (feed ≠ "") as Hne%String.eqb_neq by (by intros ->).
    cbn [truthy]. rewrite Hne. cbn [negb default from_option id].
    by rewrite Hbase.
  - intros feed Hfeed Hne%String.eqb_neq Hcolon.
    rewrite guessHostURL_unfold, Hfeed.
    cbn [truthy]. rewrite Hne. cbn [negb default from_option id].
    by rewrite newBaseUrl_unfold, (parse_without_colon _ Hcolon).
Qed.


End HostURL.

(* --------------------------------------------------------------------- *)
(** *** Applying an update *)
(* --------------------------------------------------------------------- *)

Section InstallFacts.
Import Updater ClientSpec Lifecycle.
Variable A : App.

(** The disk once the attempt record has been written. *)
Lemma writeAutoUpdateDetails_run isDelta attemptedVersion w :
  writeAutoUpdateDetails A isDelta attemptedVersion w
  = (Ok tt,
     mkWorld
       (match platform (env A) with
        | Darwin => files w
        | _ =>
            if canPersist A
            then <[updateDetailsJSON A
                   := encode A (attemptRecord A isDelta attemptedVersion)]>
                   (files w)
            else files w
        end)
       (trace w)).
Proof.
  unfold writeAutoUpdateDetails.
  destruct (platform (env A)); [by destruct w|..];
    by destruct (canPersist A), w.
Qed.

(** X28. Outside macOS, [applyDeltaUpdate] closes the windows and runs
    the patch installer; when the installer fails, the application is
    not quit: the call ends in a TypeError (the [catch] reads
    [this.log], which does not exist) with the windows closed, the quit
    listener still in place and [app.quit] not called. When the
    installer succeeds, the listener is removed and the application
    quits. *)
Theorem failed_patch_leaves_the_app_running
    (deltaPath version : string) (w : World Step) :
  platform (env A) ≠ Darwin →
  applyDeltaUpdate A deltaPath version w
  = (if execSync A (patchCommand A deltaPath "1")
     then Ok tt else Throw "TypeError",
     mkWorld (files (writeAutoUpdateDetails A true version w).2)
       (trace w
        ++ [StepSafeQuit; StepExecSync (patchCommand A deltaPath "1")]
        ++ (if execSync A (patchCommand A deltaPath "1")
            then [StepRemoveQuitListener; StepAppQuit] else []))).
Proof.
  intros Hplat. unfold applyDeltaUpdate.
  rewrite (bind_Ok_eq _ _ _ _ _ (writeAutoUpdateDetails_run _ _ _)).
  rewrite writeAutoUpdateDetails_run. cbn [snd files].
  unfold ensureSafeQuitAndInstall. rewrite emit_bind. cbn [files trace].
  unfold try_catch, runSync.
  destruct (platform (env A)); [done|..].
  all: rewrite bind_assoc, emit_bind; cbn [files trace].
  all: destruct (execSync A (patchCommand A deltaPath "1"));
    cbv [mbind M_bind bind mret M_ret ret throw emit files trace];
    by rewrite <- !app_assoc.
Qed.

Lemma applyUpdate_files version forceRunAfter w :
  files (applyUpdate A version forceRunAfter w).2
  = files (writeAutoUpdateDetails A false version w).2.
Proof.
  unfold applyUpdate.
  rewrite (bind_Ok_eq _ _ _ _ _ (writeAutoUpdateDetails_run _ _ _)).
  rewrite writeAutoUpdateDetails_run. cbn [snd files].
  unfold ensureSafeQuitAndInstall. rewrite emit_bind.
  by destruct (platform (env A)).
Qed.

Lemma applyDeltaUpdate_files deltaPath version w :
  files (applyDeltaUpdate A deltaPath version w).2
  = files (writeAutoUpdateDetails A true version w).2.
Proof.
  unfold applyDeltaUpdate.
  rewrite (bind_Ok_eq _ _ _ _ _ (writeAutoUpdateDetails_run _ _ _)).
  rewrite writeAutoUpdateDetails_run. cbn [snd files].
  unfold ensureSafeQuitAndInstall. rewrite emit_bind. cbn [files trace].
  unfold try_catch, runSync, runMacUpdater.
  destruct (platform (env A)).
  - reflexivity.
  - rewrite bind_assoc, emit_bind.
    by destruct (execSync A (patchCommand A deltaPath "1")).
  - rewrite bind_assoc, emit_bind.
    by destruct (execSync A (patchCommand A deltaPath "1")).
Qed.

(** Whether or not the record could be written, the installation
    starts: the windows are closed first. *)
Lemma quitAndInstall_starts i w :
  platform (env A) ≠ Darwin →
  ∃ steps,
    trace (quitAndInstall A (Some i) w).2
    = trace w ++ StepSafeQuit :: steps.
Proof.
  intros Hplat. unfold quitAndInstall. destruct (delta i).
  - unfold applyDeltaUpdate.
    rewrite (bind_Ok_eq _ _ _ _ _ (writeAutoUpdateDetails_run _ _ _)).
    unfold ensureSafeQuitAndInstall. rewrite emit_bind. cbn [files trace].
    unfold try_catch, runSync.
    destruct (platform (env A)); [done|..].
    all: rewrite bind_assoc, emit_bind; cbn [files trace].
    all: destruct (execSync A (patchCommand A (deltaPath i) "1"));
      cbv [mbind M_bind bind mret M_ret ret throw emit files trace snd];
      rewrite <- !app_assoc; by eexists.
  - unfold applyUpdate.
    rewrite (bind_Ok_eq _ _ _ _ _ (writeAutoUpdateDetails_run _ _ _)).
    unfold ensureSafeQuitAndInstall. rewrite emit_bind. cbn [files trace].
    destruct (platform (env A)); [done|..];
      cbv [emit files trace snd]; rewrite <- !app_assoc; by eexists.
Qed.

(** X29. Outside macOS, [quitAndInstall] writes the attempt record
    before it installs, delta or full. When the write succeeds, the
    record is on disk however the installation ends, and it carries
    the version that is running; so that, should the application come
    up again at that version, the next [update-available] event is
    answered by the full update and by nothing else. When the write
    fails, the failure is swallowed: the disk is left as it is, and
    the installation goes on without a record. On macOS no record is
    written: the disk is left as it is. *)
Theorem attempt_record_guards_the_next_cycle
    (i : Downloaded) (w : World Step)
    (fuel : nat) (info : UpdateInfo) (w2 : World Action) :
  (platform (env A) ≠ Darwin →
   canPersist A = true →
   appVersion
     <$> decode A (encode A (attemptRecord A (delta i) (newVersion i)))
   = Some (getVersion (env A)) →
   files (quitAndInstall A (Some i) w).2
   = <[updateDetailsJSON A
       := encode A (attemptRecord A (delta i) (newVersion i))]> (files w)
   ∧ onUpdateAvailable (envOn A (files (quitAndInstall A (Some i) w).2))
       fuel info w2
     = (Ok tt,
        mkWorld (files w2)
          (trace w2
           ++ ActEmit "update-available"
              :: (if updaterWindow (env A)
                  then [ActDispatch "update-available"] else [])
           ++ [ActDownloadUpdate])))
  ∧ (platform (env A) ≠ Darwin →
     canPersist A = false →
     files (quitAndInstall A (Some i) w).2 = files w
     ∧ ∃ steps,
         trace (quitAndInstall A (Some i) w).2
         = trace w ++ StepSafeQuit :: steps)
  ∧ (platform (env A) = Darwin →
     files (quitAndInstall A (Some i) w).2 = files w).
Proof.
  assert (Hfiles : files (quitAndInstall A (Some i) w).2
                   = files (writeAutoUpdateDetails A (delta i)
                              (newVersion i) w).2).
  { unfold quitAndInstall. destruct (delta i);
      [apply applyDeltaUpdate_files|apply applyUpdate_files]. }
  rewrite Hfiles, writeAutoUpdateDetails_run. cbn [snd files]. split_and!.
  - intros Hplat Hpersist Hround. rewrite Hpersist.
    assert (Hread : ∃ d, readUpdateDetails
                           (envOn A
                              (<[updateDetailsJSON A
                                 := encode A (attemptRecord A (delta i)
                                                (newVersion i))]>
                                 (files w)))
                         = Some d
                         ∧ appVersion d = getVersion (env A)).
    { cbn [envOn readUpdateDetails]. rewrite lookup_insert_eq.
      cbn [mbind option_bind].
      destruct (decode A _) as [d|]; [|done].
      exists d. split; [done|]. by injection Hround. }
    destruct Hread as (d & Hread & Hsame).
    assert (Hgoal : ∀ fs,
              platform (env A) ≠ Darwin →
              (match platform (env A) with
               | Darwin => fs
               | _ => <[updateDetailsJSON A
                        := encode A (attemptRecord A (delta i)
                                       (newVersion i))]> (files w)
               end)
              = <[updateDetailsJSON A
                  := encode A (attemptRecord A (delta i) (newVersion i))]>
                  (files w)).
    { intros fs Hp. by destruct (platform (env A)). }
    rewrite (Hgoal _ Hplat). split; [done|].
    unfold onUpdateAvailable.
    rewrite emit_bind. unfold dispatchEvent. rewrite Hread.
    change (getVersion (envOn A _)) with (getVersion (env A)).
    rewrite Hsame, String.eqb_refl.
    change (updaterWindow (envOn A _)) with (updaterWindow (env A)).
    unfold fullUpdate. destruct (updaterWindow (env A)).
    + rewrite emit_bind. cbv [emit files trace]. by rewrite <- !app_assoc.
    + rewrite mret_bind. cbv [emit files trace]. by rewrite <- !app_assoc.
  - intros Hplat Hpersist. rewrite Hpersist.
    split; [by destruct (platform (env A))|].
    by apply quitAndInstall_starts.
  - by intros ->.
Qed.

End InstallFacts.

(* --------------------------------------------------------------------- *)
(** *** The further properties on concrete inputs *)
(* --------------------------------------------------------------------- *)

Section CycleWitnesses.
Import Updater ClientSpec Cycle.

Lemma delta_ready_only_for_verified_file_witness :
  "2.0.0" = version info
  ∧ verified (env (Some "good patch") None)
      "/local/app-updater/deltas/App-1.1.0-to-2.0.0-delta.exe"
      (files (doSmartDownload (env (Some "good patch") None) 5 info start).2).
Proof.
  apply (delta_ready_only_for_verified_file (env (Some "good patch") None)
           info 5 start
           (doSmartDownload (env (Some "good patch") None) 5 info start).2
           (doSmartDownload (env (Some "good patch") None) 5 info start).1
           [ActFetch "https://feed.example/delta-win.json";
            ActHttpGet true
              "https://feed.example/App-1.1.0-to-2.0.0-delta.exe";
            ActHttpGet true "https://cdn.example/patch";
            ActUpdateDownloaded
              "/local/app-updater/deltas/App-1.1.0-to-2.0.0-delta.exe"
              "2.0.0"]).
  - apply surjective_pairing.
  - vm_compute. reflexivity.
  - do 3 apply list_elem_of_further. apply list_elem_of_here.
Defined.

Lemma cycle_decides_iff_it_returns_witness :
  ∃ t,
    trace (doSmartDownload (env (Some "bad patch") None) 5 info start).2
    = trace start ++ t
    ∧ ((doSmartDownload (env (Some "bad patch") None) 5 info start).1 = Ok tt →
       decided (env (Some "bad patch") None) info t
         (files (doSmartDownload (env (Some "bad patch") None) 5 info
                   start).2))
    ∧ ((doSmartDownload (env (Some "bad patch") None) 5 info start).1 ≠ Ok tt →
       Forall quiet t).
Proof.
  apply (cycle_decides_iff_it_returns (env (Some "bad patch") None) info 5
           start).
  - vm_compute. reflexivity.
  - apply surjective_pairing.
Defined.

Lemma no_delta_requests_full_update_witness :
  doSmartDownload (Lifecycle.env (Lifecycle.app Win32 true)) 5 info start
  = (Ok tt,
     mkWorld (files start)
       (trace start
        ++ [ActFetch "https://feed.example/delta-win.json";
            ActDownloadUpdate])).
Proof.
  apply (no_delta_requests_full_update
           (Lifecycle.env (Lifecycle.app Win32 true)) info 5 start
           "https://feed.example/delta-win.json").
  - vm_compute. reflexivity.
  - vm_compute. reflexivity.
  - vm_compute. exact I.
Defined.

Lemma cached_patch_is_reused_witness :
  doSmartDownload (env None None) 5 info patched
  = (Ok tt,
     mkWorld (files patched)
       (trace patched
        ++ [ActFetch "https://feed.example/delta-win.json";
            ActUpdateDownloaded
              (Fs.join (deltaHolderPath (env None None))
                 "App-1.1.0-to-2.0.0-delta.exe")
              (version info)])).
Proof.
  apply (cached_patch_is_reused (env None None) info 5 patched
           "https://feed.example/delta-win.json"
           (Json.mkEntry (Some "App-1.1.0-to-2.0.0-delta.exe")
              (Some "sha256:good patch"))
           "App-1.1.0-to-2.0.0-delta.exe" "good patch").
  - vm_compute. reflexivity.
  - discriminate.
  - vm_compute. reflexivity.
  - vm_compute. reflexivity.
  - reflexivity.
  - vm_compute. reflexivity.
  - vm_compute. discriminate.
  - vm_compute. discriminate.
  - vm_compute. reflexivity.
Defined.

Lemma null_host_url_throws_before_anything_witness :
  doSmartDownload hopsEnv 5 info start = (Throw "TypeError", start).
Proof.
  apply (null_host_url_throws_before_anything hopsEnv info 5 start).
  - vm_compute. reflexivity.
  - reflexivity.
Defined.

Lemma falsy_channel_requests_nothing_witness :
  onUpdateAvailable zeroChannelEnv 5 info start
  = (Ok tt,
     mkWorld (files start)
       (trace start
        ++ ActEmit "update-available"
           :: (if updaterWindow zeroChannelEnv
               then [ActDispatch "update-available"] else []))).
Proof.
  apply (falsy_channel_requests_nothing zeroChannelEnv info 5 start).
  - vm_compute. reflexivity.
  - intros d Hd. vm_compute in Hd. discriminate Hd.
Defined.

Lemma download_outcome_drives_fallback_witness :
  (∀ e w1,
     downloadFile (env None None) 5
       "https://feed.example/App-1.1.0-to-2.0.0-delta.exe"
       "/local/app-updater/deltas/App-1.1.0-to-2.0.0-delta.exe"
       (resolveDelta (env None None) 5 info start).2
     = (Throw e, w1) →
     doSmartDownload (env None None) 5 info start
     = (Ok tt, mkWorld (files w1) (trace w1 ++ [ActDownloadUpdate])))
  ∧ (∀ w1,
       downloadFile (env None None) 5
         "https://feed.example/App-1.1.0-to-2.0.0-delta.exe"
         "/local/app-updater/deltas/App-1.1.0-to-2.0.0-delta.exe"
         (resolveDelta (env None None) 5 info start).2
       = (Pending, w1) →
       doSmartDownload (env None None) 5 info start = (Pending, w1)).
Proof.
  apply (download_outcome_drives_fallback (env None None) info 5 start
           (resolveDelta (env None None) 5 info start).2
           "https://feed.example/App-1.1.0-to-2.0.0-delta.exe"
           "/local/app-updater/deltas/App-1.1.0-to-2.0.0-delta.exe"
           "sha256:good patch").
  vm_compute. reflexivity.
Defined.

(** The patch behind a redirect to a target that answers 404: the cycle
    is left unsettled, and no full update is requested. *)
Example unsettled_download_blocks_the_fallback :
  doSmartDownload (env None None) 5 info start
  = (Pending,
     mkWorld ∅
       [ActFetch "https://feed.example/delta-win.json";
        ActHttpGet true "https://feed.example/App-1.1.0-to-2.0.0-delta.exe";
        ActHttpGet true "https://cdn.example/patch"]).
Proof. vm_compute. reflexivity. Qed.

Lemma mac_helper_failure_falls_back_witness :
  doSmartDownload macEnv 5 info start
  = (Ok tt,
     mkWorld
       (files
          (downloadHelpers macEnv 5
             (mkWorld (files start)
                (trace start
                 ++ [ActFetch "https://feed.example/delta-mac.json"]))).2)
       (trace
          (downloadHelpers macEnv 5
             (mkWorld (files start)
                (trace start
                 ++ [ActFetch "https://feed.example/delta-mac.json"]))).2
        ++ [ActDownloadUpdate])).
Proof.
  apply (mac_helper_failure_falls_back macEnv info 5 start _
           "https://feed.example/delta-mac.json" "Network error"
           (Json.mkEntry (Some "App-1.1.0-to-2.0.0-delta.exe")
              (Some "sha256:good patch"))).
  - vm_compute. reflexivity.
  - reflexivity.
  - vm_compute. reflexivity.
  - vm_compute. reflexivity.
  - reflexivity.
  - vm_compute. discriminate.
  - vm_compute. reflexivity.
Defined.

(** On macOS, with the helper binaries missing from the feed: the
    manifest is fetched, the first helper is asked for, and the full
    update is requested. *)
Example missing_mac_helpers_go_full :
  doSmartDownload macEnv 5 info start
  = (Ok tt,
     mkWorld ∅
       [ActFetch "https://feed.example/delta-mac.json";
        ActHttpGet true "https://feed.example/mac-updater";
        ActDownloadUpdate]).
Proof. vm_compute. reflexivity. Qed.

Lemma redirect_chain_is_followed_witness :
  downloadFile hopsEnv 2 "https://a.example/f" "/local/f" start
  = (Ok tt,
     mkWorld (<["/local/f" := "payload"]> (files start))
       (trace start
        ++ gets ["https://a.example/f"; "https://b.example/f";
                 "http://c.example/f"])).
Proof.
  apply (redirect_chain_is_followed hopsEnv
           ["https://b.example/f"; "http://c.example/f"]
           "https://a.example/f" "payload" "/local/f" 2 start).
  - split; [|split].
    + exists 301%Z, (BodyComplete ""). split; [reflexivity|by left].
    + exists 302%Z, (BodyComplete ""). split; [reflexivity|by right].
    + exists None. reflexivity.
  - reflexivity.
  - simpl. lia.
Defined.

Lemma bad_redirect_never_settles_witness :
  (respond hopsEnv (Js.startsWith "https" "https://loop.example/f")
     "https://loop.example/f"
   = Responded 302 (Some "https://loop.example/f") (BodyComplete "") →
   ∀ fuel,
     downloadFile hopsEnv fuel "https://loop.example/f" "/local/f" start
     = (Pending,
        mkWorld (files start)
          (trace start
           ++ replicate (S fuel)
                (ActHttpGet (Js.startsWith "https" "https://loop.example/f")
                   "https://loop.example/f"))))
  ∧ (respond hopsEnv (Js.startsWith "https" "https://loop.example/f")
       "https://loop.example/f"
     = Responded 302 None (BodyComplete "") →
     ∀ fuel,
       downloadFile hopsEnv fuel "https://loop.example/f" "/local/f" start
       = (Pending, requested "https://loop.example/f" start)).
Proof.
  apply (bad_redirect_never_settles hopsEnv "https://loop.example/f"
           "/local/f" 302 (BodyComplete "") start).
  by right.
Defined.

Lemma download_touches_only_its_path_witness :
  (∀ q, q ≠ "/local/f" →
     files (downloadFile hopsEnv 3 "https://broken.example/f" "/local/f"
              (mkWorld (<["/local/f" := "old"]> ∅) [])).2 !! q
     = files (mkWorld (<["/local/f" := "old"]> ∅) ([] : list Action)) !! q)
  ∧ ((downloadFile hopsEnv 3 "https://broken.example/f" "/local/f"
        (mkWorld (<["/local/f" := "old"]> ∅) [])).1 ≠ Ok tt →
     files (downloadFile hopsEnv 3 "https://broken.example/f" "/local/f"
              (mkWorld (<["/local/f" := "old"]> ∅) [])).2 !! "/local/f"
     = None
     ∨ files (downloadFile hopsEnv 3 "https://broken.example/f" "/local/f"
                (mkWorld (<["/local/f" := "old"]> ∅) [])).2 !! "/local/f"
       = files (mkWorld (<["/local/f" := "old"]> ∅) ([] : list Action))
           !! "/local/f").
Proof.
  apply (download_touches_only_its_path hopsEnv 3
           "https://broken.example/f" "/local/f").
  apply surjective_pairing.
Defined.

End CycleWitnesses.

Section BuildWitnesses.
Import Builder BuildScenario RunSpec.

Lemma previous_releases_are_kept_assets_witness :
  length (ReleaseIndex.getPreviousReleases ReleaseIndex.scenario "win" "nsis")
  ≤ 3
  ∧ ∀ r,
      r ∈ ReleaseIndex.getPreviousReleases ReleaseIndex.scenario "win" "nsis" →
      ∃ release asset,
        release ∈ ReleaseIndex.scenario
        ∧ asset ∈ ReleaseIndex.assets release
        ∧ ReleaseIndex.version r = ReleaseIndex.tag_name release
        ∧ ReleaseIndex.url r = ReleaseIndex.browser_download_url asset
        ∧ Js.endsWith (ReleaseIndex.ext "win" "nsis") (ReleaseIndex.url r)
          = true
        ∧ Js.includes "untagged" (ReleaseIndex.url r) = false
        ∧ Js.endsWith "-delta.exe" (ReleaseIndex.url r) = false
        ∧ Js.includes "-Setup" (ReleaseIndex.url r) = false.
Proof.
  apply (previous_releases_are_kept_assets ReleaseIndex.scenario "win" "nsis").
Defined.

Lemma download_is_cached_after_first_success_witness :
  "/cache/data/App-1.0.0.exe" = "/cache/data/App-1.0.0.exe"
  ∧ Fs.existsSync
      (files (downloadFileIfNotExists tools "https://h/App-1.0.0.exe"
                "/cache/data/App-1.0.0.exe" cold).2)
      "/cache/data/App-1.0.0.exe" = true
  ∧ ∀ url',
      downloadFileIfNotExists tools url' "/cache/data/App-1.0.0.exe"
        (downloadFileIfNotExists tools "https://h/App-1.0.0.exe"
           "/cache/data/App-1.0.0.exe" cold).2
      = (Ok "/cache/data/App-1.0.0.exe",
         (downloadFileIfNotExists tools "https://h/App-1.0.0.exe"
            "/cache/data/App-1.0.0.exe" cold).2).
Proof.
  apply (download_is_cached_after_first_success tools
           "https://h/App-1.0.0.exe" "/cache/data/App-1.0.0.exe"
           "/cache/data/App-1.0.0.exe" cold).
  vm_compute. reflexivity.
Defined.

Lemma failed_download_poisons_the_cache_witness :
  ∃ e w1,
    downloadFileIfNotExists flakyTools "https://h/App-1.0.0.exe"
      "/cache/data/App-1.0.0.exe" cold
    = (Throw e, w1)
    ∧ files w1 !! "/cache/data/App-1.0.0.exe" = Some ""
    ∧ ∀ url',
        downloadFileIfNotExists flakyTools url' "/cache/data/App-1.0.0.exe"
          w1
        = (Ok "/cache/data/App-1.0.0.exe", w1).
Proof.
  apply (failed_download_poisons_the_cache flakyTools
           "https://h/App-1.0.0.exe" "/cache/data/App-1.0.0.exe" "" cold).
  - vm_compute. reflexivity.
  - reflexivity.
Defined.

Lemma installer_build_ignores_exit_status_witness :
  let args :=
    getNSISArgs
      (defines (options "win" oneRelease) "/out/App-delta.exe"
         "/cache/deltas/missing.delta" "missing.delta")
    ++ [getNSISScript host] in
  build tools host (options "win" oneRelease) "/out/App-delta.exe"
    "/cache/deltas/missing.delta" "missing.delta" withCompiler
  = match spawnSync tools (makeNSISPath host) args (files withCompiler) with
    | SpawnReturn status after =>
        (Ok (Some "/out/App-delta.exe"),
         mkWorld after
           (trace withCompiler ++ [EvSpawn (makeNSISPath host) args]))
    | SpawnThrow =>
        (Ok None,
         mkWorld (files withCompiler)
           (trace withCompiler ++ [EvSpawn (makeNSISPath host) args]))
    end.
Proof.
  apply (installer_build_ignores_exit_status tools host
           (options "win" oneRelease) "/out/App-delta.exe"
           "/cache/deltas/missing.delta" "missing.delta" withCompiler).
  vm_compute. reflexivity.
Defined.

(** The compiler exits with status 1 and writes nothing; the installer
    is reported as built all the same. *)
Example failed_compiler_run_is_reported_as_built :
  (build tools host (options "win" oneRelease) "/out/App-delta.exe"
     "/cache/deltas/missing.delta" "missing.delta" withCompiler).1
  = Ok (Some "/out/App-delta.exe")
  ∧ files
      (build tools host (options "win" oneRelease) "/out/App-delta.exe"
         "/cache/deltas/missing.delta" "missing.delta" withCompiler).2
    !! "/out/App-delta.exe" = None.
Proof. split; vm_compute; reflexivity. Qed.

Lemma invalid_tag_aborts_before_any_diff_witness :
  (∃ e,
     (createAllDeltas strictTools host
        (options "win" (Some [release "1.0.0"; release "nightly"])) cold).1
     = Throw e)
  ∧ ∃ t,
      trace
        (createAllDeltas strictTools host
           (options "win" (Some [release "1.0.0"; release "nightly"]))
           cold).2
      = trace cold ++ t
      ∧ Forall fetchOnly t.
Proof.
  apply (invalid_tag_aborts_before_any_diff strictTools host
           (options "win" (Some [release "1.0.0"; release "nightly"]))
           cold _ _ (release "nightly")).
  - apply list_elem_of_further, list_elem_of_here.
  - reflexivity.
  - apply surjective_pairing.
Defined.

End BuildWitnesses.

Section TopLevelWitnesses.
Import Builder DeltaBuilder.

Lemma removeExt_removes_first_occurrence_witness :
  removeExt ("App.Tools" +:+ ".exe" +:+ "-Setup-2.0.0.exe")
  = "App.Tools" +:+ "-Setup-2.0.0.exe"
  ∧ removeExt "App.Tools" = "App.Tools".
Proof.
  apply (removeExt_removes_first_occurrence "App.Tools" "-Setup-2.0.0.exe").
  vm_compute. reflexivity.
Defined.

Lemma latest_release_is_first_matching_artifact_witness :
  ∃ before after,
    artifactPaths (context []) = before ++ "/dist/App-2.0.0.exe" :: after
    ∧ isLatestRelease "win" "nsis" "/dist/App-2.0.0.exe" = true
    ∧ Forall (fun d => isLatestRelease "win" "nsis" d = false) before
    ∧ "App-2.0.0"
      = removeExt (basename BuildScenario.tools "/dist/App-2.0.0.exe").
Proof.
  apply (proj1 (latest_release_is_first_matching_artifact BuildScenario.tools
                  (artifactPaths (context [])) "win" "nsis")
           "/dist/App-2.0.0.exe" "App-2.0.0").
  vm_compute. reflexivity.
Defined.

Lemma build_passes_over_other_platforms_witness :
  build BuildScenario.tools BuildScenario.host process
    (context [("linux", ["AppImage"])]) (options BuildScenario.twoReleases)
    BuildScenario.cold
  = (Ok [], BuildScenario.cold).
Proof.
  apply (build_passes_over_other_platforms BuildScenario.tools
           BuildScenario.host process (context [("linux", ["AppImage"])])
           (options BuildScenario.twoReleases) BuildScenario.cold).
  constructor; [|constructor]. split; discriminate.
Defined.

Lemma first_release_ships_only_mac_helpers_witness :
  build BuildScenario.tools BuildScenario.host process
    (context [("win", ["nsis"]); ("linux", ["AppImage"]); ("mac", ["zip"])])
    (options None) BuildScenario.cold
  = (Ok (concat
           (map (helpersOf process)
              (platformToTargets
                 (context [("win", ["nsis"]); ("linux", ["AppImage"]);
                           ("mac", ["zip"])])))),
     BuildScenario.cold).
Proof.
  apply (first_release_ships_only_mac_helpers BuildScenario.tools
           BuildScenario.host process
           (context [("win", ["nsis"]); ("linux", ["AppImage"]);
                     ("mac", ["zip"])])
           (options None) BuildScenario.cold).
  - intros platform target. by left.
  - constructor; [|constructor; [|constructor; [|constructor]]].
    + split; [|discriminate]. intros _. exists "nsis".
      split; [reflexivity|]. vm_compute. discriminate.
    + split; discriminate.
    + split; [discriminate|]. intros _. vm_compute. discriminate.
Defined.

Lemma unsupported_windows_target_throws_witness :
  build BuildScenario.tools BuildScenario.host process
    (context [("linux", ["AppImage"]); ("win", ["portable"]);
              ("mac", ["zip"])])
    (options BuildScenario.twoReleases) BuildScenario.cold
  = match
      foldM [("linux", ["AppImage"])] []
        (buildPlatform BuildScenario.tools BuildScenario.host process
           (context [("linux", ["AppImage"]); ("win", ["portable"]);
                     ("mac", ["zip"])])
           (options BuildScenario.twoReleases))
        BuildScenario.cold
    with
    | (Ok _, w') => (Throw "TypeError", w')
    | other => other
    end
  ∧ ∀ buildFiles,
      (build BuildScenario.tools BuildScenario.host process
         (context [("linux", ["AppImage"]); ("win", ["portable"]);
                   ("mac", ["zip"])])
         (options BuildScenario.twoReleases) BuildScenario.cold).1
      ≠ Ok buildFiles.
Proof.
  apply (unsupported_windows_target_throws BuildScenario.tools
           BuildScenario.host process
           (context [("linux", ["AppImage"]); ("win", ["portable"]);
                     ("mac", ["zip"])])
           (options BuildScenario.twoReleases) BuildScenario.cold
           [("linux", ["AppImage"])] ["portable"] [("mac", ["zip"])]).
  - reflexivity.
  - intros target [= <-]. split; discriminate.
Defined.

(** A Windows platform with an unsupported target that comes after
    another platform: the build throws all the same. *)
Example unsupported_target_after_other_platform :
  build BuildScenario.tools BuildScenario.host process
    (context [("linux", ["AppImage"]); ("win", ["portable"]);
              ("mac", ["zip"])])
    (options BuildScenario.twoReleases) BuildScenario.cold
  = (Throw "TypeError", BuildScenario.cold).
Proof. vm_compute. reflexivity. Qed.

End TopLevelWitnesses.

Section HostWitnesses.
Import Url UrlSpec Providers Lifecycle.

Lemma github_feed_is_the_release_download_url_witness :
  getGithubFeedURL tagged acme = Some (releaseDownloadURL acme "v2.0.0")
  ∧ newBaseUrl (releaseDownloadURL acme "v2.0.0")
    = Some (releaseDownloadURL acme "v2.0.0")
  ∧ ∀ name, safeName name = true →
      newUrlFromBase name (releaseDownloadURL acme "v2.0.0")
      = Some (releaseDownloadURL acme "v2.0.0" +:+ name).
Proof.
  apply (proj1 (github_feed_is_the_release_download_url tagged acme)
           "v2.0.0").
  - reflexivity.
  - vm_compute. reflexivity.
  - vm_compute. reflexivity.
  - vm_compute. reflexivity.
Defined.


Lemma stripTrailingSlash_removes_one_slash_witness :
  stripTrailingSlash ("/programs/App/" +:+ "/") = "/programs/App/"
  ∧ (Js.endsWith "/" "/programs/App/" = false →
     stripTrailingSlash "/programs/App/" = "/programs/App/").
Proof.
  apply (stripTrailingSlash_removes_one_slash "/programs/App/").
Defined.

Lemma guessed_host_is_a_base_url_witness :
  guessHostURL (net tagged) (Some githubConfig)
  = Ok (Some (href (withTrailingSlash (releaseDownload acme "v2.0.0"))))
  ∧ newBaseUrl (href (withTrailingSlash (releaseDownload acme "v2.0.0")))
    = Some (href (withTrailingSlash (releaseDownload acme "v2.0.0"))).
Proof.
  apply (proj1 (proj2 (proj2
           (guessed_host_is_a_base_url (net tagged) githubConfig)))
           "https://github.com/acme/app/releases/download/v2.0.0/"
           (releaseDownload acme "v2.0.0")).
  - vm_compute. reflexivity.
  - vm_compute. reflexivity.
  - vm_compute. reflexivity.
Defined.

(** The base URL of the client is no URL: the call throws. *)
Example client_base_without_scheme_throws :
  guessHostURL (net tagged) (Some s3HostConfig) = Throw "TypeError".
Proof. vm_compute. reflexivity. Qed.


End HostWitnesses.

Section InstallWitnesses.
Import Updater ClientSpec Lifecycle.

Lemma failed_patch_leaves_the_app_running_witness :
  applyDeltaUpdate (app Win32 false) (deltaPath downloaded) "2.0.0"
    (mkWorld ∅ [])
  = (if execSync (app Win32 false)
          (patchCommand (app Win32 false) (deltaPath downloaded) "1")
     then Ok tt else Throw "TypeError",
     mkWorld
       (files (writeAutoUpdateDetails (app Win32 false) true "2.0.0"
                 (mkWorld ∅ [])).2)
       (trace (mkWorld ∅ ([] : list Step))
        ++ [StepSafeQuit;
            StepExecSync
              (patchCommand (app Win32 false) (deltaPath downloaded) "1")]
        ++ (if execSync (app Win32 false)
                 (patchCommand (app Win32 false) (deltaPath downloaded) "1")
            then [StepRemoveQuitListener; StepAppQuit] else []))).
Proof.
  apply (failed_patch_leaves_the_app_running (app Win32 false)
           (deltaPath downloaded) "2.0.0" (mkWorld ∅ [])).
  discriminate.
Defined.

Lemma attempt_record_guards_the_next_cycle_witness :
  files (quitAndInstall (app Win32 false) (Some downloaded)
           (mkWorld ∅ [])).2
  = <[updateDetailsJSON (app Win32 false)
      := encode (app Win32 false)
           (attemptRecord (app Win32 false) (delta downloaded)
              (newVersion downloaded))]> ∅
  ∧ onUpdateAvailable
      (envOn (app Win32 false)
         (files (quitAndInstall (app Win32 false) (Some downloaded)
                   (mkWorld ∅ [])).2))
      5 info start
    = (Ok tt,
       mkWorld (files start)
         (trace start
          ++ ActEmit "update-available"
             :: (if updaterWindow (env (app Win32 false))
                 then [ActDispatch "update-available"] else [])
          ++ [ActDownloadUpdate])).
Proof.
  apply (proj1 (attempt_record_guards_the_next_cycle (app Win32 false)
                  downloaded (mkWorld ∅ []) 5 info start)).
  - discriminate.
  - reflexivity.
  - vm_compute. reflexivity.
Defined.

(** Where the record cannot be written, the installation goes on and
    leaves no record. *)
Example failed_record_write_is_swallowed :
  quitAndInstall (readOnly (app Win32 true)) (Some downloaded)
    (mkWorld ∅ [])
  = (Ok tt,
     mkWorld ∅
       [StepSafeQuit;
        StepExecSync
          (patchCommand (app Win32 true) (deltaPath downloaded) "1");
        StepRemoveQuitListener; StepAppQuit]).
Proof. vm_compute. reflexivity. Qed.

End InstallWitnesses.
